(** * multiple_file_parser: text extraction from office documents

    A shallow embedding of the Go package [documentParser]
    (obutora/multiple_file_parser) and the properties of its extractors.

    Representation of Go values:
    - a Go [string] that the code walks rune by rune ([sanitizeText], the
      office and PDF assemblers) is the sequence of its code points,
      [text := list rune] with [rune := Z] (Go's [rune] is [int32]); the texts
      are the valid UTF-8 strings, on which [[]rune(s)], [for _, r := range s]
      and [WriteRune] are the identity on code points;
    - a Go [[]byte] and the string [string(data)] made from it are [list Byte.byte];
    - [(string, error)] results are [result A := error + A];
    - a Go [map[string]string] is a [gmap text text]: a finite map, with no
      order on its keys. *)

From Stdlib Require Import ZArith List Bool Lia Ascii String DecimalString.
From stdpp Require Import gmap.
Import ListNotations.
Local Open Scope Z_scope.

(** ** Go strings and the [strings] package *)

Module GoStrings.

Definition rune := Z.
Definition text := list rune.

(** An ASCII literal of the source, as code points. *)
Definition lit (s : string) : text :=
  List.map (fun a => Z.of_nat (nat_of_ascii a)) (list_ascii_of_string s).

Definition rune_eqb (a b : rune) : bool := Z.eqb a b.

Fixpoint text_eqb (a b : text) : bool :=
  match a, b with
  | [], [] => true
  | x :: a', y :: b' => rune_eqb x y && text_eqb a' b'
  | _, _ => false
  end.

(** [strings.HasPrefix(s, prefix)] *)
Fixpoint HasPrefix (s prefix : text) {struct prefix} : bool :=
  match prefix, s with
  | [], _ => true
  | p :: prefix', c :: s' => rune_eqb c p && HasPrefix s' prefix'
  | _ :: _, [] => false
  end.

(** [strings.HasSuffix(s, suffix)] *)
Definition HasSuffix (s suffix : text) : bool :=
  HasPrefix (rev s) (rev suffix).

(** [strings.Contains(s, substr)] *)
Fixpoint Contains (s substr : text) : bool :=
  HasPrefix s substr ||
  match s with
  | [] => false
  | _ :: s' => Contains s' substr
  end.

(** The scan of [strings.ReplaceAll] for a non-empty [old]: left to right, non
    overlapping; [skip] counts the runes of a match still to be dropped. *)
Fixpoint replaceFrom (old new : text) (skip : nat) (s : text) : text :=
  match s with
  | [] => []
  | c :: s' =>
      match skip with
      | S k => replaceFrom old new k s'
      | O =>
          if HasPrefix s old
          then new ++ replaceFrom old new (Nat.pred (length old)) s'
          else c :: replaceFrom old new O s'
      end
  end.

(** [strings.ReplaceAll(s, old, new)]; for an empty [old] Go inserts [new]
    before every rune and at the end. *)
Definition ReplaceAll (s old new : text) : text :=
  match old with
  | [] => new ++ flat_map (fun c => c :: new) s
  | _ :: _ => replaceFrom old new O s
  end.

(** [unicode.IsSpace]: the Latin-1 spaces and the White_Space code points. *)
Definition IsSpace (r : rune) : bool :=
  ((9 <=? r) && (r <=? 13)) || (r =? 32) || (r =? 0x85) || (r =? 0xA0) ||
  (r =? 0x1680) || ((0x2000 <=? r) && (r <=? 0x200A)) ||
  (r =? 0x2028) || (r =? 0x2029) || (r =? 0x202F) || (r =? 0x205F) ||
  (r =? 0x3000).

(** [strings.TrimLeftFunc] *)
Fixpoint TrimLeftFunc (s : text) (f : rune -> bool) : text :=
  match s with
  | [] => []
  | c :: s' => if f c then TrimLeftFunc s' f else s
  end.

(** [strings.TrimRightFunc] *)
Fixpoint TrimRightFunc (s : text) (f : rune -> bool) : text :=
  match s with
  | [] => []
  | c :: s' =>
      match TrimRightFunc s' f with
      | [] => if f c then [] else [c]
      | r => c :: r
      end
  end.

(** [strings.TrimSpace]: leading and trailing white space removed. *)
Definition TrimSpace (s : text) : text :=
  TrimRightFunc (TrimLeftFunc s IsSpace) IsSpace.

(** [strings.Join(elems, sep)] *)
Fixpoint Join (elems : list text) (sep : text) : text :=
  match elems with
  | [] => []
  | [e] => e
  | e :: rest => e ++ sep ++ Join rest sep
  end.

(** [%d] of [fmt.Sprintf] for a non-negative [int]. *)
Definition itoa (n : nat) : text :=
  lit (NilEmpty.string_of_uint (Nat.to_uint n)).

Definition text_eq_dec (a b : text) : {a = b} + {a <> b} :=
  List.list_eq_dec Z.eq_dec a b.

End GoStrings.
Import GoStrings.

(** ** Errors and results *)

Inductive error : Type :=
| ErrSizeExceeded (size maxSize : Z)   (* "file size %d exceeds maximum allowed size of %d bytes" *)
| ErrReadText                          (* "error reading text file: %w" *)
| ErrReadPDF                           (* "error reading PDF: %w" *)
| ErrReadWord                          (* "error reading Word file: %w" *)
| ErrOpenEntry (name : list Z)         (* "error opening file %s: %w" *)
| ErrParseXML                          (* "error parsing XML: %w", or the error of DecodeElement *)
| ErrReadPowerPoint                    (* "error reading PowerPoint: %w" *)
| ErrOpenExcel                         (* "failed to open file: %w" *)
| ErrNoDataFound.                      (* "no data found" *)

Definition result (A : Type) : Type := (error + A)%type.
Definition Ok {A : Type} (a : A) : result A := inr a.
Definition Err {A : Type} (e : error) : result A := inl e.

(** ** The text sanitizer *)

Module Sanitizer.

Definition space : rune := 32.

(** [isJapaneseChar] *)
Definition isJapaneseChar (r : rune) : bool :=
  ((0x3040 <=? r) && (r <=? 0x309F)) ||
  ((0x30A0 <=? r) && (r <=? 0x30FF)) ||
  ((0x4E00 <=? r) && (r <=? 0x9FAF)).

(** The test of [removeJapaneseSpaces] at index [i] of [runes]: the rune is a
    space, [prevIsJapanese] and [nextIsJapanese]. *)
Definition spaceBetweenJapanese (runes : text) (i : nat) : bool :=
  let r := nth i runes 0 in
  let prevIsJapanese :=
    (0 <? i)%nat && isJapaneseChar (nth (i - 1) runes 0) in
  let nextIsJapanese :=
    (i <? length runes - 1)%nat && isJapaneseChar (nth (i + 1) runes 0) in
  (r =? space) && (prevIsJapanese && nextIsJapanese).

(** [removeJapaneseSpaces]: the loop [for i, r := range runes] with the
    builder [result] as accumulator. *)
Definition removeJapaneseSpaces (txt : text) : text :=
  let runes := txt in
  fold_left
    (fun result i =>
       if spaceBetweenJapanese runes i then result
       else result ++ [nth i runes 0])
    (seq 0 (length runes)) [].

(** [convertFullWidthToHalfWidth] *)
Definition halfWidth (r : rune) : rune :=
  if (0xFF01 <=? r) && (r <=? 0xFF5E) then r - 0xFF00 + 0x0020 else r.

Definition convertFullWidthToHalfWidth (txt : text) : text :=
  List.map halfWidth txt.

(** The loop [for strings.Contains(text, "  ") { text = ReplaceAll(...) }];
    every round shortens the text, so its length is fuel enough. *)
Fixpoint collapseLoop (fuel : nat) (txt : text) : text :=
  match fuel with
  | O => txt
  | S fuel' =>
      if Contains txt [space; space]
      then collapseLoop fuel' (ReplaceAll txt [space; space] [space])
      else txt
  end.

Definition collapseSpaces (txt : text) : text :=
  collapseLoop (length txt) txt.

(** [sanitizeText], on the valid UTF-8 strings.  (On a string with a byte
    that is not valid UTF-8 the loop of [convertFullWidthToHalfWidth] writes
    U+FFFD for that byte, after the step that removes U+FFFD; a sequence of
    code points does not express such a string.) *)
Definition sanitizeText (txt : text) : text :=
  let txt := ReplaceAll txt [0xFFFD] [] in
  let txt := convertFullWidthToHalfWidth txt in
  let txt := removeJapaneseSpaces txt in
  let txt := ReplaceAll txt [9] [space] in
  let txt := ReplaceAll txt [13; 10] [10] in
  let txt := ReplaceAll txt [13] [10] in
  let txt := collapseSpaces txt in
  TrimSpace txt.

End Sanitizer.
Import Sanitizer.

(** ** The PDF extractor *)

Module PDF.

(** What the code reads of a [pdf.Page]: whether [page.V] is null and the
    strings [text.S] of [page.Content().Text]. *)
Record Page := { V_IsNull : bool; Content_Text : list text }.

(** What the code reads of a [*pdf.Reader]. *)
Record Reader := { NumPage : nat; GetPage : nat -> Page }.

(** The inner loop [for _, text := range texts]. *)
Definition collectPageTexts (texts : list text) : list text :=
  fold_left
    (fun pageTexts S =>
       let cleanedText := TrimSpace S in
       match cleanedText with
       | [] => pageTexts
       | _ :: _ => pageTexts ++ [cleanedText]
       end)
    texts [].

(** One round of [for i := 1; i <= numPages; i++]. *)
Definition pageStep (pdfReader : Reader) (result : text) (i : nat) : text :=
  let page := GetPage pdfReader i in
  if V_IsNull page then result
  else
    let result := result ++ (lit "## Page " ++ itoa i ++ [10; 10]) in
    let pageTexts := collectPageTexts (Content_Text page) in
    let result :=
      match pageTexts with
      | [] => result
      | _ :: _ => result ++ sanitizeText (Join pageTexts [space])
      end in
    result ++ [10; 10].

(** [PDFParser.ParseFromReader]; [opened] is the outcome of [pdf.NewReader]. *)
Definition ParseFromReader (opened : option Reader) : result text :=
  match opened with
  | None => Err ErrReadPDF
  | Some pdfReader =>
      let numPages := NumPage pdfReader in
      Ok (fold_left (pageStep pdfReader) (seq 1 numPages) [])
  end.

End PDF.

(** ** The Word extractor (package documentParser) *)

Module Docx.

(** The tokens of [word/document.xml] as a tree: an element with its local
    name and content, or character data. *)
#[warnings="-register-all"]
Inductive Node : Type :=
| Element (local : text) (children : list Node)
| CharData (data : text).

Record DocxText := { Content : text }.
Record DocxRun := { Text : DocxText }.
Record DocxParagraph := { Runs : list DocxRun }.
Record DocxTableCell := { Paragraphs : list DocxParagraph }.
Record DocxTableRow := { Cells : list DocxTableCell }.
Record DocxTable := { Rows : list DocxTableRow }.

(** [decoder.DecodeElement] of encoding/xml on these structs: a slice field
    tagged [xml:"x"] takes the child elements of local name [x] in order, a
    struct field the last such child, a [chardata] field the character data
    directly inside the element. *)
Definition childElements (local : text) (children : list Node) : list (list Node) :=
  flat_map
    (fun n =>
       match n with
       | Element l cs => if text_eqb l local then [cs] else []
       | CharData _ => []
       end)
    children.

Definition decodeText (children : list Node) : DocxText :=
  {| Content :=
      flat_map
        (fun n => match n with CharData d => d | Element _ _ => [] end)
        children |}.

Definition decodeRun (children : list Node) : DocxRun :=
  {| Text := List.last (List.map decodeText (childElements (lit "t") children))
               {| Content := [] |} |}.

Definition decodeParagraph (children : list Node) : DocxParagraph :=
  {| Runs := List.map decodeRun (childElements (lit "r") children) |}.

Definition decodeCell (children : list Node) : DocxTableCell :=
  {| Paragraphs := List.map decodeParagraph (childElements (lit "p") children) |}.

Definition decodeRow (children : list Node) : DocxTableRow :=
  {| Cells := List.map decodeCell (childElements (lit "tc") children) |}.

Definition decodeTable (children : list Node) : DocxTable :=
  {| Rows := List.map decodeRow (childElements (lit "tr") children) |}.

(** [extractTextFromParagraph] *)
Definition extractTextFromParagraph (p : DocxParagraph) : text :=
  fold_left (fun paragraphText run => paragraphText ++ Content (Text run))
    (Runs p) [].

(** [extractTextFromTable] *)
Definition rowTexts (row : DocxTableRow) : list text :=
  fold_left
    (fun rowTexts cell =>
       fold_left
         (fun rowTexts p =>
            let txt := extractTextFromParagraph p in
            match txt with
            | [] => rowTexts
            | _ :: _ => rowTexts ++ [txt]
            end)
         (Paragraphs cell) rowTexts)
    (Cells row) [].

Definition extractTextFromTable (tbl : DocxTable) : text :=
  fold_left
    (fun sb row =>
       let rowTexts := rowTexts row in
       match rowTexts with
       | [] => sb
       | _ :: _ => sb ++ (Join rowTexts [9] ++ [10])
       end)
    (Rows tbl) [].

(** The token loop of [ParseFromReader], on the tree: the state is
    [(inBody, allText)]; a [p] or [tbl] element met inside the body is
    consumed whole by [DecodeElement], any other element is entered. *)
Fixpoint walk (n : Node) (st : bool * text) : bool * text :=
  match n with
  | CharData _ => st
  | Element local children =>
      let inBody := fst st || text_eqb local (lit "body") in
      let allText := snd st in
      if inBody && text_eqb local (lit "p") then
        let txt := extractTextFromParagraph (decodeParagraph children) in
        match txt with
        | [] => (inBody, allText)
        | _ :: _ => (inBody, allText ++ (txt ++ [10]))
        end
      else if inBody && text_eqb local (lit "tbl") then
        (inBody, allText ++ extractTextFromTable (decodeTable children))
      else
        let st' := fold_left (fun st c => walk c st) children (inBody, allText) in
        (if text_eqb local (lit "body") then false else fst st', snd st')
  end.

Definition parseDocument (tokens : list Node) : text :=
  snd (fold_left (fun st n => walk n st) tokens (false, [])).

(** An entry of the zip archive: opening it may fail, and its XML may be
    ill-formed. *)
Inductive Payload : Type :=
| OpenFails
| Malformed
| Tokens (doc : list Node).

Record File := { Name : text; Open : Payload }.

Fixpoint findDocument (files : list File) : result text :=
  match files with
  | [] => Ok []
  | f :: rest =>
      if text_eqb (Name f) (lit "word/document.xml") then
        match Open f with
        | OpenFails => Err (ErrOpenEntry (Name f))
        | Malformed => Err ErrParseXML
        | Tokens doc => Ok (parseDocument doc)
        end
      else findDocument rest
  end.

(** [DOCXParser.ParseFromReader]; [archive] is the outcome of
    [zip.NewReader]. *)
Definition ParseFromReader (archive : option (list File)) : result text :=
  match archive with
  | None => Err ErrReadWord
  | Some files => findDocument files
  end.

End Docx.

(** ** The earlier Word extractor (docx.go, package service) *)

Module ServiceDocx.
Import Docx.

Record DocxBody := { Paragraphs : list DocxParagraph }.
Record DocxDocument := { Body : DocxBody }.

(** The loop of [extractTextFromDocument]: one entry of [result] for every
    paragraph. *)
Definition paragraphLines (document : DocxDocument) : list text :=
  fold_left
    (fun result paragraph =>
       let paragraphText :=
         fold_left
           (fun paragraphText run =>
              match Content (Text run) with
              | [] => paragraphText
              | c => paragraphText ++ c
              end)
           (Runs paragraph) [] in
       if (0 <? length paragraphText)%nat
       then result ++ [paragraphText]
       else result ++ [[]])
    (Paragraphs (Body document)) [].

(** [extractTextFromDocument] *)
Definition extractTextFromDocument (document : DocxDocument) : text :=
  Join (paragraphLines document) [10].

End ServiceDocx.

(** ** The PowerPoint extractor (pptx.go) *)

Module Pptx.

Record TextRun := { Text : text }.
Record Paragraph := { Runs : list TextRun }.
Record TextBody := { Paragraphs : list Paragraph }.
Record Shape := { Shape_TextBody : TextBody }.
Record SlideData := { Shapes : list Shape }.
Record Slide := { Slide_SlideData : SlideData }.

(** [extractTextFromSlide] *)
Definition paragraphText (paragraph : Paragraph) : text :=
  fold_left
    (fun paragraphText run =>
       match Text run with
       | [] => paragraphText
       | t => paragraphText ++ t
       end)
    (Runs paragraph) [].

Definition slideLines (slide : Slide) : list text :=
  fold_left
    (fun result shape =>
       fold_left
         (fun result paragraph =>
            let paragraphText := paragraphText paragraph in
            if (0 <? length paragraphText)%nat
            then result ++ [paragraphText]
            else result)
         (Paragraphs (Shape_TextBody shape)) result)
    (Shapes (Slide_SlideData slide)) [].

Definition extractTextFromSlide (slide : Slide) : text :=
  Join (slideLines slide) [10].

(** What becomes of an archive entry between [f.Open()] and
    [xml.Unmarshal(content, &slide)]. *)
Inductive Payload : Type :=
| OpenFails
| ReadFails
| UnmarshalFails
| Unmarshalled (slide : Slide).

Record File := { Name : text; Open : Payload }.

(** The condition that selects the slide files. *)
Definition isSlideFile (name : text) : bool :=
  HasPrefix name (lit "ppt/slides/slide") &&
  HasSuffix name (lit ".xml") &&
  negb (Contains name (lit "Layout")) &&
  negb (Contains name (lit "Master")).

(** The section written for a decoded slide. *)
Definition slideSection (slideNum : nat) (slide : Slide) : text :=
  let extractedText := extractTextFromSlide slide in
  (lit "## Slide " ++ itoa slideNum ++ [10]) ++
  (if (0 <? length extractedText)%nat then extractedText
   else lit "(No text found)") ++
  [10; 10].

(** One round of [for _, f := range r.File]; the state is
    [(allText, slideNum)]. *)
Definition fileStep (st : text * nat) (f : File) : text * nat :=
  let '(allText, slideNum) := st in
  if isSlideFile (Name f) then
    match Open f with
    | OpenFails => st
    | ReadFails => st
    | UnmarshalFails => st
    | Unmarshalled slide =>
        (allText ++ slideSection slideNum slide, S slideNum)
    end
  else st.

(** [PPTXParser.ParseFromReader]; [archive] is the outcome of
    [zip.NewReader]. *)
Definition ParseFromReader (archive : option (list File)) : result text :=
  match archive with
  | None => Err ErrReadPowerPoint
  | Some files => Ok (fst (fold_left fileStep files ([], 1%nat)))
  end.

End Pptx.

(** ** The Excel extractor *)

Module Excel.

(** What the code reads of an [*excelize.File]: the sheet names in workbook
    order, and for a sheet name the row iterator of [f.Rows], [None] when
    [f.Rows] fails; a row is [None] when [rows.Columns] fails. *)
Record File := {
  GetSheetList : list text;
  Rows : text -> option (list (option (list text)))
}.

Record sheetContent := { name : text; content : text }.

(** The loop [for rows.Next()] *)
Definition sheetText (rows : list (option (list text))) : text :=
  fold_left
    (fun buf columns =>
       match columns with
       | None => buf
       | Some row => buf ++ (Join row (lit " | ") ++ [10])
       end)
    rows [].

(** The loop [for _, sheet := range sheetList] of [extractSheets]. *)
Definition collectSheets (f : File) : list sheetContent :=
  fold_left
    (fun results sheet =>
       match Rows f sheet with
       | None => results
       | Some rows =>
           results ++ [{| name := sheet; content := sheetText rows |}]
       end)
    (GetSheetList f) [].

(** [ExcelParser.extractSheets]; [opened] is the outcome of
    [excelize.OpenReader]. *)
Definition extractSheets (opened : option File) : result (list sheetContent) :=
  match opened with
  | None => Err ErrOpenExcel
  | Some f =>
      let results := collectSheets f in
      if (length results =? 0)%nat then Err ErrNoDataFound else Ok results
  end.

(** What [ParseFromReader] writes for one sheet. *)
Definition sheetSection (sheet : sheetContent) : text :=
  (lit "# Sheet " ++ name sheet ++ [10]) ++ content sheet ++
  ([10] ++ lit "---" ++ [10; 10]).

(** [ExcelParser.ParseFromReader] *)
Definition ParseFromReader (opened : option File) : result text :=
  match extractSheets opened with
  | inl err => Err err
  | inr sheets =>
      let buf := fold_left (fun buf sheet => buf ++ sheetSection sheet) sheets [] in
      if (length buf =? 0)%nat then Err ErrNoDataFound else Ok buf
  end.

(** [ExcelParser.ParseWithPages] *)
Definition ParseWithPages (opened : option File) : result (gmap text text) :=
  match extractSheets opened with
  | inl err => Err err
  | inr sheets =>
      Ok (fold_left (fun result sheet => <[name sheet := content sheet]> result)
            sheets ∅)
  end.

End Excel.

(** ** The plain text parser *)

Module TextParser.

Definition maxSize : Z := 100 * 1024 * 1024.

Definition len {A : Type} (l : list A) : Z := Z.of_nat (length l).

(** [TextParser.ParseFromBytes] *)
Definition ParseFromBytes (data : list Byte.byte) : result (list Byte.byte) :=
  if len data >? maxSize then Err (ErrSizeExceeded (len data) maxSize)
  else Ok data.

(** The error of [ReadAt]: [nil], [io.EOF] or another one. *)
Inductive ioError : Type := ErrNil | EOF | ErrOther.

(** An [io.ReaderAt]: [ReadAt n off] is the call [ReadAt(p, off)] on a buffer
    [p] of [n] bytes, and gives the bytes read into [p[:n']] and the error. *)
Record ReaderAt := { ReadAt : Z -> Z -> list Byte.byte * ioError }.

(** [bytes.NewReader(data)] *)
Definition NewReader (data : list Byte.byte) : ReaderAt :=
  {| ReadAt := fun n off =>
       if off <? 0 then ([], ErrOther)
       else if off >=? len data then ([], EOF)
       else
         let chunk := firstn (Z.to_nat n) (skipn (Z.to_nat off) data) in
         (chunk, if len chunk <? n then EOF else ErrNil) |}.

(** A call returns, or panics ([make] with a negative length). *)
Inductive outcome (A : Type) : Type :=
| Returns (r : result A)
| Panics.
Arguments Returns {A} r.
Arguments Panics {A}.

(** [TextParser.ParseFromReader] *)
Definition ParseFromReader (reader : ReaderAt) (size : Z) : outcome (list Byte.byte) :=
  if size >? maxSize then Returns (Err (ErrSizeExceeded size maxSize))
  else if size <? 0 then Panics
  else
    let '(read, err) := ReadAt reader size 0 in
    match err with
    | ErrOther => Returns (Err ErrReadText)
    | ErrNil | EOF => Returns (Ok read)
    end.

End TextParser.

(** ** The earlier Excel extractor (package documentParser, before
    [extractSheets]) *)

Module ExcelV1.
Import Excel.

(** The loop [for rows.Next()], writing into the builder of the whole
    workbook. *)
Definition writeRows (buf : text) (rows : list (option (list text))) : text :=
  fold_left
    (fun buf columns =>
       match columns with
       | None => buf
       | Some row => buf ++ (Join row (lit " | ") ++ [10])
       end)
    rows buf.

(** One round of [for _, sheet := range sheetList]: the header is written
    before [f.Rows] is called. *)
Definition sheetStep (f : File) (buf : text) (sheet : text) : text :=
  let buf := buf ++ (lit "# Sheet " ++ sheet ++ [10]) in
  match Rows f sheet with
  | None => buf
  | Some rows =>
      let buf := writeRows buf rows in
      buf ++ ([10] ++ lit "---" ++ [10; 10])
  end.

(** [ExcelParser.ParseFromReader] *)
Definition ParseFromReader (opened : option File) : result text :=
  match opened with
  | None => Err ErrOpenExcel
  | Some f =>
      let buf := fold_left (sheetStep f) (GetSheetList f) [] in
      if (length buf =? 0)%nat then Err ErrNoDataFound else Ok buf
  end.

End ExcelV1.

(** ** The parser interface and the factory *)

Module Factory.
Import TextParser.

(** A string handed back through the interface: the assemblers build it rune
    by rune, the text parser makes it from bytes. *)
Inductive GoString : Type :=
| Runes (t : text)
| Bytes (data : list Byte.byte).

Inductive Error : Type :=
| NotImplemented                       (* "ParseFromReader not implemented" *)
| FailedToOpenFile                     (* "failed to open file: %w" *)
| FailedToGetFileStats                 (* "failed to get file stats: %w" *)
| Unsupported (extension : text)       (* "unsupported file extension: %s" *)
| OfParser (e : error)                 (* the error of a parser *)
| Wrapped (context : string) (e : Error).   (* fmt.Errorf("<context>: %w", err) *)

(** A call returns a value, returns an error, or panics. *)
Inductive Outcome (A : Type) : Type :=
| Return (v : A)
| Fail (e : Error)
| Panic.
Arguments Return {A} v.
Arguments Fail {A} e.
Arguments Panic {A}.

Definition ofResult (r : result text) : Outcome GoString :=
  match r with
  | inl e => Fail (OfParser e)
  | inr t => Return (Runes t)
  end.

Definition ofBytes (o : outcome (list Byte.byte)) : Outcome GoString :=
  match o with
  | Returns (inl e) => Fail (OfParser e)
  | Returns (inr data) => Return (Bytes data)
  | Panics => Panic
  end.

Definition ofPages (r : result (gmap text text)) : Outcome (gmap text GoString) :=
  match r with
  | inl e => Fail (OfParser e)
  | inr m => Return (Runes <$> m)
  end.

(** An opened [*os.File]: the size that [Stat] reports, when it succeeds, and
    the file as an [io.ReaderAt]. *)
Record OSFile := { Stat_Size : option Z; AsReaderAt : ReaderAt }.

(** The packages that the parsers call, taken as given: [os.Open], the
    readers of the container formats ([zip.NewReader] with the decoding of
    the entries, [pdf.NewReader], [excelize.OpenReader]) and the case table of
    [unicode.ToLower] beyond ASCII. *)
Record Libraries := {
  os_Open : text -> option OSFile;
  zip_NewReader_docx : ReaderAt -> Z -> option (list Docx.File);
  zip_NewReader_pptx : ReaderAt -> Z -> option (list Pptx.File);
  pdf_NewReader : ReaderAt -> Z -> option PDF.Reader;
  excelize_OpenReader : ReaderAt -> Z -> option Excel.File;
  unicode_ToLower : rune -> rune
}.

(** The interface [DocumentParser]; [ParseWithPages] is there for the
    parsers that are also a [PageSeparatedParser]. *)
Record DocumentParser := {
  ParseFromReader : ReaderAt -> Z -> Outcome GoString;
  ParseFromBytes : list Byte.byte -> Outcome GoString;
  ParseFromFile : text -> Outcome GoString;
  SupportedExtensions : list text;
  ParseWithPages : option (ReaderAt -> Z -> Outcome (gmap text GoString))
}.

(** [os.Open], [file.Stat] and the call of a [ParseFromReader] on the file:
    the body shared by [BaseParser.ParseFromFile], [parseFromFileCommon] and
    [PPTXParser.ParseFromFile]. *)
Definition openAndParse {A : Type} (lib : Libraries)
    (parseFromReader : ReaderAt -> Z -> Outcome A) (filePath : text) : Outcome A :=
  match os_Open lib filePath with
  | None => Fail FailedToOpenFile
  | Some file =>
      match Stat_Size file with
      | None => Fail FailedToGetFileStats
      | Some size => parseFromReader (AsReaderAt file) size
      end
  end.

(** The methods of [BaseParser]; inside them [p] is the [*BaseParser], so
    [p.ParseFromReader] is [BaseParser.ParseFromReader]. *)
Definition BaseParser_ParseFromReader (reader : ReaderAt) (size : Z) : Outcome GoString :=
  Fail NotImplemented.

Definition BaseParser_ParseFromBytes (data : list Byte.byte) : Outcome GoString :=
  BaseParser_ParseFromReader (NewReader data) (len data).

Definition BaseParser_ParseFromFile (lib : Libraries) (filePath : text) : Outcome GoString :=
  openAndParse lib BaseParser_ParseFromReader filePath.

(** [parseFromFileCommon] and [parseFromBytesCommon]; [p.ParseFromReader] is
    the method of the parser passed in. *)
Definition parseFromFileCommon (lib : Libraries)
    (p_ParseFromReader : ReaderAt -> Z -> Outcome GoString) (filePath : text) :=
  openAndParse lib p_ParseFromReader filePath.

Definition parseFromBytesCommon
    (p_ParseFromReader : ReaderAt -> Z -> Outcome GoString) (data : list Byte.byte) :=
  p_ParseFromReader (NewReader data) (len data).

(** The five parsers, each with the methods it declares and, for the others,
    those promoted from the embedded [BaseParser]. *)
Definition PPTX_ParseFromReader (lib : Libraries) (reader : ReaderAt) (size : Z) :=
  ofResult (Pptx.ParseFromReader (zip_NewReader_pptx lib reader size)).

Definition PPTXParser (lib : Libraries) : DocumentParser :=
  {| ParseFromReader := PPTX_ParseFromReader lib;
     ParseFromBytes := fun data => PPTX_ParseFromReader lib (NewReader data) (len data);
     ParseFromFile := openAndParse lib (PPTX_ParseFromReader lib);
     SupportedExtensions := [lit ".pptx"; lit ".ppt"];
     ParseWithPages := None |}.

Definition PDF_ParseFromReader (lib : Libraries) (reader : ReaderAt) (size : Z) :=
  ofResult (PDF.ParseFromReader (pdf_NewReader lib reader size)).

Definition PDFParser (lib : Libraries) : DocumentParser :=
  {| ParseFromReader := PDF_ParseFromReader lib;
     ParseFromBytes := parseFromBytesCommon (PDF_ParseFromReader lib);
     ParseFromFile := parseFromFileCommon lib (PDF_ParseFromReader lib);
     SupportedExtensions := [lit ".pdf"];
     ParseWithPages := None |}.

Definition DOCX_ParseFromReader (lib : Libraries) (reader : ReaderAt) (size : Z) :=
  ofResult (Docx.ParseFromReader (zip_NewReader_docx lib reader size)).

Definition DOCXParser (lib : Libraries) : DocumentParser :=
  {| ParseFromReader := DOCX_ParseFromReader lib;
     ParseFromBytes := BaseParser_ParseFromBytes;
     ParseFromFile := BaseParser_ParseFromFile lib;
     SupportedExtensions := [lit ".docx"; lit ".doc"];
     ParseWithPages := None |}.

Definition textExtensions : list text :=
  [
    lit ".txt"; lit ".md"; lit ".markdown"; lit ".mdown"; lit ".mkd"; lit ".mdwn";
    lit ".mkdn"; lit ".mdtxt"; lit ".mdtext"; lit ".text"; lit ".log"; lit ".csv";
    lit ".tsv"; lit ".json"; lit ".xml"; lit ".yaml"; lit ".yml"; lit ".toml";
    lit ".ini"; lit ".cfg"; lit ".conf"; lit ".properties"; lit ".env"; lit ".sh";
    lit ".bash"; lit ".zsh"; lit ".fish"; lit ".py"; lit ".js"; lit ".ts";
    lit ".jsx"; lit ".tsx"; lit ".go"; lit ".rs"; lit ".c"; lit ".cpp"; lit ".h";
    lit ".hpp"; lit ".java"; lit ".kt"; lit ".swift"; lit ".rb"; lit ".php";
    lit ".sql"; lit ".html"; lit ".htm"; lit ".css"; lit ".scss"; lit ".sass";
    lit ".less"; lit ".vue"; lit ".svelte"; lit ".r"; lit ".R"; lit ".m";
    lit ".pl"; lit ".lua"; lit ".dart"; lit ".scala"; lit ".clj"; lit ".ex";
    lit ".exs"; lit ".erl"; lit ".hrl"; lit ".fs"; lit ".fsx"; lit ".vb";
    lit ".bas"; lit ".pas"; lit ".asm"; lit ".s"; lit ".ps1"; lit ".psm1";
    lit ".bat"; lit ".cmd"; lit ".makefile"; lit ".mk"; lit ".dockerfile";
    lit ".gitignore"; lit ".editorconfig"; lit ".htaccess"; lit ".nginx";
    lit ".vimrc"; lit ".zshrc"; lit ".bashrc" ].

Definition TextParser (lib : Libraries) : DocumentParser :=
  {| ParseFromReader := fun reader size => ofBytes (TextParser.ParseFromReader reader size);
     ParseFromBytes := fun data => ofBytes (Returns (TextParser.ParseFromBytes data));
     ParseFromFile := BaseParser_ParseFromFile lib;
     SupportedExtensions := textExtensions;
     ParseWithPages := None |}.

Definition Excel_ParseFromReader (lib : Libraries) (reader : ReaderAt) (size : Z) :=
  ofResult (Excel.ParseFromReader (excelize_OpenReader lib reader size)).

Definition ExcelParser (lib : Libraries) : DocumentParser :=
  {| ParseFromReader := Excel_ParseFromReader lib;
     ParseFromBytes := parseFromBytesCommon (Excel_ParseFromReader lib);
     ParseFromFile := parseFromFileCommon lib (Excel_ParseFromReader lib);
     SupportedExtensions := [lit ".xlsx"; lit ".xls"];
     ParseWithPages :=
       Some (fun reader size =>
               ofPages (Excel.ParseWithPages (excelize_OpenReader lib reader size))) |}.

(** [DocumentParserFactory]: the map from extension to parser. *)
Record DocumentParserFactory := { parsers : gmap text DocumentParser }.

(** [RegisterParser]; the map is updated in place in the source, the new
    factory is returned here. *)
Definition RegisterParser (f : DocumentParserFactory) (parser : DocumentParser)
    : DocumentParserFactory :=
  {| parsers :=
      fold_left (fun m ext => <[ext := parser]> m) (SupportedExtensions parser)
        (parsers f) |}.

(** [NewDocumentParserFactory] *)
Definition NewDocumentParserFactory (lib : Libraries) : DocumentParserFactory :=
  let factory := {| parsers := ∅ |} in
  let factory := RegisterParser factory (PPTXParser lib) in
  let factory := RegisterParser factory (PDFParser lib) in
  let factory := RegisterParser factory (DOCXParser lib) in
  let factory := RegisterParser factory (TextParser lib) in
  RegisterParser factory (ExcelParser lib).

(** [strings.ToLower]: rune by rune, [A]..[Z] by the ASCII rule, the runes
    beyond ASCII by the table of [unicode.ToLower]. *)
Definition toLower (lib : Libraries) (r : rune) : rune :=
  if r <? 0x80 then
    if (0x41 <=? r) && (r <=? 0x5A) then r + 0x20 else r
  else unicode_ToLower lib r.

Definition ToLower (lib : Libraries) (s : text) : text := List.map (toLower lib) s.

(** The key that [GetParser] looks up. *)
Definition lookupKey (lib : Libraries) (extension : text) : text :=
  let ext := ToLower lib extension in
  if HasPrefix ext (lit ".") then ext else lit "." ++ ext.

(** [GetParser] *)
Definition GetParser (lib : Libraries) (f : DocumentParserFactory) (extension : text)
    : Error + DocumentParser :=
  let ext := lookupKey lib extension in
  match parsers f !! ext with
  | None => inl (Unsupported extension)
  | Some parser => inr parser
  end.

(** [getFileExtension]: the loop [for i := len(filePath) - 1; i >= 0; i--],
    started at [i]. *)
Fixpoint scanExtension (filePath : text) (i : nat) : text :=
  if nth i filePath 0 =? 0x2E then skipn i filePath
  else
    match i with
    | O => []
    | S i' => scanExtension filePath i'
    end.

Definition getFileExtension (filePath : text) : text :=
  match length filePath with
  | O => []
  | S last => scanExtension filePath last
  end.

(** What the methods of the factory do with the outcome of a parser. *)
Definition wrap {A : Type} (context : string) (o : Outcome A) : Outcome A :=
  match o with
  | Return v => Return v
  | Fail e => Fail (Wrapped context e)
  | Panic => Panic
  end.

(** [DocumentParserFactory.ParseFromFile], [ParseFromBytes] and
    [ParseFromReader] *)
Definition Factory_ParseFromFile (lib : Libraries) (f : DocumentParserFactory)
    (filePath : text) : Outcome GoString :=
  let ext := getFileExtension filePath in
  match GetParser lib f ext with
  | inl err => Fail (Wrapped "failed to get parser" err)
  | inr parser => wrap "failed to parse file" (ParseFromFile parser filePath)
  end.

Definition Factory_ParseFromBytes (lib : Libraries) (f : DocumentParserFactory)
    (ext : text) (data : list Byte.byte) : Outcome GoString :=
  match GetParser lib f ext with
  | inl err => Fail (Wrapped "failed to get parser" err)
  | inr parser => wrap "failed to parse bytes" (ParseFromBytes parser data)
  end.

Definition Factory_ParseFromReader (lib : Libraries) (f : DocumentParserFactory)
    (ext : text) (reader : ReaderAt) (size : Z) : Outcome GoString :=
  match GetParser lib f ext with
  | inl err => Fail (Wrapped "failed to get parser" err)
  | inr parser => wrap "failed to parse from reader" (ParseFromReader parser reader size)
  end.

(** The map [map[string]string{"Content": content}] *)
Definition contentOnly (o : Outcome GoString) : Outcome (gmap text GoString) :=
  match o with
  | Return content => Return {[ lit "Content" := content ]}
  | Fail e => Fail e
  | Panic => Panic
  end.

(** [ParseFromFileWithPages], [ParseFromBytesWithPages] and
    [ParseFromReaderWithPages] *)
Definition ParseFromFileWithPages (lib : Libraries) (f : DocumentParserFactory)
    (filePath : text) : Outcome (gmap text GoString) :=
  let ext := getFileExtension filePath in
  match GetParser lib f ext with
  | inl err => Fail (Wrapped "failed to get parser" err)
  | inr parser =>
      match ParseWithPages parser with
      | Some p_ParseWithPages => openAndParse lib p_ParseWithPages filePath
      | None => contentOnly (wrap "failed to parse file" (ParseFromFile parser filePath))
      end
  end.

Definition ParseFromBytesWithPages (lib : Libraries) (f : DocumentParserFactory)
    (ext : text) (data : list Byte.byte) : Outcome (gmap text GoString) :=
  match GetParser lib f ext with
  | inl err => Fail (Wrapped "failed to get parser" err)
  | inr parser =>
      match ParseWithPages parser with
      | Some p_ParseWithPages => p_ParseWithPages (NewReader data) (len data)
      | None => contentOnly (wrap "failed to parse bytes" (ParseFromBytes parser data))
      end
  end.

Definition ParseFromReaderWithPages (lib : Libraries) (f : DocumentParserFactory)
    (ext : text) (reader : ReaderAt) (size : Z) : Outcome (gmap text GoString) :=
  match GetParser lib f ext with
  | inl err => Fail (Wrapped "failed to get parser" err)
  | inr parser =>
      match ParseWithPages parser with
      | Some p_ParseWithPages => p_ParseWithPages reader size
      | None =>
          contentOnly (wrap "failed to parse from reader" (ParseFromReader parser reader size))
      end
  end.

End Factory.

(** * Notions used in the statements *)

Module PptxSpec.
Import Pptx.

(** The slides the loop decodes: the entries that pass [isSlideFile] and are
    opened, read and unmarshalled, in archive order. *)
Definition decodedSlides (files : list File) : list Slide :=
  flat_map
    (fun f =>
       if isSlideFile (Name f) then
         match Open f with
         | Unmarshalled slide => [slide]
         | _ => []
         end
       else [])
    files.

(** Sections numbered from [n] on, in order. *)
Fixpoint sections (n : nat) (slides : list Slide) : text :=
  match slides with
  | [] => []
  | s :: rest => slideSection n s ++ sections (S n) rest
  end.

Definition slidePath (file : string) : text := lit "ppt/slides/" ++ lit file.

(** What stands between the header of a slide and the blank line: the text
    of the slide, or the placeholder. *)
Definition slideBody (slide : Slide) : text :=
  if (0 <? length (extractTextFromSlide slide))%nat
  then extractTextFromSlide slide
  else lit "(No text found)".

(** The headed sections of the slides, numbered from [n] on, written out. *)
Definition headedSections (n : nat) (slides : list Slide) : text :=
  flat_map
    (fun numbered =>
       (lit "## Slide " ++ itoa (fst numbered) ++ [10]) ++
       slideBody (snd numbered) ++ [10; 10])
    (combine (seq n (length slides)) slides).

(** A slide with one shape holding one paragraph of one run, and a slide
    without shapes. *)
Definition textSlide (s : string) : Slide :=
  {| Slide_SlideData :=
      {| Shapes :=
          [ {| Shape_TextBody :=
                {| Paragraphs := [ {| Runs := [ {| Text := lit s |} ] |} ] |} |} ] |} |}.

Definition emptySlide : Slide := {| Slide_SlideData := {| Shapes := [] |} |}.

End PptxSpec.

Module ExcelSpec.
Import Excel.

(** The workbook [f] with another list of sheet names. *)
Definition withSheetList (f : File) (sheets : list text) : File :=
  {| GetSheetList := sheets; Rows := Rows f |}.

(** The header and the rule that [ParseFromReader] puts around a content. *)
Definition framed (sheet content : text) : text :=
  (lit "# Sheet " ++ sheet ++ [10]) ++ content ++ ([10] ++ lit "---" ++ [10; 10]).

(** The line of a row, and the entry of a sheet, when they can be read. *)
Definition rowLine (columns : option (list text)) : text :=
  match columns with
  | None => []
  | Some row => Join row (lit " | ") ++ [10]
  end.

Definition sheetEntry (f : File) (sheet : text) : list sheetContent :=
  match Rows f sheet with
  | None => []
  | Some rows => [{| name := sheet; content := sheetText rows |}]
  end.

(** Two sheets without rows. *)
Definition twoEmptySheets : File :=
  {| GetSheetList := [lit "Sheet1"; lit "Sheet2"]; Rows := fun _ => Some [] |}.

(** One sheet, whose rows cannot be obtained. *)
Definition oneUnreadableSheet : File :=
  {| GetSheetList := [lit "Sheet1"]; Rows := fun _ => None |}.

(** The same two sheets in the two possible orders. *)
Definition rowsAB (sheet : text) : option (list (option (list text))) :=
  if text_eqb sheet (lit "A") then Some [Some [lit "1"]]
  else if text_eqb sheet (lit "B") then Some [Some [lit "2"]]
  else None.

Definition workbookAB : File := {| GetSheetList := [lit "A"; lit "B"]; Rows := rowsAB |}.
Definition workbookBA : File := {| GetSheetList := [lit "B"; lit "A"]; Rows := rowsAB |}.

End ExcelSpec.

Module SanitizerSpec.

(** The three code-point ranges of the CJK characters. *)
Definition CJK (r : rune) : Prop :=
  (0x3040 <= r <= 0x309F) \/ (0x30A0 <= r <= 0x30FF) \/ (0x4E00 <= r <= 0x9FAF).

Definition isJapanese (o : option rune) : bool :=
  match o with
  | Some r => isJapaneseChar r
  | None => false
  end.

(** [removeJapaneseSpaces] by recursion on the text, with the rune before the
    current one at hand. *)
Fixpoint removeFrom (prev : option rune) (s : text) : text :=
  match s with
  | [] => []
  | r :: rest =>
      if (r =? space) && (isJapanese prev && isJapanese (head rest))
      then removeFrom (Some r) rest
      else r :: removeFrom (Some r) rest
  end.

(** What the loop of [removeJapaneseSpaces] writes at index [i]. *)
Definition written (runes : text) (i : nat) : text :=
  if spaceBetweenJapanese runes i then [] else [nth i runes 0].

(** A rune that the first two steps of [sanitizeText] leave alone and never
    produce. *)
Definition plainRune (r : rune) : Prop :=
  r <> 0xFFFD /\ ~ (0xFF01 <= r <= 0xFF5E).

(** The code points of a valid UTF-8 string: Unicode scalar values, that is
    no surrogate and nothing beyond U+10FFFF.  These are the strings that the
    embedding of [sanitizeText] covers. *)
Definition validUTF8 (s : text) : Prop :=
  Forall (fun r => 0 <= r < 0xD800 \/ 0xE000 <= r <= 0x10FFFF) s.

(** A rune as [sanitizeText] leaves it: plain, and neither a tab nor a
    carriage return. *)
Definition settled (r : rune) : Prop :=
  plainRune r /\ r <> 9 /\ r <> 13.

(** No white space at the left end, none at the right end. *)
Definition ltrimmed (s : text) : Prop :=
  match s with
  | [] => True
  | r :: _ => IsSpace r = false
  end.

Definition rtrimmed (s : text) : Prop := TrimRightFunc s IsSpace = s.

End SanitizerSpec.

Module PDFSpec.
Import PDF.

(** The text written between the header of a page and its closing blank
    line. *)
Definition pageBody (page : Page) : text :=
  match collectPageTexts (Content_Text page) with
  | [] => []
  | pageTexts => sanitizeText (Join pageTexts [space])
  end.

(** Three pages: one with two fragments, a null one, one without text. *)
Definition threePages : Reader :=
  {| NumPage := 3;
     GetPage := fun i =>
       match i with
       | 1%nat => {| V_IsNull := false; Content_Text := [lit " Hello"; lit "  "; lit "world "] |}
       | 2%nat => {| V_IsNull := true; Content_Text := [lit "hidden"] |}
       | _ => {| V_IsNull := false; Content_Text := [] |}
       end |}.

End PDFSpec.

Module DocxSpec.
Import Docx.

(** [<p><r><t>s</t></r></p>], [<p/>] and a table cell holding one
    paragraph. *)
Definition para (s : string) : Node :=
  Element (lit "p") [Element (lit "r") [Element (lit "t") [CharData (lit s)]]].

Definition emptyPara : Node := Element (lit "p") [].

Definition cell (s : string) : Node := Element (lit "tc") [para s].

Definition table2x2 : Node :=
  Element (lit "tbl")
    [ Element (lit "tr") [cell "a"; cell "b"];
      Element (lit "tr") [cell "c"; cell "d"] ].

(** The archive entry [word/document.xml] with the given body. *)
Definition documentXml (body : list Node) : File :=
  {| Name := lit "word/document.xml";
     Open := Tokens [Element (lit "document") [Element (lit "body") body]] |}.

(** What the token loop appends for a paragraph. *)
Definition paragraphLine (p : DocxParagraph) : text :=
  match extractTextFromParagraph p with
  | [] => []
  | txt => txt ++ [10]
  end.

(** The paragraphs of a body, as [xml.Unmarshal] decodes them into
    [DocxBody]. *)
Definition bodyOf (body : list Node) : ServiceDocx.DocxDocument :=
  {| ServiceDocx.Body :=
      {| ServiceDocx.Paragraphs :=
          List.map decodeParagraph (childElements (lit "p") body) |} |}.

End DocxSpec.

Module MoreSpec.

(** The test [text != ""]. *)
Definition nonEmpty (t : text) : bool :=
  match t with
  | [] => false
  | _ :: _ => true
  end.

(** An element named [body], here or below. *)
#[warnings="-register-all"]
Fixpoint mentionsBody (n : Docx.Node) : bool :=
  match n with
  | Docx.Element local children =>
      text_eqb local (lit "body") || existsb mentionsBody children
  | Docx.CharData _ => false
  end.

(** The line of a table row. *)
Definition rowLine (row : Docx.DocxTableRow) : text :=
  match Docx.rowTexts row with
  | [] => []
  | rowTexts => Join rowTexts [9] ++ [10]
  end.

(** The paragraphs of a slide, shape after shape. *)
Definition slideParagraphs (slide : Pptx.Slide) : list Pptx.Paragraph :=
  flat_map (fun shape => Pptx.Paragraphs (Pptx.Shape_TextBody shape))
    (Pptx.Shapes (Pptx.Slide_SlideData slide)).

(** Entries that the slide loop cannot tell apart: same payload, same answer
    to the slide-file test. *)
Definition sameSlideEntry (f f' : Pptx.File) : Prop :=
  Pptx.Open f = Pptx.Open f' /\
  Pptx.isSlideFile (Pptx.Name f) = Pptx.isSlideFile (Pptx.Name f').

(** What the earlier Excel loop writes for a sheet. *)
Definition sheetPiece (f : Excel.File) (sheet : text) : text :=
  (lit "# Sheet " ++ sheet ++ [10]) ++
  match Excel.Rows f sheet with
  | None => []
  | Some rows => Excel.sheetText rows ++ ([10] ++ lit "---" ++ [10; 10])
  end.

(** Two outcomes of [GetParser] that agree: the same parser, or no parser
    both times. *)
Definition sameParser (a b : Factory.Error + Factory.DocumentParser) : Prop :=
  match a, b with
  | inr p, inr q => p = q
  | inl _, inl _ => True
  | _, _ => False
  end.

(** Membership of an extension in a list of extensions. *)
Definition hasExt (extensions : list text) (ext : text) : bool :=
  existsb (text_eqb ext) extensions.

(** A library record for examples: nothing opens. *)
Definition noLibraries : Factory.Libraries :=
  {| Factory.os_Open := fun _ => None;
     Factory.zip_NewReader_docx := fun _ _ => None;
     Factory.zip_NewReader_pptx := fun _ _ => None;
     Factory.pdf_NewReader := fun _ _ => None;
     Factory.excelize_OpenReader := fun _ _ => None;
     Factory.unicode_ToLower := fun r => r |}.

End MoreSpec.

(** * Properties *)

(** ** The plain text parser *)

Section TextParserProps.
Import TextParser.

Lemma maxSize_value : maxSize = 104857600.
Proof. reflexivity. Qed.

Lemma len_nonneg {A : Type} (l : list A) : 0 <= len l.
Proof. unfold len. lia. Qed.

Lemma len_repeat {A : Type} (x : A) (n : Z) : 0 <= n -> len (repeat x (Z.to_nat n)) = n.
Proof. intros Hn. unfold len. rewrite repeat_length. lia. Qed.

Lemma ParseFromBytes_small (data : list Byte.byte) :
  len data <= maxSize -> ParseFromBytes data = Ok data.
Proof.
  intros Hle. unfold ParseFromBytes.
  destruct (Z.gtb_spec (len data) maxSize) as [Hgt | _]; [lia | reflexivity].
Qed.

Lemma ParseFromBytes_large (data : list Byte.byte) :
  maxSize < len data ->
  ParseFromBytes data = Err (ErrSizeExceeded (len data) maxSize).
Proof.
  intros Hlt. unfold ParseFromBytes.
  destruct (Z.gtb_spec (len data) maxSize) as [_ | Hle]; [reflexivity | lia].
Qed.

Lemma ParseFromReader_large (reader : ReaderAt) (size : Z) :
  maxSize < size ->
  ParseFromReader reader size = Returns (Err (ErrSizeExceeded size maxSize)).
Proof.
  intros Hlt. unfold ParseFromReader.
  destruct (Z.gtb_spec size maxSize) as [_ | Hle]; [reflexivity | lia].
Qed.

Lemma ParseFromReader_small (reader : ReaderAt) (size : Z) :
  0 <= size <= maxSize ->
  snd (ReadAt reader size 0) <> ErrOther ->
  ParseFromReader reader size = Returns (Ok (fst (ReadAt reader size 0))).
Proof.
  intros [H0 Hle] Herr. unfold ParseFromReader.
  destruct (Z.gtb_spec size maxSize) as [Hgt | _]; [lia |].
  destruct (Z.ltb_spec size 0) as [Hneg | _]; [lia |].
  destruct (ReadAt reader size 0) as [read err]; simpl in *.
  destruct err; [reflexivity | reflexivity | congruence].
Qed.

Lemma NewReader_ReadAt_all (data : list Byte.byte) :
  ReadAt (NewReader data) (len data) 0 = (data, if (len data =? 0) then EOF else ErrNil).
Proof.
  unfold NewReader; simpl.
  destruct (Z.geb_spec 0 (len data)) as [Hge | Hlt].
  - assert (Hz : len data = 0) by (pose proof (len_nonneg data); lia).
    rewrite Hz; simpl. unfold len in Hz.
    destruct data; [reflexivity | simpl in Hz; lia].
  - change (Z.to_nat 0) with 0%nat. rewrite skipn_O.
    replace (firstn (Z.to_nat (len data)) data) with data
      by (unfold len; rewrite Nat2Z.id, firstn_all; reflexivity).
    rewrite Z.ltb_irrefl.
    destruct (Z.eqb_spec (len data) 0); [lia | reflexivity].
Qed.

Lemma ParseFromReader_bytes (data : list Byte.byte) :
  len data <= maxSize ->
  ParseFromReader (NewReader data) (len data) = Returns (Ok data).
Proof.
  intros Hle.
  rewrite ParseFromReader_small.
  - rewrite NewReader_ReadAt_all. reflexivity.
  - split; [apply len_nonneg | assumption].
  - rewrite NewReader_ReadAt_all; simpl.
    destruct (len data =? 0); discriminate.
Qed.

(** C7: the 100 MiB cap of the raw-text parser is strict.  Input of at most
    104857600 bytes is accepted by [ParseFromBytes] and by [ParseFromReader]
    (on the reader of these bytes, and on any reader whose [ReadAt] does not
    fail); 104857601 bytes or more are refused with the size error by both,
    whatever the reader holds: [ReadAt] is not consulted. *)
Theorem text_size_cap_strict (data : list Byte.byte) (reader : ReaderAt) (size : Z) :
  (len data <= 104857600 ->
     ParseFromBytes data = Ok data /\
     ParseFromReader (NewReader data) (len data) = Returns (Ok data)) /\
  (104857601 <= len data ->
     ParseFromBytes data = Err (ErrSizeExceeded (len data) 104857600) /\
     ParseFromReader reader (len data) =
       Returns (Err (ErrSizeExceeded (len data) 104857600))) /\
  (0 <= size <= 104857600 -> snd (ReadAt reader size 0) <> ErrOther ->
     ParseFromReader reader size = Returns (Ok (fst (ReadAt reader size 0)))) /\
  (104857601 <= size ->
     ParseFromReader reader size = Returns (Err (ErrSizeExceeded size 104857600))).
Proof.
  rewrite <- maxSize_value.
  repeat split.
  - apply ParseFromBytes_small; assumption.
  - apply ParseFromReader_bytes; assumption.
  - apply ParseFromBytes_large; rewrite maxSize_value; lia.
  - apply ParseFromReader_large; rewrite maxSize_value; lia.
  - intros; apply ParseFromReader_small; assumption.
  - intros; apply ParseFromReader_large; rewrite maxSize_value; lia.
Qed.

(** The boundary itself: a buffer of exactly 100 MiB and one of 100 MiB + 1. *)
Lemma text_size_cap_strict_witness :
  let exact := repeat Byte.x61 (Z.to_nat 104857600) in
  let over := repeat Byte.x61 (Z.to_nat 104857601) in
  (ParseFromBytes exact = Ok exact /\
   ParseFromReader (NewReader exact) (len exact) = Returns (Ok exact)) /\
  (ParseFromBytes over = Err (ErrSizeExceeded (len over) 104857600) /\
   ParseFromReader (NewReader exact) (len over) =
     Returns (Err (ErrSizeExceeded (len over) 104857600))) /\
  ParseFromReader (NewReader [Byte.x61]) 104857601 =
    Returns (Err (ErrSizeExceeded 104857601 104857600)).
Proof.
  intros exact over.
  assert (Hexact : len exact = 104857600) by (apply len_repeat; lia).
  assert (Hover : len over = 104857601) by (apply len_repeat; lia).
  split; [| split].
  - apply (text_size_cap_strict exact (NewReader exact) 0). lia.
  - apply (text_size_cap_strict over (NewReader exact) 0). lia.
  - apply (text_size_cap_strict [] (NewReader [Byte.x61]) 104857601). lia.
Defined.

(** C10: on admissible input the raw-text parser is the identity: the bytes
    come back unchanged. *)
Theorem text_parse_identity (data : list Byte.byte) :
  len data <= 104857600 -> ParseFromBytes data = Ok data.
Proof.
  intros Hle. apply ParseFromBytes_small. rewrite maxSize_value. assumption.
Qed.

Lemma text_parse_identity_witness :
  ParseFromBytes [Byte.x20; Byte.x61; Byte.x09; Byte.x0d; Byte.x0a; Byte.xff; Byte.x20] =
  Ok [Byte.x20; Byte.x61; Byte.x09; Byte.x0d; Byte.x0a; Byte.xff; Byte.x20].
Proof.
  apply (text_parse_identity
           [Byte.x20; Byte.x61; Byte.x09; Byte.x0d; Byte.x0a; Byte.xff; Byte.x20]).
  unfold len; simpl; lia.
Defined.

End TextParserProps.

(** ** Loops that append to a builder *)

Lemma fold_left_append {A B : Type} (step : list B -> A -> list B) (g : A -> list B) :
  (forall acc x, step acc x = acc ++ g x) ->
  forall l init, fold_left step l init = init ++ flat_map g l.
Proof.
  intros Hstep l. induction l as [| x l IH]; intros init; simpl.
  - rewrite app_nil_r. reflexivity.
  - rewrite IH, Hstep, <- app_assoc. reflexivity.
Qed.

Lemma HasPrefix_app (p s : text) : HasPrefix (p ++ s) p = true.
Proof.
  induction p as [| c p IH]; simpl; [reflexivity |].
  unfold rune_eqb. rewrite Z.eqb_refl. exact IH.
Qed.

Lemma Contains_prefix (s sub : text) : HasPrefix s sub = true -> Contains s sub = true.
Proof. intros H. destruct s; simpl in *; rewrite H; reflexivity. Qed.

Lemma Contains_app_r (a s sub : text) : Contains s sub = true -> Contains (a ++ s) sub = true.
Proof.
  intros H. induction a as [| c a IH]; simpl; [exact H |].
  rewrite IH. apply orb_true_r.
Qed.

Lemma HasPrefix_app_l (s b sub : text) : HasPrefix s sub = true -> HasPrefix (s ++ b) sub = true.
Proof.
  revert s. induction sub as [| p sub IH]; intros s H; [reflexivity |].
  destruct s as [| c s]; simpl in *; [discriminate |].
  apply andb_true_iff in H as [Hc Hs]. rewrite Hc. simpl. apply IH, Hs.
Qed.

Lemma Contains_app_l (s b sub : text) : Contains s sub = true -> Contains (s ++ b) sub = true.
Proof.
  induction s as [| c s IH]; simpl; intros H.
  - rewrite orb_false_r in H. destruct sub; [| discriminate].
    destruct b; reflexivity.
  - apply orb_true_iff in H as [H | H].
    + change (c :: s ++ b) with ((c :: s) ++ b).
      rewrite (HasPrefix_app_l (c :: s) b sub H). reflexivity.
    + rewrite (IH H). apply orb_true_r.
Qed.

Lemma Contains_middle (a b c : text) : Contains (a ++ b ++ c) b = true.
Proof. apply Contains_app_r, Contains_prefix, HasPrefix_app. Qed.

(** ** The PowerPoint extractor *)

Section PptxProps.
Import Pptx PptxSpec.

Lemma fold_fileStep (files : list File) :
  forall allText n,
    fold_left fileStep files (allText, n) =
    (allText ++ sections n (decodedSlides files),
     (n + length (decodedSlides files))%nat).
Proof.
  induction files as [| f files IH]; intros allText n; simpl.
  - rewrite app_nil_r, Nat.add_0_r. reflexivity.
  - destruct (isSlideFile (Name f)); [destruct (Open f) |]; simpl;
      rewrite IH; try reflexivity.
    rewrite <- app_assoc. f_equal. lia.
Qed.

Lemma ParseFromReader_sections (files : list File) :
  ParseFromReader (Some files) = Ok (sections 1 (decodedSlides files)).
Proof. unfold ParseFromReader. rewrite fold_fileStep. reflexivity. Qed.

Lemma decodedSlides_app (pre post : list File) :
  decodedSlides (pre ++ post) = decodedSlides pre ++ decodedSlides post.
Proof. unfold decodedSlides. apply flat_map_app. Qed.

Lemma decodedSlides_skip (pre post : list File) (f : File) :
  decodedSlides [f] = [] ->
  decodedSlides (pre ++ f :: post) = decodedSlides (pre ++ post).
Proof.
  intros Hf. change (f :: post) with ([f] ++ post).
  rewrite !decodedSlides_app, Hf. reflexivity.
Qed.

Lemma slideSection_text (n : nat) (slide : Slide) :
  slideSection n slide =
  (lit "## Slide " ++ itoa n ++ [10]) ++ slideBody slide ++ [10; 10].
Proof. reflexivity. Qed.

Lemma sections_headed (slides : list Slide) :
  forall n, sections n slides = headedSections n slides.
Proof.
  unfold headedSections.
  induction slides as [| slide slides IH]; intros n; [reflexivity |].
  cbn [sections length seq combine flat_map fst snd].
  rewrite IH, slideSection_text. reflexivity.
Qed.

Lemma three_entries_decoded (s1 s2 : Slide) (layout : Payload) :
  decodedSlides
    [ {| Name := slidePath "slide1.xml"; Open := Unmarshalled s1 |};
      {| Name := slidePath "slide2.xml"; Open := Unmarshalled s2 |};
      {| Name := slidePath "slideLayout1.xml"; Open := layout |} ] = [s1; s2].
Proof.
  unfold decodedSlides; simpl.
  replace (isSlideFile (slidePath "slide1.xml")) with true by (vm_compute; reflexivity).
  replace (isSlideFile (slidePath "slide2.xml")) with true by (vm_compute; reflexivity).
  replace (isSlideFile (slidePath "slideLayout1.xml")) with false by (vm_compute; reflexivity).
  reflexivity.
Qed.

(** C5: the loop handles exactly the entries that pass the slide-file test
    (prefix [ppt/slides/slide], suffix [.xml], neither [Layout] nor [Master]
    in the name): the output is, for each decoded entry among them in archive
    order, the header [## Slide n] with [n] counted from 1, a line feed, the
    text of the slide or the placeholder, and a blank line.  With
    [slide1.xml], [slide2.xml] and [slideLayout1.xml] exactly two slides are
    decoded and the output is the section headed [## Slide 1] followed by the
    section headed [## Slide 2]; the layout entry, whatever its payload and
    wherever it stands, leaves the output unchanged. *)
Theorem pptx_slide_selection
    (files pre post : list File) (name : text) (s1 s2 : Slide) (layout : Payload) :
  ParseFromReader (Some files) = Ok (sections 1 (decodedSlides files)) /\
  ParseFromReader (Some files) =
    Ok (flat_map
          (fun numbered =>
             (lit "## Slide " ++ itoa (fst numbered) ++ [10]) ++
             (if (0 <? length (extractTextFromSlide (snd numbered)))%nat
              then extractTextFromSlide (snd numbered)
              else lit "(No text found)") ++ [10; 10])
          (combine (seq 1 (length (decodedSlides files))) (decodedSlides files))) /\
  (isSlideFile name = true <->
   HasPrefix name (lit "ppt/slides/slide") = true /\
   HasSuffix name (lit ".xml") = true /\
   Contains name (lit "Layout") = false /\
   Contains name (lit "Master") = false) /\
  isSlideFile (slidePath "slide1.xml") = true /\
  isSlideFile (slidePath "slide2.xml") = true /\
  isSlideFile (slidePath "slideLayout1.xml") = false /\
  length
    (decodedSlides
       [ {| Name := slidePath "slide1.xml"; Open := Unmarshalled s1 |};
         {| Name := slidePath "slide2.xml"; Open := Unmarshalled s2 |};
         {| Name := slidePath "slideLayout1.xml"; Open := layout |} ]) = 2%nat /\
  ParseFromReader
    (Some [ {| Name := slidePath "slide1.xml"; Open := Unmarshalled s1 |};
            {| Name := slidePath "slide2.xml"; Open := Unmarshalled s2 |};
            {| Name := slidePath "slideLayout1.xml"; Open := layout |} ]) =
    Ok (slideSection 1 s1 ++ slideSection 2 s2) /\
  ParseFromReader
    (Some [ {| Name := slidePath "slide1.xml"; Open := Unmarshalled s1 |};
            {| Name := slidePath "slide2.xml"; Open := Unmarshalled s2 |};
            {| Name := slidePath "slideLayout1.xml"; Open := layout |} ]) =
    Ok ((lit "## Slide 1" ++ [10]) ++ slideBody s1 ++ [10; 10] ++
        (lit "## Slide 2" ++ [10]) ++ slideBody s2 ++ [10; 10]) /\
  ParseFromReader
    (Some [ {| Name := slidePath "slide1.xml"; Open := Unmarshalled (textSlide "Hello") |};
            {| Name := slidePath "slide2.xml"; Open := Unmarshalled emptySlide |};
            {| Name := slidePath "slideLayout1.xml";
               Open := Unmarshalled (textSlide "Layout text") |} ]) =
    Ok (lit "## Slide 1" ++ [10] ++ lit "Hello" ++ [10; 10] ++
        lit "## Slide 2" ++ [10] ++ lit "(No text found)" ++ [10; 10]) /\
  ParseFromReader
    (Some (pre ++ {| Name := slidePath "slideLayout1.xml"; Open := layout |} :: post)) =
    ParseFromReader (Some (pre ++ post)).
Proof.
  split; [apply ParseFromReader_sections |].
  split; [rewrite ParseFromReader_sections, sections_headed; reflexivity |].
  split.
  { unfold isSlideFile. rewrite !andb_true_iff, !negb_true_iff. tauto. }
  split; [vm_compute; reflexivity |].
  split; [vm_compute; reflexivity |].
  split; [vm_compute; reflexivity |].
  split; [rewrite three_entries_decoded; reflexivity |].
  split.
  { rewrite ParseFromReader_sections, three_entries_decoded.
    simpl. rewrite app_nil_r. reflexivity. }
  split.
  { rewrite ParseFromReader_sections, three_entries_decoded.
    cbn [sections]. rewrite !slideSection_text, app_nil_r, <- !app_assoc. reflexivity. }
  split; [vm_compute; reflexivity |].
  rewrite !ParseFromReader_sections, decodedSlides_skip; [reflexivity |].
  unfold decodedSlides; simpl.
  replace (isSlideFile (slidePath "slideLayout1.xml")) with false by (vm_compute; reflexivity).
  reflexivity.
Qed.

End PptxProps.

(** ** The Excel extractor *)

Section ExcelProps.
Import Excel ExcelSpec.

Lemma sheetText_flat (rows : list (option (list text))) :
  sheetText rows = flat_map rowLine rows.
Proof.
  unfold sheetText. rewrite (fold_left_append _ rowLine); [reflexivity |].
  intros acc [row |]; simpl; [reflexivity | rewrite app_nil_r; reflexivity].
Qed.

Lemma collectSheets_flat (f : File) :
  collectSheets f = flat_map (sheetEntry f) (GetSheetList f).
Proof.
  unfold collectSheets. rewrite (fold_left_append _ (sheetEntry f)); [reflexivity |].
  intros acc sheet. unfold sheetEntry.
  destruct (Rows f sheet); [reflexivity | rewrite app_nil_r; reflexivity].
Qed.

Lemma collectSheets_nil (f : File) :
  collectSheets f = [] <->
  (forall sheet, In sheet (GetSheetList f) -> Rows f sheet = None).
Proof.
  rewrite collectSheets_flat.
  induction (GetSheetList f) as [| s l IH]; simpl.
  - split; [intros _ sheet [] | reflexivity].
  - unfold sheetEntry at 1. destruct (Rows f s) eqn:Hs; simpl.
    + split; [discriminate |]. intros H. specialize (H s (or_introl eq_refl)). congruence.
    + rewrite IH. split.
      * intros H sheet [<- | Hin]; [assumption | apply H, Hin].
      * intros H sheet Hin. apply H. right. exact Hin.
Qed.

Lemma In_collectSheets (f : File) (sheet : text) rows :
  In sheet (GetSheetList f) -> Rows f sheet = Some rows ->
  In {| name := sheet; content := sheetText rows |} (collectSheets f).
Proof.
  intros Hin Hrows. rewrite collectSheets_flat. apply in_flat_map.
  exists sheet. split; [exact Hin |]. unfold sheetEntry. rewrite Hrows. left. reflexivity.
Qed.

Lemma sheetSection_framed (s : sheetContent) :
  sheetSection s = framed (name s) (content s).
Proof. reflexivity. Qed.

Lemma framed_not_nil (sheet c rest : text) : length (framed sheet c ++ rest) <> 0%nat.
Proof. unfold framed. simpl. discriminate. Qed.

Lemma ParseFromReader_sheets (f : File) :
  ParseFromReader (Some f) =
  match collectSheets f with
  | [] => Err ErrNoDataFound
  | _ :: _ => Ok (flat_map sheetSection (collectSheets f))
  end.
Proof.
  unfold ParseFromReader, extractSheets.
  destruct (collectSheets f) as [| s sheets] eqn:Hc; [reflexivity |].
  cbn [length Nat.eqb]. unfold Ok at 1. cbv iota beta.
  rewrite (fold_left_append _ sheetSection) by reflexivity.
  cbn [app flat_map].
  destruct (length (sheetSection s ++ flat_map sheetSection sheets) =? 0)%nat eqn:Hlen;
    [| reflexivity].
  apply Nat.eqb_eq in Hlen. rewrite sheetSection_framed in Hlen.
  exfalso. exact (framed_not_nil _ _ _ Hlen).
Qed.

Lemma Contains_flat_map {A : Type} (g : A -> text) (l : list A) (x : A) (h r : text) :
  In x l -> g x = h ++ r -> Contains (flat_map g l) h = true.
Proof.
  intros Hin Hg. apply in_split in Hin as (l1 & l2 & ->).
  rewrite flat_map_app. cbn [flat_map]. rewrite Hg, <- app_assoc.
  apply Contains_middle.
Qed.

(** C3 (amended): [ParseFromReader] fails with "no data found" exactly when
    [f.Rows] delivers the rows of no sheet (in particular when the workbook
    lists no sheet).  As soon as the rows of one sheet are delivered the call
    succeeds, and the output holds the header [# Sheet <name>], followed by the
    sheet's text and the rule, for every sheet whose rows were delivered, the
    sheets without rows included. *)
Theorem excel_no_data_found (f : File) :
  (ParseFromReader (Some f) = Err ErrNoDataFound <->
   forall sheet, In sheet (GetSheetList f) -> Rows f sheet = None) /\
  ((exists sheet, In sheet (GetSheetList f) /\ Rows f sheet <> None) ->
   exists t,
     ParseFromReader (Some f) = Ok t /\
     forall sheet rows,
       In sheet (GetSheetList f) -> Rows f sheet = Some rows ->
       Contains t (lit "# Sheet " ++ sheet ++ [10]) = true /\
       Contains t (framed sheet (sheetText rows)) = true).
Proof.
  rewrite ParseFromReader_sheets. split.
  - rewrite <- collectSheets_nil.
    destruct (collectSheets f); split; try reflexivity; discriminate.
  - intros (sheet0 & Hin0 & Hrows0).
    destruct (collectSheets f) as [| s sheets] eqn:Hc.
    + exfalso. apply Hrows0. apply (proj1 (collectSheets_nil f) Hc). exact Hin0.
    + eexists. split; [reflexivity |].
      intros sheet rows Hin Hrows. rewrite <- Hc.
      pose proof (In_collectSheets f sheet rows Hin Hrows) as Hs.
      split.
      * eapply (Contains_flat_map sheetSection); [exact Hs |].
        unfold sheetSection. cbn [name content]. reflexivity.
      * eapply (Contains_flat_map sheetSection _ _ _ []); [exact Hs |].
        rewrite app_nil_r. reflexivity.
Qed.

Lemma excel_no_data_found_witness :
  exists t,
    ParseFromReader (Some twoEmptySheets) = Ok t /\
    forall sheet rows,
      In sheet (GetSheetList twoEmptySheets) -> Rows twoEmptySheets sheet = Some rows ->
      Contains t (lit "# Sheet " ++ sheet ++ [10]) = true /\
      Contains t (framed sheet (sheetText rows)) = true.
Proof.
  apply (proj2 (excel_no_data_found twoEmptySheets)).
  exists (lit "Sheet1"). split; [left; reflexivity | discriminate].
Defined.

(** C3, as stated, fails: both sheets of this workbook yield no character,
    and the call succeeds with the two framed headers. *)
Lemma excel_empty_sheets_succeed :
  (forall sheet, In sheet (GetSheetList twoEmptySheets) ->
     exists rows, Rows twoEmptySheets sheet = Some rows /\ sheetText rows = []) /\
  ParseFromReader (Some twoEmptySheets) =
    Ok (lit "# Sheet Sheet1" ++ [10] ++ [10] ++ lit "---" ++ [10; 10] ++
        lit "# Sheet Sheet2" ++ [10] ++ [10] ++ lit "---" ++ [10; 10]) /\
  ParseFromReader (Some twoEmptySheets) <> Err ErrNoDataFound.
Proof.
  split; [| split].
  - intros sheet _. exists []. split; reflexivity.
  - vm_compute. reflexivity.
  - vm_compute. discriminate.
Qed.

Lemma lookup_pages_out (sheets : list sheetContent) (k : text) :
  forall m0 : gmap text text,
    ~ In k (List.map name sheets) ->
    fold_left (fun result sheet => <[name sheet := content sheet]> result) sheets m0 !! k
    = m0 !! k.
Proof.
  induction sheets as [| s sheets IH]; intros m0 Hout; simpl; [reflexivity |].
  rewrite IH by (intros Hin; apply Hout; right; exact Hin).
  apply lookup_insert_ne. intros Heq. apply Hout. left. exact Heq.
Qed.

Lemma lookup_pages_in (sheets : list sheetContent) (k : text) (c : text -> option text) :
  (forall s, In s sheets -> c (name s) = Some (content s)) ->
  forall m0 : gmap text text,
    In k (List.map name sheets) ->
    fold_left (fun result sheet => <[name sheet := content sheet]> result) sheets m0 !! k
    = c k.
Proof.
  intros Hc. induction sheets as [| s sheets IH]; intros m0 Hin; simpl; [destruct Hin |].
  destruct (in_dec text_eq_dec k (List.map name sheets)) as [Hrest | Hrest].
  - apply IH; [| exact Hrest]. intros s' Hs'. apply Hc. right. exact Hs'.
  - rewrite lookup_pages_out by exact Hrest.
    destruct Hin as [Heq | Hin]; [| contradiction].
    rewrite <- Heq, lookup_insert_eq. symmetry. apply Hc. left. reflexivity.
Qed.

Lemma In_collectSheets_inv (f : File) (s : sheetContent) :
  In s (collectSheets f) ->
  In (name s) (GetSheetList f) /\
  option_map sheetText (Rows f (name s)) = Some (content s).
Proof.
  rewrite collectSheets_flat. intros Hin. apply in_flat_map in Hin as (sheet & Hsheet & Hs).
  unfold sheetEntry in Hs. destruct (Rows f sheet) eqn:Hrows; [| destruct Hs].
  destruct Hs as [<- | []]. simpl. rewrite Hrows. split; [exact Hsheet | reflexivity].
Qed.

Lemma In_collectSheets_names (f : File) (sheet : text) :
  In sheet (List.map name (collectSheets f)) <->
  In sheet (GetSheetList f) /\ Rows f sheet <> None.
Proof.
  rewrite in_map_iff. split.
  - intros (s & <- & Hs). apply In_collectSheets_inv in Hs as [Hin Hc].
    split; [exact Hin |]. destruct (Rows f (name s)); [discriminate | discriminate].
  - intros [Hin Hrows]. destruct (Rows f sheet) as [rows |] eqn:Hr; [| congruence].
    exists {| name := sheet; content := sheetText rows |}.
    split; [reflexivity | apply In_collectSheets; assumption].
Qed.

Lemma lookup_pages (f : File) (sheet : text) :
  fold_left (fun result s => <[name s := content s]> result) (collectSheets f)
    (∅ : gmap text text) !! sheet =
  if in_dec text_eq_dec sheet (GetSheetList f)
  then option_map sheetText (Rows f sheet) else None.
Proof.
  destruct (in_dec text_eq_dec sheet (List.map name (collectSheets f)))
    as [Hin | Hout].
  - rewrite (lookup_pages_in _ _ (fun k => option_map sheetText (Rows f k)));
      [| intros s Hs; apply (In_collectSheets_inv f s Hs) | exact Hin].
    apply In_collectSheets_names in Hin as [Hin _].
    destruct (in_dec text_eq_dec sheet (GetSheetList f)); [reflexivity | contradiction].
  - rewrite lookup_pages_out by exact Hout. rewrite lookup_empty.
    destruct (in_dec text_eq_dec sheet (GetSheetList f)) as [Hin |]; [| reflexivity].
    destruct (Rows f sheet) eqn:Hr; [| reflexivity].
    exfalso. apply Hout. apply In_collectSheets_names. split; [exact Hin | congruence].
Qed.

Lemma sections_by_lookup (f : File) (m : gmap text text) (l : list text) :
  (forall sheet, In sheet l -> m !! sheet = option_map sheetText (Rows f sheet)) ->
  flat_map sheetSection (flat_map (sheetEntry f) l) =
  flat_map (fun sheet => match m !! sheet with
                         | Some c => framed sheet c
                         | None => []
                         end) l.
Proof.
  induction l as [| sheet l IH]; intros Hm; simpl; [reflexivity |].
  rewrite flat_map_app, IH by (intros k Hk; apply Hm; right; exact Hk).
  f_equal. rewrite (Hm sheet (or_introl eq_refl)). unfold sheetEntry.
  destruct (Rows f sheet); cbn [flat_map option_map];
    [rewrite app_nil_r; reflexivity | reflexivity].
Qed.

(** C4 (amended): [ParseWithPages] returns a Go map, which has no order: it
    sends the name of every sheet whose rows were delivered to that sheet's
    text, and holds no other key.  The text of [ParseFromReader] is rebuilt
    from it by going through the sheet names in workbook order, an order taken
    from the workbook and not from the map, and framing each value found with
    the header and the rule.  Both calls fail together, with the same error. *)
Theorem excel_pages_roundtrip (f : File) :
  match ParseWithPages (Some f) with
  | inl e => ParseFromReader (Some f) = Err e
  | inr m =>
      (forall sheet, In sheet (GetSheetList f) ->
                     m !! sheet = option_map sheetText (Rows f sheet)) /\
      (forall sheet, ~ In sheet (GetSheetList f) -> m !! sheet = None) /\
      ParseFromReader (Some f) =
        Ok (flat_map (fun sheet => match m !! sheet with
                                   | Some c => framed sheet c
                                   | None => []
                                   end) (GetSheetList f))
  end.
Proof.
  rewrite ParseFromReader_sheets. unfold ParseWithPages, extractSheets.
  destruct (collectSheets f) as [| s sheets] eqn:Hc; [reflexivity |].
  cbn [length Nat.eqb]. unfold Ok at 1. cbv iota beta. rewrite <- Hc.
  assert (Hin : forall sheet, In sheet (GetSheetList f) ->
            fold_left (fun result s => <[name s := content s]> result) (collectSheets f)
              (∅ : gmap text text) !! sheet = option_map sheetText (Rows f sheet)).
  { intros sheet Hin. rewrite lookup_pages.
    destruct (in_dec text_eq_dec sheet (GetSheetList f)); [reflexivity | contradiction]. }
  split; [exact Hin |]. split.
  - intros sheet Hout. rewrite lookup_pages.
    destruct (in_dec text_eq_dec sheet (GetSheetList f)); [contradiction | reflexivity].
  - f_equal. rewrite collectSheets_flat at 1. apply sections_by_lookup. exact Hin.
Qed.

(** C4, as stated, fails: the two workbooks list the same sheets in opposite
    orders; their section maps are equal and their texts differ, so no way of
    concatenating the values of the map gives the text for both. *)
Lemma excel_pages_lose_order :
  ParseWithPages (Some workbookAB) = ParseWithPages (Some workbookBA) /\
  ParseFromReader (Some workbookAB) <> ParseFromReader (Some workbookBA) /\
  ~ (exists concatenate : gmap text text -> text,
       forall f m, ParseWithPages (Some f) = Ok m ->
                   ParseFromReader (Some f) = Ok (concatenate m)).
Proof.
  assert (Hmap : ParseWithPages (Some workbookAB) = ParseWithPages (Some workbookBA)).
  { vm_compute. reflexivity. }
  assert (Htext : ParseFromReader (Some workbookAB) <> ParseFromReader (Some workbookBA)).
  { vm_compute. discriminate. }
  split; [exact Hmap |]. split; [exact Htext |].
  intros [concatenate Hconc].
  destruct (ParseWithPages (Some workbookAB)) as [e | m] eqn:HAB.
  - vm_compute in HAB. discriminate.
  - apply Htext. rewrite (Hconc workbookAB m HAB).
    rewrite (Hconc workbookBA m (eq_sym Hmap)). reflexivity.
Qed.

(** ** Failures inside a document *)

(** C9 (amended): a slide entry that cannot be opened, read or unmarshalled
    is skipped, the other slides are extracted as without it, and the call
    succeeds for every archive.  In a workbook a sheet whose rows [f.Rows] does
    not deliver is skipped, and so is a row whose cells cannot be read; the
    call succeeds provided the rows of at least one sheet are delivered. *)
Theorem partial_failures_absorbed :
  (forall files, exists t, Pptx.ParseFromReader (Some files) = Ok t) /\
  (forall pre post (f : Pptx.File),
     (forall slide, Pptx.Open f <> Pptx.Unmarshalled slide) ->
     Pptx.ParseFromReader (Some (pre ++ f :: post)) =
     Pptx.ParseFromReader (Some (pre ++ post))) /\
  (forall (f : File) pre post sheet,
     GetSheetList f = pre ++ sheet :: post -> Rows f sheet = None ->
     ParseFromReader (Some f) = ParseFromReader (Some (withSheetList f (pre ++ post)))) /\
  (forall pre post, sheetText (pre ++ None :: post) = sheetText (pre ++ post)) /\
  (forall f : File,
     (exists sheet, In sheet (GetSheetList f) /\ Rows f sheet <> None) ->
     exists t, ParseFromReader (Some f) = Ok t).
Proof.
  split; [| split; [| split; [| split]]].
  - intros files. eexists. apply ParseFromReader_sections.
  - intros pre post f Hf.
    rewrite !ParseFromReader_sections, decodedSlides_skip; [reflexivity |].
    unfold PptxSpec.decodedSlides; simpl.
    destruct (Pptx.isSlideFile (Pptx.Name f)); [| reflexivity].
    destruct (Pptx.Open f) eqn:Ho; try reflexivity.
    exfalso. exact (Hf slide eq_refl).
  - intros f pre post sheet Hl Hrows.
    assert (Hskip : sheetEntry f sheet = [])
      by (unfold sheetEntry; rewrite Hrows; reflexivity).
    assert (Hcs : collectSheets f = collectSheets (withSheetList f (pre ++ post))).
    { rewrite !collectSheets_flat. simpl GetSheetList. rewrite Hl.
      change (sheetEntry (withSheetList f (pre ++ post))) with (sheetEntry f).
      rewrite !flat_map_app. cbn [flat_map]. rewrite Hskip. reflexivity. }
    rewrite !ParseFromReader_sheets, Hcs. reflexivity.
  - intros pre post. rewrite !sheetText_flat.
    change (None :: post) with ([None] ++ post).
    rewrite !flat_map_app. reflexivity.
  - intros f (sheet & Hin & Hrows). rewrite ParseFromReader_sheets.
    destruct (collectSheets f) eqn:Hc; [| eexists; reflexivity].
    exfalso. apply Hrows. apply (proj1 (collectSheets_nil f) Hc). exact Hin.
Qed.

Lemma partial_failures_absorbed_witness :
  Pptx.ParseFromReader
    (Some [ {| Pptx.Name := PptxSpec.slidePath "slide1.xml"; Pptx.Open := Pptx.UnmarshalFails |};
            {| Pptx.Name := PptxSpec.slidePath "slide2.xml";
               Pptx.Open := Pptx.Unmarshalled
                 {| Pptx.Slide_SlideData := {| Pptx.Shapes := [] |} |} |} ]) =
  Pptx.ParseFromReader
    (Some [ {| Pptx.Name := PptxSpec.slidePath "slide2.xml";
               Pptx.Open := Pptx.Unmarshalled
                 {| Pptx.Slide_SlideData := {| Pptx.Shapes := [] |} |} |} ]) /\
  exists t, ParseFromReader (Some twoEmptySheets) = Ok t.
Proof.
  destruct partial_failures_absorbed as (_ & Hslide & _ & _ & Hsheet).
  split.
  - apply (Hslide [] _ {| Pptx.Name := PptxSpec.slidePath "slide1.xml";
                          Pptx.Open := Pptx.UnmarshalFails |}).
    intros slide. discriminate.
  - apply Hsheet. exists (lit "Sheet1"). split; [left; reflexivity | discriminate].
Defined.

(** C9, as stated, fails: when the rows of the only sheet cannot be obtained
    the sheet is skipped and the call returns "no data found", not a
    result. *)
Lemma excel_unreadable_sheet_fails :
  ParseFromReader (Some oneUnreadableSheet) = Err ErrNoDataFound /\
  ~ (forall f : File, exists t, ParseFromReader (Some f) = Ok t).
Proof.
  assert (H : ParseFromReader (Some oneUnreadableSheet) = Err ErrNoDataFound)
    by (vm_compute; reflexivity).
  split; [exact H |].
  intros Hall. destruct (Hall oneUnreadableSheet) as [t Ht].
  rewrite H in Ht. discriminate.
Qed.

End ExcelProps.

(** ** The PDF extractor *)

Section PDFProps.
Import PDF PDFSpec.

Lemma pageStep_append (r : Reader) (acc : text) (i : nat) :
  pageStep r acc i = acc ++ pageStep r [] i.
Proof.
  unfold pageStep. destruct (V_IsNull (GetPage r i)).
  - rewrite app_nil_r. reflexivity.
  - destruct (collectPageTexts (Content_Text (GetPage r i)));
      cbn [app]; rewrite <- ?app_assoc; reflexivity.
Qed.

Lemma pageStep_section (r : Reader) (i : nat) :
  V_IsNull (GetPage r i) = false ->
  pageStep r [] i =
  (lit "## Page " ++ itoa i ++ [10; 10]) ++ pageBody (GetPage r i) ++ [10; 10].
Proof.
  intros Hnull. unfold pageStep, pageBody. rewrite Hnull.
  destruct (collectPageTexts (Content_Text (GetPage r i)));
    cbn [app]; rewrite <- ?app_assoc; reflexivity.
Qed.

(** C8: the pages are visited in the order 1..N and each contributes its own
    section: nothing at all when its marker is null; otherwise the header
    [## Page i] with its own index [i] and a blank line, the sanitized text if
    there is any, and a closing blank line, so that a page without text
    fragments still gives its header followed by blank lines only. *)
Theorem pdf_page_assembly (r : Reader) (i : nat) :
  ParseFromReader (Some r) = Ok (flat_map (pageStep r []) (seq 1 (NumPage r))) /\
  (V_IsNull (GetPage r i) = true -> pageStep r [] i = []) /\
  (V_IsNull (GetPage r i) = false ->
     pageStep r [] i =
       (lit "## Page " ++ itoa i ++ [10; 10]) ++ pageBody (GetPage r i) ++ [10; 10] /\
     (Content_Text (GetPage r i) = [] ->
        pageStep r [] i = lit "## Page " ++ itoa i ++ [10; 10; 10; 10])).
Proof.
  split; [| split].
  - unfold ParseFromReader.
    rewrite (fold_left_append _ (pageStep r [])); [reflexivity |].
    intros acc k. apply pageStep_append.
  - intros Hnull. unfold pageStep. rewrite Hnull. reflexivity.
  - intros Hnull. split; [apply pageStep_section, Hnull |].
    intros Htexts. rewrite (pageStep_section r i Hnull).
    unfold pageBody. rewrite Htexts. cbn [collectPageTexts fold_left app].
    rewrite <- !app_assoc. reflexivity.
Qed.

Lemma pdf_page_assembly_witness :
  ParseFromReader (Some threePages) =
    Ok (lit "## Page 1" ++ [10; 10] ++ lit "Hello world" ++ [10; 10] ++
        lit "## Page 3" ++ [10; 10; 10; 10]) /\
  pageStep threePages [] 2 = [] /\
  pageStep threePages [] 3 = lit "## Page " ++ itoa 3 ++ [10; 10; 10; 10].
Proof.
  split; [| split].
  - rewrite (proj1 (pdf_page_assembly threePages 1)). vm_compute. reflexivity.
  - apply (proj1 (proj2 (pdf_page_assembly threePages 2))). reflexivity.
  - apply (proj2 (proj2 (pdf_page_assembly threePages 3))); reflexivity.
Defined.

End PDFProps.

(** ** The Word extractor *)

Section DocxProps.
Import Docx DocxSpec.

Lemma walk_paragraph (children : list Node) (allText : text) :
  walk (Element (lit "p") children) (true, allText) =
  (true, allText ++ paragraphLine (decodeParagraph children)).
Proof.
  unfold paragraphLine. cbn [walk fst snd orb].
  replace (text_eqb (lit "p") (lit "p")) with true by reflexivity.
  cbn [andb].
  destruct (extractTextFromParagraph (decodeParagraph children));
    [rewrite app_nil_r |]; reflexivity.
Qed.

Lemma walk_paragraphs (ps : list (list Node)) :
  forall allText,
    fold_left (fun st n => walk n st) (List.map (Element (lit "p")) ps) (true, allText) =
    (true, allText ++ flat_map (fun cs => paragraphLine (decodeParagraph cs)) ps).
Proof.
  induction ps as [| cs ps IH]; intros allText; cbn [List.map fold_left flat_map].
  - rewrite app_nil_r. reflexivity.
  - rewrite walk_paragraph, IH, <- app_assoc. reflexivity.
Qed.

(** In a body made of paragraphs the token loop writes one line for every
    paragraph with text and nothing for the others. *)
Lemma parseDocument_paragraphs (ps : list (list Node)) :
  parseDocument
    [Element (lit "document") [Element (lit "body") (List.map (Element (lit "p")) ps)]] =
  flat_map (fun cs => paragraphLine (decodeParagraph cs)) ps.
Proof.
  unfold parseDocument. cbn [fold_left walk fst snd orb].
  replace (text_eqb (lit "document") (lit "body")) with false by reflexivity.
  replace (text_eqb (lit "body") (lit "body")) with true by reflexivity.
  replace (text_eqb (lit "body") (lit "p")) with false by reflexivity.
  replace (text_eqb (lit "body") (lit "tbl")) with false by reflexivity.
  cbn [andb]. rewrite walk_paragraphs. reflexivity.
Qed.

(** The earlier extractor keeps one entry for every paragraph of the body. *)
Lemma paragraphLines_length (document : ServiceDocx.DocxDocument) :
  length (ServiceDocx.paragraphLines document) =
  length (ServiceDocx.Paragraphs (ServiceDocx.Body document)).
Proof.
  unfold ServiceDocx.paragraphLines.
  set (line := fun paragraph : DocxParagraph =>
         fold_left (fun paragraphText run =>
                      match Content (Text run) with
                      | [] => paragraphText
                      | c => paragraphText ++ c
                      end) (Runs paragraph) ([] : text)).
  rewrite (fold_left_append _ (fun paragraph =>
             [if (0 <? length (line paragraph))%nat then line paragraph else []])).
  - cbn [app]. induction (ServiceDocx.Paragraphs (ServiceDocx.Body document));
      simpl; [reflexivity | f_equal; assumption].
  - intros acc paragraph. fold (line paragraph).
    destruct (0 <? length (line paragraph))%nat; reflexivity.
Qed.

(** C2 (the code departs from the claim): in a body of paragraphs the
    token loop of [ParseFromReader] writes a line for the paragraphs with text
    only; a paragraph without runs, or with empty runs, leaves nothing.  The
    body [Hello], empty paragraph, [World] gives two lines for three
    paragraphs, where the earlier [extractTextFromDocument], which keeps one
    entry for every paragraph, gives three, the middle one empty.  With the
    table after [Hello] and an empty paragraph, no blank line stands between
    [Hello] and the rows. *)
Theorem docx_empty_paragraph_dropped
    (ps : list (list Node)) (document : ServiceDocx.DocxDocument) :
  ParseFromReader (Some [documentXml (List.map (Element (lit "p")) ps)]) =
    Ok (flat_map (fun cs => paragraphLine (decodeParagraph cs)) ps) /\
  paragraphLine (decodeParagraph []) = [] /\
  paragraphLine (decodeParagraph [Element (lit "r") [Element (lit "t") []]]) = [] /\
  ParseFromReader (Some [documentXml [para "Hello"; emptyPara; para "World"]]) =
    Ok (lit "Hello" ++ [10] ++ lit "World" ++ [10]) /\
  ParseFromReader (Some [documentXml [para "Hello"; emptyPara; table2x2]]) =
    Ok (lit "Hello" ++ [10] ++ lit "a" ++ [9] ++ lit "b" ++ [10] ++
        lit "c" ++ [9] ++ lit "d" ++ [10]) /\
  ServiceDocx.extractTextFromDocument (bodyOf [para "Hello"; emptyPara; para "World"]) =
    lit "Hello" ++ [10] ++ [10] ++ lit "World" /\
  length (ServiceDocx.paragraphLines document) =
    length (ServiceDocx.Paragraphs (ServiceDocx.Body document)).
Proof.
  split.
  { unfold ParseFromReader, findDocument, documentXml. cbn [Name Open].
    replace (text_eqb (lit "word/document.xml") (lit "word/document.xml")) with true
      by reflexivity.
    rewrite (parseDocument_paragraphs ps). reflexivity. }
  split; [reflexivity |]. split; [reflexivity |].
  split; [vm_compute; reflexivity |]. split; [vm_compute; reflexivity |].
  split; [vm_compute; reflexivity |]. apply paragraphLines_length.
Qed.

End DocxProps.

(** ** The text sanitizer *)

Section SanitizerProps.
Import SanitizerSpec.

Lemma isJapaneseChar_CJK (r : rune) : isJapaneseChar r = true <-> CJK r.
Proof. unfold isJapaneseChar, CJK. lia. Qed.

Lemma removeJapaneseSpaces_written (s : text) :
  removeJapaneseSpaces s = flat_map (written s) (seq 0 (length s)).
Proof.
  unfold removeJapaneseSpaces.
  rewrite (fold_left_append _ (written s)); [reflexivity |].
  intros acc i. unfold written.
  destruct (spaceBetweenJapanese s i); [rewrite app_nil_r |]; reflexivity.
Qed.

Lemma prevIsJapanese_at (pre rest : text) :
  (0 <? length pre)%nat && isJapaneseChar (nth (length pre - 1) (pre ++ rest) 0) =
  isJapanese (last pre).
Proof.
  destruct pre as [| a pre0] using rev_ind; [reflexivity |].
  rewrite last_snoc, length_app. cbn [length isJapanese].
  replace (length pre0 + 1 - 1)%nat with (length pre0) by lia.
  rewrite <- app_assoc. cbn [app]. rewrite nth_middle.
  replace (0 <? length pre0 + 1)%nat with true
    by (symmetry; apply Nat.ltb_lt; lia).
  reflexivity.
Qed.

Lemma nextIsJapanese_at (pre : text) (r : rune) (rest : text) :
  (length pre <? length (pre ++ r :: rest) - 1)%nat &&
  isJapaneseChar (nth (length pre + 1) (pre ++ r :: rest) 0) =
  isJapanese (head rest).
Proof.
  rewrite length_app. cbn [length].
  destruct rest as [| b rest]; cbn [length head isJapanese].
  - replace (length pre <? length pre + 1 - 1)%nat with false
      by (symmetry; apply Nat.ltb_ge; lia).
    reflexivity.
  - replace (length pre <? length pre + S (S (length rest)) - 1)%nat with true
      by (symmetry; apply Nat.ltb_lt; lia).
    replace (pre ++ r :: b :: rest) with ((pre ++ [r]) ++ b :: rest)
      by (rewrite <- app_assoc; reflexivity).
    replace (length pre + 1)%nat with (length (pre ++ [r]))
      by (rewrite length_app; reflexivity).
    rewrite nth_middle. reflexivity.
Qed.

Lemma spaceBetweenJapanese_at (pre : text) (r : rune) (rest : text) :
  spaceBetweenJapanese (pre ++ r :: rest) (length pre) =
  (r =? space) && (isJapanese (last pre) && isJapanese (head rest)).
Proof.
  unfold spaceBetweenJapanese.
  rewrite nth_middle, prevIsJapanese_at, nextIsJapanese_at. reflexivity.
Qed.

Lemma written_removeFrom (rest : text) :
  forall pre,
    flat_map (written (pre ++ rest)) (seq (length pre) (length rest)) =
    removeFrom (last pre) rest.
Proof.
  induction rest as [| r rest IH]; intros pre; [reflexivity |].
  cbn [length seq flat_map removeFrom].
  unfold written at 1. rewrite spaceBetweenJapanese_at, nth_middle.
  specialize (IH (pre ++ [r])).
  rewrite <- app_assoc, length_app, last_snoc in IH. cbn [app length] in IH.
  replace (length pre + 1)%nat with (S (length pre)) in IH by lia.
  rewrite IH.
  destruct ((r =? space) && (isJapanese (last pre) && isJapanese (head rest)));
    reflexivity.
Qed.

Lemma removeJapaneseSpaces_removeFrom (s : text) :
  removeJapaneseSpaces s = removeFrom None s.
Proof.
  rewrite removeJapaneseSpaces_written. exact (written_removeFrom s []).
Qed.

Lemma spaceBetweenJapanese_split (s : text) (i : nat) :
  spaceBetweenJapanese s i = true <->
  exists pre a b post,
    s = pre ++ a :: space :: b :: post /\ i = S (length pre) /\ CJK a /\ CJK b.
Proof.
  split.
  - intros Htest.
    assert (Hi : (i < length s)%nat).
    { destruct (Nat.lt_ge_cases i (length s)) as [Hlt | Hge]; [exact Hlt |].
      unfold spaceBetweenJapanese in Htest. rewrite nth_overflow in Htest by exact Hge.
      discriminate. }
    destruct (nth_split s 0 Hi) as (front & rest & Hs & Hlen).
    revert Hs. generalize (nth i s 0). intros r Hs.
    rewrite Hs, <- Hlen, spaceBetweenJapanese_at in Htest.
    apply andb_true_iff in Htest as [Hsp Hj]. apply andb_true_iff in Hj as [Hprev Hnext].
    apply Z.eqb_eq in Hsp.
    destruct (last front) as [a |] eqn:Hlast; [| discriminate].
    apply last_Some in Hlast as [pre Hfront].
    destruct rest as [| b post]; [discriminate |].
    exists pre, a, b, post. repeat split.
    + rewrite Hs, Hsp, Hfront, <- app_assoc. reflexivity.
    + rewrite <- Hlen, Hfront, length_app. cbn [length]. lia.
    + apply isJapaneseChar_CJK, Hprev.
    + apply isJapaneseChar_CJK, Hnext.
  - intros (pre & a & b & post & -> & -> & Ha & Hb).
    replace (pre ++ a :: space :: b :: post) with ((pre ++ [a]) ++ space :: b :: post)
      by (rewrite <- app_assoc; reflexivity).
    replace (S (length pre)) with (length (pre ++ [a]))
      by (rewrite length_app; cbn [length]; lia).
    rewrite spaceBetweenJapanese_at, last_snoc. cbn [head isJapanese].
    rewrite (proj2 (isJapaneseChar_CJK a) Ha), (proj2 (isJapaneseChar_CJK b) Hb).
    reflexivity.
Qed.

(** *** What the steps of [sanitizeText] keep and what they remove *)

Lemma Forall_one (P : rune -> Prop) (a : rune) : P a -> Forall P [a].
Proof. intros Ha. constructor; [exact Ha | constructor]. Qed.

Lemma Forall_replaceFrom (P : rune -> Prop) (old new : text) :
  Forall P new ->
  forall s k, Forall P s -> Forall P (replaceFrom old new k s).
Proof.
  intros Hnew s. induction s as [| c s IH]; intros k Hs; [constructor |].
  inversion Hs as [| ? ? Hc Hs']; subst.
  cbn [replaceFrom]. destruct k as [| k]; [| apply IH, Hs'].
  destruct (HasPrefix (c :: s) old).
  - apply Forall_app. split; [exact Hnew | apply IH, Hs'].
  - constructor; [exact Hc | apply IH, Hs'].
Qed.

Lemma Forall_ReplaceAll (P : rune -> Prop) (s : text) (o : rune) (old new : text) :
  Forall P new -> Forall P s -> Forall P (ReplaceAll s (o :: old) new).
Proof. intros Hnew Hs. apply Forall_replaceFrom; assumption. Qed.

Lemma ReplaceAll_absent (s : text) (o : rune) (old new : text) :
  Forall (fun r => r <> o) s -> ReplaceAll s (o :: old) new = s.
Proof.
  unfold ReplaceAll. induction s as [| c s IH]; intros Hs; [reflexivity |].
  inversion Hs as [| ? ? Hc Hs']; subst.
  cbn [replaceFrom HasPrefix]. unfold rune_eqb.
  destruct (Z.eqb_spec c o) as [Heq | _]; [contradiction |].
  cbn [andb]. rewrite (IH Hs'). reflexivity.
Qed.

Lemma ReplaceAll_single_removed (s : text) (c : rune) (new : text) :
  Forall (fun r => r <> c) new ->
  Forall (fun r => r <> c) (ReplaceAll s [c] new).
Proof.
  intros Hnew. unfold ReplaceAll. induction s as [| x s IH]; [constructor |].
  cbn [replaceFrom HasPrefix length Nat.pred]. unfold rune_eqb.
  destruct (Z.eqb_spec x c) as [Heq | Hne]; cbn [andb].
  - apply Forall_app. split; [exact Hnew | exact IH].
  - constructor; [exact Hne | exact IH].
Qed.

Lemma halfWidth_plain (r : rune) : r <> 0xFFFD -> plainRune (halfWidth r).
Proof.
  intros Hr. unfold plainRune, halfWidth.
  destruct (Z.leb_spec 0xFF01 r); destruct (Z.leb_spec r 0xFF5E); cbn [andb]; lia.
Qed.

Lemma halfWidth_fixed (r : rune) : plainRune r -> halfWidth r = r.
Proof.
  intros [_ Hr]. unfold halfWidth.
  destruct (Z.leb_spec 0xFF01 r); destruct (Z.leb_spec r 0xFF5E); cbn [andb];
    [lia | reflexivity | reflexivity | reflexivity].
Qed.

Lemma convert_plain (s : text) :
  Forall (fun r => r <> 0xFFFD) s -> Forall plainRune (convertFullWidthToHalfWidth s).
Proof.
  unfold convertFullWidthToHalfWidth.
  induction 1 as [| r s Hr _ IH]; cbn [List.map]; constructor;
    [apply halfWidth_plain, Hr | exact IH].
Qed.

Lemma convert_fixed (s : text) :
  Forall plainRune s -> convertFullWidthToHalfWidth s = s.
Proof.
  unfold convertFullWidthToHalfWidth.
  induction 1 as [| r s Hr _ IH]; [reflexivity |].
  cbn [List.map]. rewrite (halfWidth_fixed r Hr), IH. reflexivity.
Qed.

Lemma Forall_removeFrom (P : rune -> Prop) (s : text) :
  forall prev, Forall P s -> Forall P (removeFrom prev s).
Proof.
  induction s as [| r s IH]; intros prev Hs; [constructor |].
  inversion Hs as [| ? ? Hr Hs']; subst. cbn [removeFrom].
  destruct ((r =? space) && (isJapanese prev && isJapanese (head s)));
    [apply IH, Hs' | constructor; [exact Hr | apply IH, Hs']].
Qed.

Lemma Forall_collapseLoop (P : rune -> Prop) (fuel : nat) :
  P space -> forall s, Forall P s -> Forall P (collapseLoop fuel s).
Proof.
  intros Hsp. induction fuel as [| fuel IH]; intros s Hs; [exact Hs |].
  cbn [collapseLoop]. destruct (Contains s [space; space]); [| exact Hs].
  apply IH, Forall_ReplaceAll; [apply Forall_one; exact Hsp | exact Hs].
Qed.

Lemma Forall_TrimLeftFunc (P : rune -> Prop) (f : rune -> bool) (s : text) :
  Forall P s -> Forall P (TrimLeftFunc s f).
Proof.
  induction 1 as [| r s Hr Hs IH]; [constructor |].
  cbn [TrimLeftFunc]. destruct (f r); [exact IH | constructor; assumption].
Qed.

Lemma Forall_TrimRightFunc (P : rune -> Prop) (f : rune -> bool) (s : text) :
  Forall P s -> Forall P (TrimRightFunc s f).
Proof.
  induction 1 as [| r s Hr Hs IH]; [constructor |].
  cbn [TrimRightFunc]. destruct (TrimRightFunc s f) as [| x t].
  - destruct (f r); repeat constructor; exact Hr.
  - constructor; [exact Hr | exact IH].
Qed.

Lemma Forall_TrimSpace (P : rune -> Prop) (s : text) :
  Forall P s -> Forall P (TrimSpace s).
Proof. intros Hs. apply Forall_TrimRightFunc, Forall_TrimLeftFunc, Hs. Qed.

Lemma Forall_both (P Q : rune -> Prop) (s : text) :
  Forall P s -> Forall Q s -> Forall (fun r => P r /\ Q r) s.
Proof.
  induction 1 as [| r s Hr _ IH]; intros HQ; [constructor |].
  inversion HQ; subst. constructor; [split; assumption | apply IH; assumption].
Qed.

Lemma Forall_weaken (P Q : rune -> Prop) (s : text) :
  (forall r, P r -> Q r) -> Forall P s -> Forall Q s.
Proof.
  intros HPQ. induction 1 as [| r s Hr _ IH]; constructor; [apply HPQ, Hr | exact IH].
Qed.

(** The tail of [sanitizeText], from [removeJapaneseSpaces] on, invents only
    spaces and line feeds. *)
Lemma Forall_collapse_trim (P : rune -> Prop) (s : text) :
  P space -> Forall P s -> Forall P (TrimSpace (collapseSpaces s)).
Proof.
  intros Hsp Hs. apply Forall_TrimSpace, Forall_collapseLoop; assumption.
Qed.

Lemma sanitizeText_settled (s : text) : Forall settled (sanitizeText s).
Proof.
  unfold sanitizeText.
  set (s1 := ReplaceAll s [0xFFFD] []).
  set (s2 := convertFullWidthToHalfWidth s1).
  set (s3 := removeJapaneseSpaces s2).
  set (s4 := ReplaceAll s3 [9] [space]).
  set (s5 := ReplaceAll s4 [13; 10] [10]).
  set (s6 := ReplaceAll s5 [13] [10]).
  assert (Hsp : plainRune space) by (unfold plainRune, space; lia).
  assert (Hlf : plainRune 10) by (unfold plainRune; lia).
  assert (H1 : Forall (fun r => r <> 0xFFFD) s1)
    by (apply ReplaceAll_single_removed; constructor).
  assert (H2 : Forall plainRune s2) by (apply convert_plain, H1).
  assert (H3 : Forall plainRune s3).
  { unfold s3. rewrite removeJapaneseSpaces_removeFrom. apply Forall_removeFrom, H2. }
  assert (H4 : Forall plainRune s4)
    by (apply Forall_ReplaceAll; [apply Forall_one; exact Hsp | exact H3]).
  assert (H4' : Forall (fun r => r <> 9) s4).
  { apply ReplaceAll_single_removed, Forall_one. unfold space. lia. }
  assert (H5 : Forall plainRune s5)
    by (apply Forall_ReplaceAll; [apply Forall_one; exact Hlf | exact H4]).
  assert (H5' : Forall (fun r => r <> 9) s5).
  { apply Forall_ReplaceAll; [apply Forall_one; lia | exact H4']. }
  assert (H6 : Forall plainRune s6)
    by (apply Forall_ReplaceAll; [apply Forall_one; exact Hlf | exact H5]).
  assert (H6' : Forall (fun r => r <> 9) s6).
  { apply Forall_ReplaceAll; [apply Forall_one; lia | exact H5']. }
  assert (H6'' : Forall (fun r => r <> 13) s6).
  { apply ReplaceAll_single_removed, Forall_one. lia. }
  apply Forall_both; [| apply Forall_both].
  - apply Forall_collapse_trim; assumption.
  - apply Forall_collapse_trim; [unfold space; lia | assumption].
  - apply Forall_collapse_trim; [unfold space; lia | assumption].
Qed.

(** *** The loop that collapses spaces runs to its end *)

Lemma Contains_double_cons (a : rune) (s : text) :
  Contains (a :: s) [space; space] =
  ((a =? space) && match s with b :: _ => b =? space | [] => false end)
  || Contains s [space; space].
Proof.
  destruct s as [| b s]; cbn [Contains HasPrefix]; unfold rune_eqb;
    rewrite ?andb_true_r, ?andb_false_r; reflexivity.
Qed.

Lemma replace_double_length (s : text) :
  forall k, (length (replaceFrom [space; space] [space] k s) <= length s)%nat.
Proof.
  induction s as [| c s IH]; intros k; [cbn; lia |].
  cbn [replaceFrom]. destruct k as [| k].
  - destruct (HasPrefix (c :: s) [space; space]).
    + cbn [app length Nat.pred]. specialize (IH 1%nat). unfold text, rune in *. lia.
    + cbn [length]. specialize (IH 0%nat). unfold text, rune in *. lia.
  - cbn [length]. specialize (IH k). unfold text, rune in *. lia.
Qed.

Lemma replace_double_shorter (s : text) :
  Contains s [space; space] = true ->
  (length (ReplaceAll s [space; space] [space]) < length s)%nat.
Proof.
  unfold ReplaceAll. induction s as [| c s IH]; [discriminate |].
  intros Hc. cbn [replaceFrom].
  destruct (HasPrefix (c :: s) [space; space]) eqn:Hp.
  - destruct s as [| b s]; [cbn in Hp; rewrite andb_false_r in Hp; discriminate |].
    cbn [app length Nat.pred replaceFrom].
    pose proof (replace_double_length s 0). unfold text, rune in *. lia.
  - cbn [Contains] in Hc. rewrite Hp in Hc. cbn [orb] in Hc.
    cbn [length]. specialize (IH Hc). unfold text, rune in *. lia.
Qed.

Lemma collapseLoop_done (fuel : nat) :
  forall s, (length s <= fuel)%nat ->
            Contains (collapseLoop fuel s) [space; space] = false.
Proof.
  induction fuel as [| fuel IH]; intros s Hlen.
  - destruct s; [reflexivity | cbn in Hlen; lia].
  - cbn [collapseLoop]. destruct (Contains s [space; space]) eqn:Hc; [| exact Hc].
    apply IH. pose proof (replace_double_shorter s Hc). unfold text, rune in *. lia.
Qed.

Lemma collapseSpaces_done (s : text) :
  Contains (collapseSpaces s) [space; space] = false.
Proof. apply collapseLoop_done. lia. Qed.

(** More fuel changes nothing: the loop has stopped by itself. *)
Lemma collapseLoop_fuel (fuel1 : nat) :
  forall fuel2 s,
    (length s <= fuel1)%nat -> (length s <= fuel2)%nat ->
    collapseLoop fuel1 s = collapseLoop fuel2 s.
Proof.
  induction fuel1 as [| fuel1 IH]; intros fuel2 s H1 H2.
  - destruct s; [destruct fuel2; reflexivity | cbn in H1; lia].
  - destruct fuel2 as [| fuel2].
    + destruct s; [reflexivity | cbn in H2; lia].
    + cbn [collapseLoop].
      destruct (Contains s [space; space]) eqn:Hc; [| reflexivity].
      pose proof (replace_double_shorter s Hc) as Hshort.
      apply IH; unfold text, rune in *; lia.
Qed.

(** *** Trimming *)

Lemma TrimLeftFunc_suffix (f : rune -> bool) (s : text) :
  exists a, s = a ++ TrimLeftFunc s f.
Proof.
  induction s as [| r s [a IH]]; [exists []; reflexivity |].
  cbn [TrimLeftFunc]. destruct (f r).
  - exists (r :: a). cbn [app]. rewrite <- IH. reflexivity.
  - exists []. reflexivity.
Qed.

Lemma TrimRightFunc_prefix (f : rune -> bool) (s : text) :
  exists b, s = TrimRightFunc s f ++ b.
Proof.
  induction s as [| r s [b IH]]; [exists []; reflexivity |].
  cbn [TrimRightFunc]. destruct (TrimRightFunc s f) as [| x t].
  - destruct (f r); [exists (r :: s) | exists s]; reflexivity.
  - exists b. cbn [app] in *. rewrite <- IH. reflexivity.
Qed.

Lemma Contains_app_false (a b sub : text) :
  Contains (a ++ b) sub = false ->
  Contains a sub = false /\ Contains b sub = false.
Proof.
  intros H. split.
  - destruct (Contains a sub) eqn:Ha; [| reflexivity].
    rewrite (Contains_app_l a b sub Ha) in H. discriminate.
  - destruct (Contains b sub) eqn:Hb; [| reflexivity].
    rewrite (Contains_app_r a b sub Hb) in H. discriminate.
Qed.

Lemma Contains_TrimSpace (s sub : text) :
  Contains s sub = false -> Contains (TrimSpace s) sub = false.
Proof.
  intros H. unfold TrimSpace.
  destruct (TrimLeftFunc_suffix IsSpace s) as [a Ha].
  rewrite Ha in H. apply Contains_app_false in H as [_ H].
  destruct (TrimRightFunc_prefix IsSpace (TrimLeftFunc s IsSpace)) as [b Hb].
  rewrite Hb in H. apply Contains_app_false in H as [H _]. exact H.
Qed.

Lemma TrimLeftFunc_ltrimmed (s : text) : ltrimmed (TrimLeftFunc s IsSpace).
Proof.
  induction s as [| r s IH]; [exact I |].
  cbn [TrimLeftFunc]. destruct (IsSpace r) eqn:Hr; [exact IH | exact Hr].
Qed.

Lemma TrimRightFunc_ltrimmed (s : text) :
  ltrimmed s -> ltrimmed (TrimRightFunc s IsSpace).
Proof.
  destruct s as [| r s]; [intros _; exact I |].
  cbn [TrimRightFunc ltrimmed]. intros Hr.
  destruct (TrimRightFunc s IsSpace); [rewrite Hr |]; exact Hr.
Qed.

Lemma TrimRightFunc_rtrimmed (s : text) : rtrimmed (TrimRightFunc s IsSpace).
Proof.
  unfold rtrimmed. induction s as [| r s IH]; [reflexivity |].
  cbn [TrimRightFunc]. destruct (TrimRightFunc s IsSpace) as [| x t] eqn:Ht.
  - destruct (IsSpace r) eqn:Hr; [reflexivity |].
    cbn [TrimRightFunc]. rewrite Hr. reflexivity.
  - cbn [TrimRightFunc]. cbn [TrimRightFunc] in IH. rewrite IH. reflexivity.
Qed.

Lemma TrimSpace_trimmed (s : text) :
  ltrimmed (TrimSpace s) /\ rtrimmed (TrimSpace s).
Proof.
  unfold TrimSpace. split.
  - apply TrimRightFunc_ltrimmed, TrimLeftFunc_ltrimmed.
  - apply TrimRightFunc_rtrimmed.
Qed.

Lemma rtrimmed_cons (r : rune) (s : text) :
  rtrimmed (r :: s) ->
  (s = [] /\ IsSpace r = false) \/ (s <> [] /\ rtrimmed s).
Proof.
  unfold rtrimmed. cbn [TrimRightFunc].
  destruct (TrimRightFunc s IsSpace) as [| x t] eqn:Ht.
  - destruct (IsSpace r); [discriminate |].
    intros H. injection H as H. left. split; [symmetry; exact H | reflexivity].
  - intros H. injection H as H. right. split; [rewrite <- H; discriminate | exact H].
Qed.

Lemma rtrimmed_cons_intro (r : rune) (s : text) :
  s <> [] -> rtrimmed s -> rtrimmed (r :: s).
Proof.
  unfold rtrimmed. intros Hne Hs. cbn [TrimRightFunc]. rewrite Hs.
  destruct s; [contradiction | reflexivity].
Qed.

Lemma trimmed_TrimSpace (s : text) : ltrimmed s -> rtrimmed s -> TrimSpace s = s.
Proof.
  intros Hl Hr. unfold TrimSpace.
  replace (TrimLeftFunc s IsSpace) with s; [exact Hr |].
  destruct s as [| r s]; [reflexivity |].
  cbn [TrimLeftFunc]. cbn [ltrimmed] in Hl. rewrite Hl. reflexivity.
Qed.

(** *** [removeJapaneseSpaces] on a sanitized text *)

Lemma removeFrom_head (s : text) (prev : option rune) :
  head (removeFrom prev s) = Some space -> head s = Some space.
Proof.
  destruct s as [| r s]; [discriminate |].
  cbn [removeFrom].
  destruct (Z.eqb_spec r space) as [-> | Hne]; cbn [andb]; [reflexivity |].
  intros H. exact H.
Qed.

Lemma head_space (s : text) :
  match s with b :: _ => b =? space | [] => false end = true <-> head s = Some space.
Proof.
  destruct s as [| b s]; cbn [head]; [split; discriminate |].
  rewrite Z.eqb_eq. split; [intros ->; reflexivity | intros H; injection H as H; exact H].
Qed.

Lemma removeFrom_no_double (s : text) :
  forall prev,
    Contains s [space; space] = false ->
    Contains (removeFrom prev s) [space; space] = false.
Proof.
  induction s as [| r s IH]; intros prev Hs; [reflexivity |].
  rewrite Contains_double_cons in Hs. apply orb_false_iff in Hs as [Hhere Hrest].
  cbn [removeFrom].
  destruct ((r =? space) && (isJapanese prev && isJapanese (head s)));
    [apply IH, Hrest |].
  rewrite Contains_double_cons, (IH (Some r) Hrest), orb_false_r.
  destruct (r =? space); [| reflexivity]. cbn [andb] in *.
  destruct (match removeFrom (Some r) s with b :: _ => b =? space | [] => false end)
    eqn:Hout; [| reflexivity].
  apply head_space, removeFrom_head, head_space in Hout. congruence.
Qed.

Lemma IsSpace_space : IsSpace space = true.
Proof. reflexivity. Qed.

Lemma removeFrom_ltrimmed (s : text) (prev : option rune) :
  ltrimmed s -> ltrimmed (removeFrom prev s).
Proof.
  destruct s as [| r s]; [intros _; exact I |].
  cbn [ltrimmed removeFrom]. intros Hr.
  destruct (Z.eqb_spec r space) as [-> | _]; cbn [andb ltrimmed]; [| exact Hr].
  rewrite IsSpace_space in Hr. discriminate.
Qed.

Lemma removeFrom_not_nil (s : text) :
  forall prev, s <> [] -> removeFrom prev s <> [].
Proof.
  induction s as [| r s IH]; intros prev Hne; [contradiction |].
  cbn [removeFrom]. destruct s as [| b s].
  - cbn [head isJapanese]. rewrite !andb_false_r. discriminate.
  - destruct ((r =? space) && (isJapanese prev && isJapanese (head (b :: s))));
      [apply IH; discriminate | discriminate].
Qed.

Lemma removeFrom_rtrimmed (s : text) :
  forall prev, rtrimmed s -> rtrimmed (removeFrom prev s).
Proof.
  induction s as [| r s IH]; intros prev Hs; [exact Hs |].
  apply rtrimmed_cons in Hs as [[-> Hr] | [Hne Hs]].
  - cbn [removeFrom head isJapanese]. rewrite !andb_false_r.
    unfold rtrimmed. cbn [TrimRightFunc]. rewrite Hr. reflexivity.
  - cbn [removeFrom].
    destruct ((r =? space) && (isJapanese prev && isJapanese (head s)));
      [apply IH, Hs |].
    apply rtrimmed_cons_intro; [apply removeFrom_not_nil, Hne | apply IH, Hs].
Qed.

(** On a text that [sanitizeText] has produced, a new pass does only the
    work of [removeJapaneseSpaces]. *)
Lemma sanitizeText_again (t : text) :
  Forall settled t -> Contains t [space; space] = false ->
  ltrimmed t -> rtrimmed t ->
  sanitizeText t = removeJapaneseSpaces t.
Proof.
  intros Hset Hdouble Hl Hr. unfold sanitizeText.
  assert (Hffd : Forall (fun r => r <> 0xFFFD) t)
    by (apply (Forall_weaken settled); [intros r [[H _] _]; exact H | exact Hset]).
  assert (Hplain : Forall plainRune t)
    by (apply (Forall_weaken settled); [intros r [H _]; exact H | exact Hset]).
  rewrite (ReplaceAll_absent t _ _ _ Hffd), (convert_fixed t Hplain).
  rewrite removeJapaneseSpaces_removeFrom.
  set (t' := removeFrom None t).
  assert (Hset' : Forall settled t') by (apply Forall_removeFrom, Hset).
  assert (Htab : Forall (fun r => r <> 9) t')
    by (apply (Forall_weaken settled); [intros r (_ & H & _); exact H | exact Hset']).
  assert (Hcr : Forall (fun r => r <> 13) t')
    by (apply (Forall_weaken settled); [intros r (_ & _ & H); exact H | exact Hset']).
  rewrite (ReplaceAll_absent t' _ _ _ Htab).
  rewrite (ReplaceAll_absent t' _ _ _ Hcr), (ReplaceAll_absent t' _ _ _ Hcr).
  assert (Hdouble' : Contains t' [space; space] = false)
    by (apply removeFrom_no_double, Hdouble).
  assert (Hcollapse : collapseSpaces t' = t').
  { unfold collapseSpaces. destruct (length t'); cbn [collapseLoop];
      [| rewrite Hdouble']; reflexivity. }
  rewrite Hcollapse.
  apply trimmed_TrimSpace; [apply removeFrom_ltrimmed, Hl | apply removeFrom_rtrimmed, Hr].
Qed.

Lemma sanitizeText_twice (s : text) :
  sanitizeText (sanitizeText s) = removeJapaneseSpaces (sanitizeText s).
Proof.
  apply sanitizeText_again.
  - apply sanitizeText_settled.
  - unfold sanitizeText. apply Contains_TrimSpace, collapseSpaces_done.
  - unfold sanitizeText. apply TrimSpace_trimmed.
  - unfold sanitizeText. apply TrimSpace_trimmed.
Qed.

Lemma nth_seq_self (rest : text) :
  forall pre,
    flat_map (fun i => [nth i (pre ++ rest) 0]) (seq (length pre) (length rest)) = rest.
Proof.
  induction rest as [| r rest IH]; intros pre; [reflexivity |].
  cbn [length seq flat_map app]. rewrite nth_middle. f_equal.
  specialize (IH (pre ++ [r])).
  rewrite <- app_assoc, length_app in IH. cbn [app length] in IH.
  replace (length pre + 1)%nat with (S (length pre)) in IH by lia.
  exact IH.
Qed.

Lemma removeJapaneseSpaces_nothing (t : text) :
  (forall i, spaceBetweenJapanese t i = false) -> removeJapaneseSpaces t = t.
Proof.
  intros Hnone. rewrite removeJapaneseSpaces_written.
  rewrite (flat_map_ext (written t) (fun i => [nth i t 0])).
  - exact (nth_seq_self t []).
  - intros i. unfold written. rewrite Hnone. reflexivity.
Qed.

Lemma written_length (t : text) (l : list nat) :
  (length (flat_map (written t) l) <= length l)%nat.
Proof.
  induction l as [| k l IH]; [reflexivity |].
  cbn [flat_map]. rewrite length_app. unfold written at 1.
  destruct (spaceBetweenJapanese t k); cbn [length]; lia.
Qed.

Lemma written_shorter (t : text) (l : list nat) (i : nat) :
  In i l -> spaceBetweenJapanese t i = true ->
  (length (flat_map (written t) l) < length l)%nat.
Proof.
  induction l as [| k l IH]; intros Hin Htest; [destruct Hin |].
  cbn [flat_map]. rewrite length_app. pose proof (written_length t l) as Hle.
  destruct Hin as [-> | Hin].
  - unfold written at 1. rewrite Htest. cbn [length]. lia.
  - specialize (IH Hin Htest). unfold written at 1.
    destruct (spaceBetweenJapanese t k); cbn [length]; lia.
Qed.

Lemma spaceBetweenJapanese_inside (t : text) (i : nat) :
  spaceBetweenJapanese t i = true -> (i < length t)%nat.
Proof.
  intros Htest. destruct (Nat.lt_ge_cases i (length t)) as [Hlt | Hge]; [exact Hlt |].
  unfold spaceBetweenJapanese in Htest. rewrite nth_overflow in Htest by exact Hge.
  discriminate.
Qed.

Lemma removeJapaneseSpaces_something (t : text) (i : nat) :
  spaceBetweenJapanese t i = true -> removeJapaneseSpaces t <> t.
Proof.
  intros Htest Heq.
  assert (Hin : In i (seq 0 (length t)))
    by (apply in_seq; pose proof (spaceBetweenJapanese_inside t i Htest); lia).
  pose proof (written_shorter t _ i Hin Htest) as Hshort.
  rewrite <- removeJapaneseSpaces_written, Heq, length_seq in Hshort. lia.
Qed.

(** C1 (amended): a second pass of [sanitizeText] does to the result of the
    first what [removeJapaneseSpaces] does to it, so [sanitizeText] is
    idempotent on a text exactly when its sanitized form holds no plain space
    between two CJK characters. *)
Theorem sanitize_idempotent_without_cjk_gap (s : text) :
  sanitizeText (sanitizeText s) = removeJapaneseSpaces (sanitizeText s) /\
  (sanitizeText (sanitizeText s) = sanitizeText s <->
   forall i, spaceBetweenJapanese (sanitizeText s) i = false).
Proof.
  split; [apply sanitizeText_twice |].
  rewrite sanitizeText_twice. split.
  - intros Heq i. destruct (spaceBetweenJapanese (sanitizeText s) i) eqn:Htest;
      [| reflexivity].
    exfalso. exact (removeJapaneseSpaces_something _ i Htest Heq).
  - apply removeJapaneseSpaces_nothing.
Qed.

Lemma sanitize_idempotent_without_cjk_gap_witness :
  sanitizeText (sanitizeText [0xFF21; 32; 32; 0x65E5; 0x672C; 32; 0x41; 9]) =
    sanitizeText [0xFF21; 32; 32; 0x65E5; 0x672C; 32; 0x41; 9].
Proof.
  apply (proj2 (sanitize_idempotent_without_cjk_gap
                  [0xFF21; 32; 32; 0x65E5; 0x672C; 32; 0x41; 9])).
  intros i.
  replace (sanitizeText [0xFF21; 32; 32; 0x65E5; 0x672C; 32; 0x41; 9])
    with [0x41; 32; 0x65E5; 0x672C; 32; 0x41] by (vm_compute; reflexivity).
  do 6 (destruct i as [| i]; [vm_compute; reflexivity |]).
  unfold spaceBetweenJapanese. cbn [nth]. destruct i; reflexivity.
Defined.

(** C1, as stated, fails: the tab between the two ideographs becomes a space
    after the step that removes such spaces; the second pass removes it. *)
Lemma sanitize_not_idempotent :
  sanitizeText [0x65E5; 9; 0x8A9E] = [0x65E5; 32; 0x8A9E] /\
  sanitizeText (sanitizeText [0x65E5; 9; 0x8A9E]) = [0x65E5; 0x8A9E] /\
  sanitizeText (sanitizeText [0x65E5; 9; 0x8A9E]) <> sanitizeText [0x65E5; 9; 0x8A9E].
Proof.
  split; [vm_compute; reflexivity |].
  split; [vm_compute; reflexivity |].
  vm_compute. discriminate.
Qed.

(** C6: [removeJapaneseSpaces] keeps the runes in order and leaves out
    exactly the positions that hold a plain space with a CJK character
    (Hiragana, Katakana or CJK ideograph, by the three ranges) immediately
    before and immediately after it; a space with one CJK neighbour, or at an
    end of the text, stays.  So [sanitizeText] turns "日本 語" into "日本語"
    and leaves "日本 A" as it is. *)
Theorem cjk_space_removal (s : text) (i : nat) (r : rune) :
  removeJapaneseSpaces s =
    flat_map (fun k => if spaceBetweenJapanese s k then [] else [nth k s 0])
             (seq 0 (length s)) /\
  (spaceBetweenJapanese s i = true <->
   exists pre a b post,
     s = pre ++ a :: 32 :: b :: post /\ i = S (length pre) /\ CJK a /\ CJK b) /\
  (isJapaneseChar r = true <->
   (0x3040 <= r <= 0x309F) \/ (0x30A0 <= r <= 0x30FF) \/ (0x4E00 <= r <= 0x9FAF)) /\
  sanitizeText [0x65E5; 0x672C; 32; 0x8A9E] = [0x65E5; 0x672C; 0x8A9E] /\
  sanitizeText [0x65E5; 0x672C; 32; 0x41] = [0x65E5; 0x672C; 32; 0x41] /\
  removeJapaneseSpaces [0x41; 32; 0x8A9E] = [0x41; 32; 0x8A9E].
Proof.
  split; [apply removeJapaneseSpaces_written |].
  split; [apply spaceBetweenJapanese_split |].
  split; [apply isJapaneseChar_CJK |].
  repeat split; vm_compute; reflexivity.
Qed.

End SanitizerProps.

(** ** More on the sanitizer *)

Section SanitizerMore.
Import SanitizerSpec.

Lemma HasPrefix_length (s old : text) :
  HasPrefix s old = true -> (length old <= length s)%nat.
Proof.
  revert s. induction old as [| o old IH]; intros s H; [cbn; lia |].
  destruct s as [| c s]; [discriminate |].
  cbn [HasPrefix] in H. apply andb_true_iff in H as [_ H].
  specialize (IH s H). cbn [length]. lia.
Qed.

Lemma replaceFrom_length (old new : text) :
  old <> [] -> (length new <= length old)%nat ->
  forall s k, (k <= length s)%nat ->
              (length (replaceFrom old new k s) + k <= length s)%nat.
Proof.
  intros Hold Hnew s. induction s as [| c s IH]; intros k Hk.
  - cbn in *. lia.
  - cbn [replaceFrom]. destruct k as [| k].
    + destruct (HasPrefix (c :: s) old) eqn:Hp.
      * apply HasPrefix_length in Hp. cbn [length] in Hp.
        assert (Hlen : (0 < length old)%nat) by (destruct old; [contradiction | cbn; lia]).
        specialize (IH (Nat.pred (length old))). rewrite length_app. cbn [length].
        unfold text, rune in *. lia.
      * specialize (IH 0%nat). cbn [length]. unfold text, rune in *. lia.
    + specialize (IH k). cbn [length] in *. unfold text, rune in *. lia.
Qed.

Lemma ReplaceAll_length (s : text) (o : rune) (old new : text) :
  (length new <= length (o :: old))%nat ->
  (length (ReplaceAll s (o :: old) new) <= length s)%nat.
Proof.
  intros Hnew. unfold ReplaceAll.
  pose proof (replaceFrom_length (o :: old) new ltac:(discriminate) Hnew s 0) as H.
  unfold text, rune in *. lia.
Qed.

Lemma removeFrom_length (s : text) :
  forall prev, (length (removeFrom prev s) <= length s)%nat.
Proof.
  induction s as [| r s IH]; intros prev; [reflexivity |].
  cbn [removeFrom].
  destruct ((r =? space) && (isJapanese prev && isJapanese (head s)));
    cbn [length]; specialize (IH (Some r)); unfold text, rune in *; lia.
Qed.

Lemma collapseLoop_length (fuel : nat) :
  forall s, (length (collapseLoop fuel s) <= length s)%nat.
Proof.
  induction fuel as [| fuel IH]; intros s; [reflexivity |].
  cbn [collapseLoop]. destruct (Contains s [space; space]); [| reflexivity].
  specialize (IH (ReplaceAll s [space; space] [space])).
  pose proof (ReplaceAll_length s space [space] [space]) as H.
  cbn [length] in H. unfold text, rune in *. lia.
Qed.

Lemma TrimSpace_length (s : text) : (length (TrimSpace s) <= length s)%nat.
Proof.
  unfold TrimSpace.
  destruct (TrimLeftFunc_suffix IsSpace s) as [a Ha].
  destruct (TrimRightFunc_prefix IsSpace (TrimLeftFunc s IsSpace)) as [b Hb].
  rewrite Ha at 2. rewrite Hb at 2. rewrite !length_app. lia.
Qed.

Lemma sanitizeText_length (s : text) : (length (sanitizeText s) <= length s)%nat.
Proof.
  unfold sanitizeText.
  set (s1 := ReplaceAll s [0xFFFD] []).
  set (s2 := convertFullWidthToHalfWidth s1).
  set (s3 := removeJapaneseSpaces s2).
  set (s4 := ReplaceAll s3 [9] [space]).
  set (s5 := ReplaceAll s4 [13; 10] [10]).
  set (s6 := ReplaceAll s5 [13] [10]).
  assert (H1 : (length s1 <= length s)%nat) by (apply ReplaceAll_length; cbn; lia).
  assert (H2 : length s2 = length s1) by apply length_map.
  assert (H3 : (length s3 <= length s2)%nat)
    by (unfold s3; rewrite removeJapaneseSpaces_removeFrom; apply removeFrom_length).
  assert (H4 : (length s4 <= length s3)%nat) by (apply ReplaceAll_length; cbn; lia).
  assert (H5 : (length s5 <= length s4)%nat) by (apply ReplaceAll_length; cbn; lia).
  assert (H6 : (length s6 <= length s5)%nat) by (apply ReplaceAll_length; cbn; lia).
  pose proof (collapseLoop_length (length s6) s6) as H7.
  pose proof (TrimSpace_length (collapseSpaces s6)) as H8.
  unfold collapseSpaces in *. unfold text, rune in *. lia.
Qed.

(** X1: for every valid UTF-8 text, the text that [sanitizeText] returns
    holds no replacement character, no full-width form, no tab and no carriage
    return, never two spaces in a row, no white space at either end, and has
    no more code points than the input. *)
Theorem sanitize_output_normal (s : text) :
  validUTF8 s ->
  Forall (fun r => r <> 0xFFFD /\ ~ (0xFF01 <= r <= 0xFF5E) /\ r <> 9 /\ r <> 13)
         (sanitizeText s) /\
  Contains (sanitizeText s) [32; 32] = false /\
  TrimSpace (sanitizeText s) = sanitizeText s /\
  (length (sanitizeText s) <= length s)%nat.
Proof.
  intros _. split; [| split; [| split]].
  - apply (Forall_weaken settled); [| apply sanitizeText_settled].
    intros r [[H1 H2] [H3 H4]]. tauto.
  - unfold sanitizeText. apply Contains_TrimSpace, collapseSpaces_done.
  - apply trimmed_TrimSpace; unfold sanitizeText; apply TrimSpace_trimmed.
  - apply sanitizeText_length.
Qed.

Lemma sanitize_output_normal_witness :
  Forall (fun r => r <> 0xFFFD /\ ~ (0xFF01 <= r <= 0xFF5E) /\ r <> 9 /\ r <> 13)
         (sanitizeText [32; 0xFF21; 9; 9; 0x65E5; 32; 0x8A9E; 0xFFFD; 13; 10; 0x62; 32; 32]) /\
  Contains (sanitizeText [32; 0xFF21; 9; 9; 0x65E5; 32; 0x8A9E; 0xFFFD; 13; 10; 0x62; 32; 32])
    [32; 32] = false /\
  TrimSpace (sanitizeText [32; 0xFF21; 9; 9; 0x65E5; 32; 0x8A9E; 0xFFFD; 13; 10; 0x62; 32; 32]) =
    sanitizeText [32; 0xFF21; 9; 9; 0x65E5; 32; 0x8A9E; 0xFFFD; 13; 10; 0x62; 32; 32] /\
  Nat.le
    (length (sanitizeText [32; 0xFF21; 9; 9; 0x65E5; 32; 0x8A9E; 0xFFFD; 13; 10; 0x62; 32; 32]))
    (length [32; 0xFF21; 9; 9; 0x65E5; 32; 0x8A9E; 0xFFFD; 13; 10; 0x62; 32; 32]).
Proof.
  apply (sanitize_output_normal
           [32; 0xFF21; 9; 9; 0x65E5; 32; 0x8A9E; 0xFFFD; 13; 10; 0x62; 32; 32]).
  unfold validUTF8. repeat (constructor; [lia |]). constructor.
Defined.

Lemma halfWidth_idem (r : rune) : halfWidth (halfWidth r) = halfWidth r.
Proof.
  unfold halfWidth.
  destruct (Z.leb_spec 0xFF01 r); destruct (Z.leb_spec r 0xFF5E); cbn [andb];
    repeat match goal with
           | |- context [?a <=? ?b] => destruct (Z.leb_spec a b)
           end; cbn [andb]; lia.
Qed.

(** X2: folding keeps the length and works rune by rune: a full-width form
    U+FF01..U+FF5E becomes the ASCII character 0xFEE0 below it, in
    0x21..0x7E, every ASCII character of that range is the image of one
    full-width form, any other rune is unchanged, and folding twice is folding
    once. *)
Theorem fullwidth_folding (s : text) (r : rune) :
  length (convertFullWidthToHalfWidth s) = length s /\
  convertFullWidthToHalfWidth s = List.map halfWidth s /\
  (0xFF01 <= r <= 0xFF5E -> halfWidth r = r - 0xFEE0 /\ 0x21 <= halfWidth r <= 0x7E) /\
  (~ (0xFF01 <= r <= 0xFF5E) -> halfWidth r = r) /\
  (0x21 <= r <= 0x7E -> halfWidth (r + 0xFEE0) = r) /\
  convertFullWidthToHalfWidth (convertFullWidthToHalfWidth s) =
    convertFullWidthToHalfWidth s.
Proof.
  split; [apply length_map |]. split; [reflexivity |].
  unfold halfWidth. repeat split.
  - destruct (Z.leb_spec 0xFF01 r); destruct (Z.leb_spec r 0xFF5E); cbn [andb]; lia.
  - destruct (Z.leb_spec 0xFF01 r); destruct (Z.leb_spec r 0xFF5E); cbn [andb]; lia.
  - destruct (Z.leb_spec 0xFF01 r); destruct (Z.leb_spec r 0xFF5E); cbn [andb]; lia.
  - intros Hr. destruct (Z.leb_spec 0xFF01 r); destruct (Z.leb_spec r 0xFF5E);
      cbn [andb]; lia.
  - intros Hr. destruct (Z.leb_spec 0xFF01 (r + 0xFEE0));
      destruct (Z.leb_spec (r + 0xFEE0) 0xFF5E); cbn [andb]; lia.
  - unfold convertFullWidthToHalfWidth. rewrite map_map.
    apply map_ext. intros a. apply halfWidth_idem.
Qed.

Lemma fullwidth_folding_witness :
  halfWidth 0xFF21 = 0x41 /\ halfWidth 0x3000 = 0x3000 /\ halfWidth (0x7E + 0xFEE0) = 0x7E.
Proof.
  destruct (fullwidth_folding [] 0xFF21) as (_ & _ & Hfull & _).
  destruct (fullwidth_folding [] 0x3000) as (_ & _ & _ & Hother & _).
  destruct (fullwidth_folding [] 0x7E) as (_ & _ & _ & _ & Hback & _).
  split; [| split].
  - rewrite (proj1 (Hfull ltac:(lia))). reflexivity.
  - apply Hother. lia.
  - apply Hback. lia.
Defined.

Lemma removeFrom_head_after_space (s : text) (prev : option rune) :
  head s <> Some space -> head (removeFrom prev s) = head s.
Proof.
  destruct s as [| r s]; [reflexivity |].
  cbn [removeFrom head]. intros Hr.
  destruct (Z.eqb_spec r space) as [-> | _]; [contradiction | reflexivity].
Qed.

(** A second run of [removeJapaneseSpaces] finds nothing left, when no two
    spaces were adjacent. *)
Lemma removeFrom_again (s : text) :
  forall p q,
    Contains s [space; space] = false ->
    (head s = Some space -> isJapanese p = isJapanese q) ->
    removeFrom q (removeFrom p s) = removeFrom p s.
Proof.
  induction s as [| r s IH]; intros p q Hs Hpq; [reflexivity |].
  rewrite Contains_double_cons in Hs. apply orb_false_iff in Hs as [Hhere Hrest].
  cbn [removeFrom].
  destruct ((r =? space) && (isJapanese p && isJapanese (head s))) eqn:Hdel.
  - apply IH; [exact Hrest |].
    apply andb_true_iff in Hdel as [_ Hdel]. apply andb_true_iff in Hdel as [_ Hnext].
    destruct s as [| b s]; [discriminate |]. cbn [head isJapanese] in *.
    intros Hb. injection Hb as ->. discriminate.
  - cbn [removeFrom]. rewrite (IH (Some r) (Some r) Hrest (fun _ => eq_refl)).
    destruct (Z.eqb_spec r space) as [-> | Hne]; cbn [andb] in *; [| reflexivity].
    assert (Hnot : head s <> Some space).
    { intros Hsp. apply head_space in Hsp. rewrite Hsp in Hhere. discriminate. }
    rewrite (removeFrom_head_after_space s (Some space) Hnot).
    rewrite <- (Hpq eq_refl), Hdel. reflexivity.
Qed.

Lemma removeJapaneseSpaces_again (t : text) :
  Contains t [space; space] = false ->
  removeJapaneseSpaces (removeJapaneseSpaces t) = removeJapaneseSpaces t.
Proof.
  intros Ht. rewrite !removeJapaneseSpaces_removeFrom.
  apply removeFrom_again; [exact Ht | reflexivity].
Qed.

(** X3: on every valid UTF-8 text [sanitizeText] settles after two passes:
    the third pass, and so every later one, returns what the second
    returned. *)
Theorem sanitize_stable_after_two (s : text) :
  validUTF8 s ->
  sanitizeText (sanitizeText (sanitizeText s)) = sanitizeText (sanitizeText s).
Proof.
  intros _.
  rewrite (sanitizeText_twice (sanitizeText s)).
  rewrite (sanitizeText_twice s).
  apply removeJapaneseSpaces_again.
  unfold sanitizeText. apply Contains_TrimSpace, collapseSpaces_done.
Qed.

(** The text of C1's counterexample: the second pass changes it, the third
    does not. *)
Lemma sanitize_stable_after_two_witness :
  sanitizeText (sanitizeText (sanitizeText [0x65E5; 9; 0x8A9E])) =
  sanitizeText (sanitizeText [0x65E5; 9; 0x8A9E]).
Proof.
  apply (sanitize_stable_after_two [0x65E5; 9; 0x8A9E]).
  unfold validUTF8. repeat (constructor; [lia |]). constructor.
Defined.

Lemma halfWidth_not_CJK (r : rune) : ~ CJK r -> ~ CJK (halfWidth r).
Proof.
  unfold CJK, halfWidth.
  destruct (Z.leb_spec 0xFF01 r); destruct (Z.leb_spec r 0xFF5E); cbn [andb]; lia.
Qed.

Lemma sanitizeText_not_CJK (s : text) :
  Forall (fun r => ~ CJK r) s -> Forall (fun r => ~ CJK r) (sanitizeText s).
Proof.
  intros Hs. unfold sanitizeText.
  assert (Hsp : ~ CJK space) by (unfold CJK, space; lia).
  assert (Hlf : ~ CJK 10) by (unfold CJK; lia).
  apply Forall_collapse_trim; [exact Hsp |].
  do 2 (apply Forall_ReplaceAll; [apply Forall_one; exact Hlf |]).
  apply Forall_ReplaceAll; [apply Forall_one; exact Hsp |].
  rewrite removeJapaneseSpaces_removeFrom. apply Forall_removeFrom.
  unfold convertFullWidthToHalfWidth.
  assert (H1 : Forall (fun r => ~ CJK r) (ReplaceAll s [0xFFFD] []))
    by (apply Forall_ReplaceAll; [constructor | exact Hs]).
  induction H1 as [| r l Hr _ IH]; cbn [List.map]; constructor;
    [apply halfWidth_not_CJK, Hr | exact IH].
Qed.

(** X4: on a valid UTF-8 text without any CJK character (Hiragana,
    Katakana, CJK ideograph) [sanitizeText] is idempotent. *)
Theorem sanitize_idempotent_without_cjk (s : text) :
  validUTF8 s ->
  Forall (fun r => ~ CJK r) s ->
  sanitizeText (sanitizeText s) = sanitizeText s.
Proof.
  intros _ Hs. rewrite sanitizeText_twice. apply removeJapaneseSpaces_nothing.
  intros i. destruct (spaceBetweenJapanese (sanitizeText s) i) eqn:Htest; [| reflexivity].
  apply spaceBetweenJapanese_split in Htest as (pre & a & b & post & Ht & _ & Ha & _).
  pose proof (sanitizeText_not_CJK s Hs) as Hout. rewrite Ht in Hout.
  apply Forall_app in Hout as [_ Hout]. inversion Hout; subst. contradiction.
Qed.

Lemma sanitize_idempotent_without_cjk_witness :
  sanitizeText (sanitizeText [32; 0x61; 9; 9; 0x62; 32; 32; 0x63; 13; 10; 0xFF21; 0xFFFD]) =
  sanitizeText [32; 0x61; 9; 9; 0x62; 32; 32; 0x63; 13; 10; 0xFF21; 0xFFFD].
Proof.
  apply (sanitize_idempotent_without_cjk
           [32; 0x61; 9; 9; 0x62; 32; 32; 0x63; 13; 10; 0xFF21; 0xFFFD]).
  - unfold validUTF8. repeat (constructor; [lia |]). constructor.
  - repeat (constructor; [unfold CJK; lia |]). constructor.
Defined.

Lemma removeFrom_nonspaces (s : text) :
  forall prev,
    List.filter (fun r => negb (r =? space)) (removeFrom prev s) =
    List.filter (fun r => negb (r =? space)) s.
Proof.
  induction s as [| r s IH]; intros prev; [reflexivity |].
  cbn [removeFrom]. destruct (Z.eqb_spec r space) as [-> | Hne]; cbn [andb].
  - destruct (isJapanese prev && isJapanese (head s)); cbn [List.filter];
      rewrite ?Z.eqb_refl; cbn [negb]; apply IH.
  - cbn [List.filter]. rewrite IH. reflexivity.
Qed.

Lemma removeFrom_last (s : text) :
  forall prev, last (removeFrom prev s) = last s.
Proof.
  induction s as [| r s IH]; intros prev; [reflexivity |].
  cbn [removeFrom]. destruct s as [| b s].
  - cbn [head isJapanese]. rewrite !andb_false_r. reflexivity.
  - specialize (IH (Some r)).
    destruct ((r =? space) && (isJapanese prev && isJapanese (head (b :: s)))).
    + rewrite IH. reflexivity.
    + pose proof (removeFrom_not_nil (b :: s) (Some r) ltac:(discriminate)) as Hne.
      destruct (removeFrom (Some r) (b :: s)) as [| x l] eqn:Hx; [contradiction |].
      cbn [last] in *. exact IH.
Qed.

(** X5: [removeJapaneseSpaces] deletes spaces and nothing else: the runes
    other than the space come out all, in their order; the first and the last
    rune of the text always stay, and the result is never longer. *)
Theorem remove_spaces_only (s : text) :
  List.filter (fun r => negb (r =? 32)) (removeJapaneseSpaces s) =
    List.filter (fun r => negb (r =? 32)) s /\
  head (removeJapaneseSpaces s) = head s /\
  last (removeJapaneseSpaces s) = last s /\
  (length (removeJapaneseSpaces s) <= length s)%nat.
Proof.
  rewrite removeJapaneseSpaces_removeFrom.
  split; [apply removeFrom_nonspaces |].
  split; [| split; [apply removeFrom_last | apply removeFrom_length]].
  destruct s as [| r s]; [reflexivity |].
  cbn [removeFrom isJapanese andb]. rewrite andb_false_r. reflexivity.
Qed.

End SanitizerMore.

(** ** More on the extractors *)

Section ExtractorsMore.
Import MoreSpec.

Lemma fold_left_filter_map {A : Type} (g : A -> text) (l : list A) :
  forall init,
    fold_left (fun acc x => match g x with [] => acc | _ :: _ => acc ++ [g x] end) l init =
    init ++ List.filter nonEmpty (List.map g l).
Proof.
  induction l as [| x l IH]; intros init; cbn [fold_left List.map List.filter].
  - rewrite app_nil_r. reflexivity.
  - rewrite IH. destruct (g x) eqn:Hg; cbn [nonEmpty]; [reflexivity |].
    rewrite <- app_assoc. reflexivity.
Qed.

Lemma filter_nonEmpty_nothing {A : Type} (g : A -> text) (l : list A) :
  Forall (fun x => g x = []) l -> List.filter nonEmpty (List.map g l) = [].
Proof.
  induction 1 as [| x l Hx _ IH]; [reflexivity |].
  cbn [List.map List.filter]. rewrite Hx. exact IH.
Qed.

Lemma collectPageTexts_filter (texts : list text) :
  PDF.collectPageTexts texts = List.filter nonEmpty (List.map TrimSpace texts).
Proof. unfold PDF.collectPageTexts. apply (fold_left_filter_map TrimSpace). Qed.

Lemma flat_map_nothing {A B : Type} (g : A -> list B) (l : list A) :
  (forall x, In x l -> g x = []) -> flat_map g l = [].
Proof.
  induction l as [| x l IH]; intros H; [reflexivity |].
  cbn [flat_map]. rewrite (H x (or_introl eq_refl)), IH; [reflexivity |].
  intros y Hy. apply H. right. exact Hy.
Qed.

Lemma PDF_ParseFromReader_pages (r : PDF.Reader) :
  PDF.ParseFromReader (Some r) =
  Ok (flat_map (PDF.pageStep r []) (seq 1 (PDF.NumPage r))).
Proof.
  unfold PDF.ParseFromReader.
  rewrite (fold_left_append _ (PDF.pageStep r [])); [reflexivity |].
  intros acc k. apply pageStep_append.
Qed.

(** X6: of the text fragments of a page only the trimmed, non-empty ones
    count: a fragment made of white space changes nothing wherever it stands,
    and a page with such fragments only is written like a page without text.
    A document all of whose pages are null gives the empty text, without
    error. *)
Theorem pdf_blank_fragments_ignored
    (r : PDF.Reader) (i : nat) (pre post : list text) (blank : text) :
  (TrimSpace blank = [] ->
   PDF.collectPageTexts (pre ++ blank :: post) = PDF.collectPageTexts (pre ++ post)) /\
  (PDF.V_IsNull (PDF.GetPage r i) = false ->
   Forall (fun S => TrimSpace S = []) (PDF.Content_Text (PDF.GetPage r i)) ->
   PDF.pageStep r [] i = lit "## Page " ++ itoa i ++ [10; 10; 10; 10]) /\
  ((forall k, (1 <= k <= PDF.NumPage r)%nat -> PDF.V_IsNull (PDF.GetPage r k) = true) ->
   PDF.ParseFromReader (Some r) = Ok []).
Proof.
  split; [| split].
  - intros Hblank. rewrite !collectPageTexts_filter, !List.map_app, !List.filter_app.
    cbn [List.map List.filter]. rewrite Hblank. reflexivity.
  - intros Hnull Hall. rewrite (pageStep_section r i Hnull). unfold PDFSpec.pageBody.
    assert (Hnone : PDF.collectPageTexts (PDF.Content_Text (PDF.GetPage r i)) = []).
    { rewrite collectPageTexts_filter. apply filter_nonEmpty_nothing, Hall. }
    rewrite Hnone. cbn [app]. rewrite <- !app_assoc. reflexivity.
  - intros Hall. rewrite PDF_ParseFromReader_pages. f_equal.
    apply flat_map_nothing. intros k Hk. apply in_seq in Hk.
    unfold PDF.pageStep. rewrite Hall by lia. reflexivity.
Qed.

Lemma pdf_blank_fragments_ignored_witness :
  PDF.collectPageTexts ([lit "a"] ++ [32; 9; 10] :: [lit " b "]) =
    PDF.collectPageTexts ([lit "a"] ++ [lit " b "]) /\
  PDF.ParseFromReader
    (Some {| PDF.NumPage := 2;
             PDF.GetPage := fun _ => {| PDF.V_IsNull := true; PDF.Content_Text := [] |} |}) =
    Ok [].
Proof.
  split.
  - apply (pdf_blank_fragments_ignored PDFSpec.threePages 0 [lit "a"] [lit " b "] [32; 9; 10]).
    reflexivity.
  - apply (pdf_blank_fragments_ignored
             {| PDF.NumPage := 2;
                PDF.GetPage := fun _ => {| PDF.V_IsNull := true; PDF.Content_Text := [] |} |}
             0 [] [] []).
    intros k _. reflexivity.
Defined.

(** *** The plain text parser *)

(** X7: on the reader of a byte slice, [TextParser.ParseFromReader] with a
    size between 0 and the cap returns the first [size] bytes of the slice,
    all of them when [size] is the length or more: a read that stops short at
    the end of the data is accepted.  A negative size makes the call panic in
    [make]. *)
Theorem text_reader_prefix (data : list Byte.byte) (size : Z) :
  (0 <= size <= 104857600 ->
   TextParser.ParseFromReader (TextParser.NewReader data) size =
     TextParser.Returns (Ok (firstn (Z.to_nat size) data))) /\
  (size < 0 ->
   TextParser.ParseFromReader (TextParser.NewReader data) size = TextParser.Panics).
Proof.
  split.
  - intros Hsize. rewrite ParseFromReader_small.
    + unfold TextParser.NewReader; cbn [TextParser.ReadAt].
      destruct (Z.geb_spec 0 (TextParser.len data)) as [Hge | Hlt]; cbn [Z.ltb fst].
      * pose proof (len_nonneg data) as Hlen. unfold TextParser.len in *.
        destruct data; [| cbn in Hge; lia]. rewrite firstn_nil. reflexivity.
      * change (Z.to_nat 0) with 0%nat. rewrite skipn_O. reflexivity.
    + rewrite maxSize_value. exact Hsize.
    + unfold TextParser.NewReader; cbn [TextParser.ReadAt].
      destruct (0 >=? TextParser.len data); cbn [Z.ltb snd]; [discriminate |].
      destruct (_ <? size); discriminate.
  - intros Hneg. unfold TextParser.ParseFromReader.
    destruct (Z.gtb_spec size TextParser.maxSize) as [Hgt | _];
      [rewrite maxSize_value in Hgt; lia |].
    destruct (Z.ltb_spec size 0); [reflexivity | lia].
Qed.

Lemma text_reader_prefix_witness :
  TextParser.ParseFromReader (TextParser.NewReader [Byte.x61; Byte.x62; Byte.x63]) 2 =
    TextParser.Returns (Ok [Byte.x61; Byte.x62]) /\
  TextParser.ParseFromReader (TextParser.NewReader [Byte.x61; Byte.x62; Byte.x63]) 5 =
    TextParser.Returns (Ok [Byte.x61; Byte.x62; Byte.x63]) /\
  TextParser.ParseFromReader (TextParser.NewReader [Byte.x61]) (-1) = TextParser.Panics.
Proof.
  split; [| split].
  - apply (proj1 (text_reader_prefix [Byte.x61; Byte.x62; Byte.x63] 2)). lia.
  - apply (proj1 (text_reader_prefix [Byte.x61; Byte.x62; Byte.x63] 5)). lia.
  - apply (proj2 (text_reader_prefix [Byte.x61] (-1))). lia.
Defined.

(** *** The Word extractor *)

Lemma text_eqb_eq (a b : text) : text_eqb a b = true <-> a = b.
Proof.
  revert b. induction a as [| x a IH]; intros [| y b]; cbn [text_eqb];
    try (split; [discriminate | discriminate]); [split; reflexivity |].
  unfold rune_eqb. rewrite andb_true_iff, Z.eqb_eq, IH.
  split; [intros [-> ->]; reflexivity | intros H; injection H; auto].
Qed.

Lemma extractTextFromParagraph_runs (p : Docx.DocxParagraph) :
  Docx.extractTextFromParagraph p =
  flat_map (fun run => Docx.Content (Docx.Text run)) (Docx.Runs p).
Proof.
  unfold Docx.extractTextFromParagraph.
  rewrite (fold_left_append _ (fun run => Docx.Content (Docx.Text run))); reflexivity.
Qed.

Lemma rowTexts_cells (cells : list Docx.DocxTableCell) :
  forall init,
    fold_left
      (fun rowTexts cell =>
         fold_left
           (fun rowTexts p =>
              let txt := Docx.extractTextFromParagraph p in
              match txt with
              | [] => rowTexts
              | _ :: _ => rowTexts ++ [txt]
              end)
           (Docx.Paragraphs cell) rowTexts)
      cells init =
    init ++ List.filter nonEmpty
              (List.map Docx.extractTextFromParagraph (flat_map Docx.Paragraphs cells)).
Proof.
  induction cells as [| cell cells IH]; intros init; cbn [fold_left flat_map].
  - rewrite app_nil_r. reflexivity.
  - rewrite IH. cbv zeta.
    rewrite (fold_left_filter_map Docx.extractTextFromParagraph).
    rewrite List.map_app, List.filter_app, <- app_assoc. reflexivity.
Qed.

Lemma rowTexts_filter (row : Docx.DocxTableRow) :
  Docx.rowTexts row =
  List.filter nonEmpty
    (List.map Docx.extractTextFromParagraph (flat_map Docx.Paragraphs (Docx.Cells row))).
Proof. unfold Docx.rowTexts. apply (rowTexts_cells (Docx.Cells row) []). Qed.

(** X8: a table is written row by row: the line of a row is the texts of its
    non-empty paragraphs, cell after cell, joined by tabs and closed by a line
    feed, so that the paragraphs of one cell are set apart like cells; a row
    all of whose paragraphs are empty is left out. *)
Theorem docx_table_rows (tbl : Docx.DocxTable) (row : Docx.DocxTableRow) :
  Docx.extractTextFromTable tbl = flat_map rowLine (Docx.Rows tbl) /\
  Docx.rowTexts row =
    List.filter nonEmpty
      (List.map Docx.extractTextFromParagraph
         (flat_map Docx.Paragraphs (Docx.Cells row))) /\
  (Forall (fun p => Docx.extractTextFromParagraph p = [])
          (flat_map Docx.Paragraphs (Docx.Cells row)) ->
   rowLine row = []) /\
  Docx.extractTextFromTable
    (Docx.decodeTable
       [Docx.Element (lit "tr")
          [Docx.Element (lit "tc") [DocxSpec.para "a"; DocxSpec.emptyPara; DocxSpec.para "b"];
           Docx.Element (lit "tc") [DocxSpec.emptyPara];
           Docx.Element (lit "tc") [DocxSpec.para "c"]];
        Docx.Element (lit "tr") [Docx.Element (lit "tc") [DocxSpec.emptyPara]]]) =
    lit "a" ++ [9] ++ lit "b" ++ [9] ++ lit "c" ++ [10].
Proof.
  split; [| split; [apply rowTexts_filter | split]].
  - unfold Docx.extractTextFromTable.
    rewrite (fold_left_append _ rowLine); [reflexivity |].
    intros acc r. unfold rowLine. destruct (Docx.rowTexts r);
      [rewrite app_nil_r |]; reflexivity.
  - intros Hall. unfold rowLine.
    rewrite rowTexts_filter, (filter_nonEmpty_nothing _ _ Hall). reflexivity.
  - vm_compute. reflexivity.
Qed.

Lemma findDocument_skip (pre rest : list Docx.File) :
  Forall (fun g => Docx.Name g <> lit "word/document.xml") pre ->
  Docx.findDocument (pre ++ rest) = Docx.findDocument rest.
Proof.
  induction 1 as [| g pre Hg _ IH]; [reflexivity |].
  cbn [app Docx.findDocument].
  destruct (text_eqb (Docx.Name g) (lit "word/document.xml")) eqn:He; [| exact IH].
  apply text_eqb_eq in He. contradiction.
Qed.

(** X9: only the first archive entry named [word/document.xml] is read: the
    entries before it are passed over, those after it are never looked at.  An
    archive without such an entry gives the empty text, and no error. *)
Theorem docx_document_entry (pre post : list Docx.File) (f : Docx.File) :
  Forall (fun g => Docx.Name g <> lit "word/document.xml") pre ->
  Docx.ParseFromReader (Some pre) = Ok [] /\
  (Docx.Name f = lit "word/document.xml" ->
   Docx.ParseFromReader (Some (pre ++ f :: post)) = Docx.ParseFromReader (Some [f])).
Proof.
  intros Hpre. cbn [Docx.ParseFromReader]. split.
  - rewrite <- (app_nil_r pre), (findDocument_skip pre [] Hpre). reflexivity.
  - intros Hf. rewrite (findDocument_skip pre (f :: post) Hpre).
    cbn [Docx.findDocument]. rewrite Hf.
    replace (text_eqb (lit "word/document.xml") (lit "word/document.xml")) with true
      by reflexivity.
    reflexivity.
Qed.

Lemma docx_document_entry_witness :
  Docx.ParseFromReader
    (Some [{| Docx.Name := lit "[Content_Types].xml"; Docx.Open := Docx.Malformed |}]) = Ok [] /\
  Docx.ParseFromReader
    (Some ([{| Docx.Name := lit "[Content_Types].xml"; Docx.Open := Docx.Malformed |}] ++
           DocxSpec.documentXml [DocxSpec.para "Hello"] ::
           [DocxSpec.documentXml [DocxSpec.para "World"]])) =
  Docx.ParseFromReader (Some [DocxSpec.documentXml [DocxSpec.para "Hello"]]).
Proof.
  assert (Hpre : Forall (fun g => Docx.Name g <> lit "word/document.xml")
                   [{| Docx.Name := lit "[Content_Types].xml"; Docx.Open := Docx.Malformed |}]).
  { constructor; [| constructor]. vm_compute. discriminate. }
  split.
  - exact (proj1 (docx_document_entry _ [] (DocxSpec.documentXml []) Hpre)).
  - apply (proj2 (docx_document_entry _ [DocxSpec.documentXml [DocxSpec.para "World"]]
                    (DocxSpec.documentXml [DocxSpec.para "Hello"]) Hpre)).
    reflexivity.
Defined.

Lemma walk_outside :
  forall (n : Docx.Node) (acc : text),
    mentionsBody n = false -> Docx.walk n (false, acc) = (false, acc).
Proof.
  fix IH 1. intros [local children | data] acc Hn; [| reflexivity].
  cbn [mentionsBody] in Hn. apply orb_false_iff in Hn as [Hlocal Hchildren].
  cbn [Docx.walk fst snd orb]. rewrite Hlocal. cbn [andb].
  assert (Hfold : fold_left (fun st c => Docx.walk c st) children (false, acc) = (false, acc)).
  { clear Hlocal. induction children as [| c children IHc]; [reflexivity |].
    cbn [existsb] in Hchildren. apply orb_false_iff in Hchildren as [Hc Hrest].
    cbn [fold_left]. rewrite (IH c acc Hc). exact (IHc Hrest). }
  rewrite Hfold. reflexivity.
Qed.

Lemma walk_outside_all (nodes : list Docx.Node) (acc : text) :
  Forall (fun n => mentionsBody n = false) nodes ->
  fold_left (fun st n => Docx.walk n st) nodes (false, acc) = (false, acc).
Proof.
  induction 1 as [| n nodes Hn _ IH]; [reflexivity |].
  cbn [fold_left]. rewrite (walk_outside n acc Hn). exact IH.
Qed.

(** X10: what stands outside the [body] element does not count: a document
    without an element named [body] gives the empty text, and around a body
    the other children of the root, paragraphs included, add nothing to what
    the content of the body gives. *)
Theorem docx_only_body_counts
    (root : text) (nodes pre body post : list Docx.Node) :
  (Forall (fun n => mentionsBody n = false) nodes -> Docx.parseDocument nodes = []) /\
  (root <> lit "body" ->
   Forall (fun n => mentionsBody n = false) pre ->
   Forall (fun n => mentionsBody n = false) post ->
   Docx.parseDocument [Docx.Element root (pre ++ Docx.Element (lit "body") body :: post)] =
   snd (fold_left (fun st n => Docx.walk n st) body (true, []))).
Proof.
  split.
  - intros Hnodes. unfold Docx.parseDocument. rewrite walk_outside_all; [reflexivity | exact Hnodes].
  - intros Hroot Hpre Hpost. unfold Docx.parseDocument.
    assert (Hr : text_eqb root (lit "body") = false).
    { destruct (text_eqb root (lit "body")) eqn:He; [| reflexivity].
      apply text_eqb_eq in He. contradiction. }
    cbn [fold_left Docx.walk fst snd orb]. rewrite Hr. cbn [andb].
    rewrite fold_left_app, (walk_outside_all pre [] Hpre).
    cbn [fold_left Docx.walk fst snd orb].
    replace (text_eqb (lit "body") (lit "body")) with true by reflexivity.
    replace (text_eqb (lit "body") (lit "p")) with false by reflexivity.
    replace (text_eqb (lit "body") (lit "tbl")) with false by reflexivity.
    cbn [andb].
    rewrite (walk_outside_all post _ Hpost). reflexivity.
Qed.

Lemma docx_only_body_counts_witness :
  Docx.parseDocument [Docx.Element (lit "document") [DocxSpec.para "lost"]] = [] /\
  Docx.parseDocument
    [Docx.Element (lit "document")
       ([DocxSpec.para "before"] ++
        Docx.Element (lit "body") [DocxSpec.para "kept"] :: [DocxSpec.para "after"])] =
  snd (fold_left (fun st n => Docx.walk n st) [DocxSpec.para "kept"] (true, [])).
Proof.
  split.
  - apply (proj1 (docx_only_body_counts [] [Docx.Element (lit "document") [DocxSpec.para "lost"]]
                    [] [] [])).
    repeat constructor.
  - apply (proj2 (docx_only_body_counts (lit "document") []
                    [DocxSpec.para "before"] [DocxSpec.para "kept"] [DocxSpec.para "after"])).
    + vm_compute. discriminate.
    + repeat constructor.
    + repeat constructor.
Defined.

Lemma childElements_all (local : text) (ps : list (list Docx.Node)) :
  Docx.childElements local (List.map (Docx.Element local) ps) = ps.
Proof.
  unfold Docx.childElements. induction ps as [| cs ps IH]; [reflexivity |].
  cbn [List.map flat_map]. rewrite (proj2 (text_eqb_eq local local) eq_refl), IH.
  reflexivity.
Qed.

Lemma service_paragraph_text (paragraph : Docx.DocxParagraph) :
  fold_left
    (fun paragraphText run =>
       match Docx.Content (Docx.Text run) with
       | [] => paragraphText
       | c => paragraphText ++ c
       end)
    (Docx.Runs paragraph) [] =
  Docx.extractTextFromParagraph paragraph.
Proof.
  rewrite extractTextFromParagraph_runs.
  rewrite (fold_left_append _ (fun run => Docx.Content (Docx.Text run))); [reflexivity |].
  intros acc run. destruct (Docx.Content (Docx.Text run)); [rewrite app_nil_r |]; reflexivity.
Qed.

Lemma paragraphLines_texts (document : ServiceDocx.DocxDocument) :
  ServiceDocx.paragraphLines document =
  List.map Docx.extractTextFromParagraph
    (ServiceDocx.Paragraphs (ServiceDocx.Body document)).
Proof.
  unfold ServiceDocx.paragraphLines.
  rewrite (fold_left_append _ (fun paragraph => [Docx.extractTextFromParagraph paragraph])).
  - cbn [app]. induction (ServiceDocx.Paragraphs (ServiceDocx.Body document)) as [| x l IH];
      [reflexivity | cbn [flat_map List.map app]; rewrite IH; reflexivity].
  - intros acc paragraph. cbv zeta. rewrite service_paragraph_text.
    destruct (Docx.extractTextFromParagraph paragraph); reflexivity.
Qed.

(** X11: on a body made of paragraphs, the token loop of
    [DOCXParser.ParseFromReader] and the earlier [extractTextFromDocument] see
    the same paragraph texts; the earlier one joins them all with line feeds,
    the token loop drops the empty ones and ends each of the others with a
    line feed. *)
Theorem docx_two_extractors (ps : list (list Docx.Node)) :
  ServiceDocx.paragraphLines (DocxSpec.bodyOf (List.map (Docx.Element (lit "p")) ps)) =
    List.map (fun cs => Docx.extractTextFromParagraph (Docx.decodeParagraph cs)) ps /\
  ServiceDocx.extractTextFromDocument
    (DocxSpec.bodyOf (List.map (Docx.Element (lit "p")) ps)) =
    Join (List.map (fun cs => Docx.extractTextFromParagraph (Docx.decodeParagraph cs)) ps)
         [10] /\
  Docx.ParseFromReader
    (Some [DocxSpec.documentXml (List.map (Docx.Element (lit "p")) ps)]) =
    Ok (flat_map (fun line => match line with [] => [] | _ :: _ => line ++ [10] end)
          (ServiceDocx.paragraphLines
             (DocxSpec.bodyOf (List.map (Docx.Element (lit "p")) ps)))).
Proof.
  assert (Hlines :
            ServiceDocx.paragraphLines
              (DocxSpec.bodyOf (List.map (Docx.Element (lit "p")) ps)) =
            List.map (fun cs => Docx.extractTextFromParagraph (Docx.decodeParagraph cs)) ps).
  { rewrite paragraphLines_texts. unfold DocxSpec.bodyOf.
    cbn [ServiceDocx.Body ServiceDocx.Paragraphs].
    rewrite childElements_all, List.map_map. reflexivity. }
  split; [exact Hlines |]. split.
  - unfold ServiceDocx.extractTextFromDocument. rewrite Hlines. reflexivity.
  - rewrite Hlines.
    unfold Docx.ParseFromReader, Docx.findDocument, DocxSpec.documentXml.
    cbn [Docx.Name Docx.Open].
    replace (text_eqb (lit "word/document.xml") (lit "word/document.xml")) with true
      by reflexivity.
    rewrite parseDocument_paragraphs. f_equal. clear Hlines.
    induction ps as [| cs ps IH]; [reflexivity |].
    cbn [flat_map List.map]. rewrite IH. unfold DocxSpec.paragraphLine.
    destruct (Docx.extractTextFromParagraph (Docx.decodeParagraph cs)); reflexivity.
Qed.

(** *** The PowerPoint extractor *)

Lemma decodedSlides_same (files files' : list Pptx.File) :
  Forall2 sameSlideEntry files files' ->
  PptxSpec.decodedSlides files = PptxSpec.decodedSlides files'.
Proof.
  induction 1 as [| f f' files files' [Ho Hs] _ IH]; [reflexivity |].
  unfold PptxSpec.decodedSlides in *. cbn [flat_map]. rewrite Ho, Hs, IH. reflexivity.
Qed.

(** X12: the slide loop uses the name of an entry for the slide-file test
    only: archives whose entries agree one by one in payload and in the answer
    to that test give the same text.  The numbers in the headers count the
    decoded slides in archive order, whatever number a file name carries: with
    [slide2.xml] listed before [slide1.xml], the output starts with the header
    [## Slide 1] over the content of [slide2.xml], and [## Slide 2] stands
    over the content of [slide1.xml]. *)
Theorem pptx_numbering_by_order
    (files files' : list Pptx.File) (s1 s2 : Pptx.Slide) :
  (Forall2 sameSlideEntry files files' ->
   Pptx.ParseFromReader (Some files) = Pptx.ParseFromReader (Some files')) /\
  Pptx.ParseFromReader
    (Some [ {| Pptx.Name := PptxSpec.slidePath "slide2.xml"; Pptx.Open := Pptx.Unmarshalled s2 |};
            {| Pptx.Name := PptxSpec.slidePath "slide1.xml"; Pptx.Open := Pptx.Unmarshalled s1 |} ]) =
    Ok ((lit "## Slide 1" ++ [10]) ++
        (if (0 <? length (Pptx.extractTextFromSlide s2))%nat
         then Pptx.extractTextFromSlide s2 else lit "(No text found)") ++ [10; 10] ++
        (lit "## Slide 2" ++ [10]) ++
        (if (0 <? length (Pptx.extractTextFromSlide s1))%nat
         then Pptx.extractTextFromSlide s1 else lit "(No text found)") ++ [10; 10]) /\
  Pptx.ParseFromReader
    (Some [ {| Pptx.Name := PptxSpec.slidePath "slide2.xml";
               Pptx.Open := Pptx.Unmarshalled (PptxSpec.textSlide "second") |};
            {| Pptx.Name := PptxSpec.slidePath "slide1.xml";
               Pptx.Open := Pptx.Unmarshalled (PptxSpec.textSlide "first") |} ]) =
    Ok (lit "## Slide 1" ++ [10] ++ lit "second" ++ [10; 10] ++
        lit "## Slide 2" ++ [10] ++ lit "first" ++ [10; 10]).
Proof.
  split; [| split; [| vm_compute; reflexivity]].
  - intros Hsame. rewrite !ParseFromReader_sections, (decodedSlides_same _ _ Hsame).
    reflexivity.
  - rewrite ParseFromReader_sections. unfold PptxSpec.decodedSlides. cbn [flat_map Pptx.Name Pptx.Open].
    replace (Pptx.isSlideFile (PptxSpec.slidePath "slide1.xml")) with true by (vm_compute; reflexivity).
    replace (Pptx.isSlideFile (PptxSpec.slidePath "slide2.xml")) with true by (vm_compute; reflexivity).
    cbn [app PptxSpec.sections]. rewrite !slideSection_text, app_nil_r, <- !app_assoc.
    reflexivity.
Qed.

(** Two archives with other names around the same two slides: both give the
    two sections, numbered 1 and 2. *)
Lemma pptx_numbering_by_order_witness :
  Pptx.ParseFromReader
    (Some [ {| Pptx.Name := PptxSpec.slidePath "slide7.xml";
               Pptx.Open := Pptx.Unmarshalled (PptxSpec.textSlide "a") |};
            {| Pptx.Name := lit "docProps/app.xml"; Pptx.Open := Pptx.OpenFails |};
            {| Pptx.Name := PptxSpec.slidePath "slide3.xml";
               Pptx.Open := Pptx.Unmarshalled (PptxSpec.textSlide "b") |} ]) =
  Pptx.ParseFromReader
    (Some [ {| Pptx.Name := PptxSpec.slidePath "slide1.xml";
               Pptx.Open := Pptx.Unmarshalled (PptxSpec.textSlide "a") |};
            {| Pptx.Name := PptxSpec.slidePath "slideMaster1.xml"; Pptx.Open := Pptx.OpenFails |};
            {| Pptx.Name := PptxSpec.slidePath "slide2.xml";
               Pptx.Open := Pptx.Unmarshalled (PptxSpec.textSlide "b") |} ]) /\
  Pptx.ParseFromReader
    (Some [ {| Pptx.Name := PptxSpec.slidePath "slide7.xml";
               Pptx.Open := Pptx.Unmarshalled (PptxSpec.textSlide "a") |};
            {| Pptx.Name := lit "docProps/app.xml"; Pptx.Open := Pptx.OpenFails |};
            {| Pptx.Name := PptxSpec.slidePath "slide3.xml";
               Pptx.Open := Pptx.Unmarshalled (PptxSpec.textSlide "b") |} ]) =
    Ok (lit "## Slide 1" ++ [10] ++ lit "a" ++ [10; 10] ++
        lit "## Slide 2" ++ [10] ++ lit "b" ++ [10; 10]).
Proof.
  split; [| vm_compute; reflexivity].
  apply (proj1 (pptx_numbering_by_order _ _ PptxSpec.emptySlide PptxSpec.emptySlide)).
  repeat constructor; vm_compute; reflexivity.
Defined.

Lemma paragraphText_runs (paragraph : Pptx.Paragraph) :
  Pptx.paragraphText paragraph = flat_map Pptx.Text (Pptx.Runs paragraph).
Proof.
  unfold Pptx.paragraphText. rewrite (fold_left_append _ Pptx.Text); [reflexivity |].
  intros acc run. destruct (Pptx.Text run); [rewrite app_nil_r |]; reflexivity.
Qed.

Lemma slideLines_paragraphs (paragraphs : list Pptx.Paragraph) :
  forall init,
    fold_left
      (fun result paragraph =>
         let paragraphText := Pptx.paragraphText paragraph in
         if (0 <? length paragraphText)%nat then result ++ [paragraphText] else result)
      paragraphs init =
    init ++ List.filter nonEmpty (List.map Pptx.paragraphText paragraphs).
Proof.
  induction paragraphs as [| p ps IH]; intros init; cbn [fold_left List.map List.filter].
  - rewrite app_nil_r. reflexivity.
  - rewrite IH. cbv zeta. destruct (Pptx.paragraphText p); cbn [length Nat.ltb Nat.leb nonEmpty];
      [reflexivity | rewrite <- app_assoc; reflexivity].
Qed.

Lemma slideLines_shapes (shapes : list Pptx.Shape) :
  forall init,
    fold_left
      (fun result shape =>
         fold_left
           (fun result paragraph =>
              let paragraphText := Pptx.paragraphText paragraph in
              if (0 <? length paragraphText)%nat
              then result ++ [paragraphText] else result)
           (Pptx.Paragraphs (Pptx.Shape_TextBody shape)) result)
      shapes init =
    init ++ List.filter nonEmpty
              (List.map Pptx.paragraphText
                 (flat_map (fun shape => Pptx.Paragraphs (Pptx.Shape_TextBody shape)) shapes)).
Proof.
  induction shapes as [| shape shapes IH]; intros init; cbn [fold_left flat_map].
  - rewrite app_nil_r. reflexivity.
  - rewrite IH, slideLines_paragraphs, List.map_app, List.filter_app, <- app_assoc.
    reflexivity.
Qed.

Lemma slideLines_filter (slide : Pptx.Slide) :
  Pptx.slideLines slide =
  List.filter nonEmpty (List.map Pptx.paragraphText (slideParagraphs slide)).
Proof.
  unfold Pptx.slideLines, slideParagraphs.
  apply (slideLines_shapes (Pptx.Shapes (Pptx.Slide_SlideData slide)) []).
Qed.

Lemma Join_nonempty (e : text) (rest : list text) (sep : text) :
  e <> [] -> (0 <? length (Join (e :: rest) sep))%nat = true.
Proof.
  intros He. destruct e as [| c e]; [contradiction |].
  cbn [Join]. destruct rest; reflexivity.
Qed.

Lemma filter_nonEmpty_head (l : list text) (e : text) (rest : list text) :
  List.filter nonEmpty l = e :: rest -> e <> [].
Proof.
  induction l as [| x l IH]; [discriminate |].
  cbn [List.filter]. destruct x as [| c x]; cbn [nonEmpty]; [exact IH |].
  intros H. injection H as <- _. discriminate.
Qed.

(** X13: the text of a slide is the non-empty paragraph texts of all its
    shapes, one per line, a paragraph text being its runs put together; empty
    paragraphs leave no line and a shape without paragraphs adds nothing.  A
    slide without any such line gets the placeholder [(No text found)] under
    its header, any other slide its lines. *)
Theorem pptx_slide_text (slide : Pptx.Slide) (paragraph : Pptx.Paragraph) (n : nat) :
  Pptx.paragraphText paragraph = flat_map Pptx.Text (Pptx.Runs paragraph) /\
  Pptx.slideLines slide =
    List.filter nonEmpty (List.map Pptx.paragraphText (slideParagraphs slide)) /\
  Forall (fun line => line <> []) (Pptx.slideLines slide) /\
  (Pptx.slideLines slide = [] ->
   Pptx.slideSection n slide =
     (lit "## Slide " ++ itoa n ++ [10]) ++ lit "(No text found)" ++ [10; 10]) /\
  (Pptx.slideLines slide <> [] ->
   Pptx.slideSection n slide =
     (lit "## Slide " ++ itoa n ++ [10]) ++ Join (Pptx.slideLines slide) [10] ++ [10; 10]).
Proof.
  split; [apply paragraphText_runs |]. split; [apply slideLines_filter |].
  split; [| split].
  - rewrite slideLines_filter. apply List.Forall_forall. intros line Hline.
    apply filter_In in Hline as [_ Hline]. destruct line; [discriminate | discriminate].
  - intros Hnone. unfold Pptx.slideSection, Pptx.extractTextFromSlide.
    rewrite Hnone. reflexivity.
  - intros Hsome. unfold Pptx.slideSection, Pptx.extractTextFromSlide.
    destruct (Pptx.slideLines slide) as [| e rest] eqn:Hl; [contradiction |].
    rewrite slideLines_filter in Hl. apply filter_nonEmpty_head in Hl.
    rewrite (Join_nonempty e rest [10] Hl). reflexivity.
Qed.

Lemma pptx_slide_text_witness :
  Pptx.slideSection 3
    {| Pptx.Slide_SlideData :=
        {| Pptx.Shapes :=
            [ {| Pptx.Shape_TextBody := {| Pptx.Paragraphs := [] |} |};
              {| Pptx.Shape_TextBody :=
                  {| Pptx.Paragraphs := [ {| Pptx.Runs := [ {| Pptx.Text := [] |} ] |} ] |} |} ] |} |} =
  (lit "## Slide " ++ itoa 3 ++ [10]) ++ lit "(No text found)" ++ [10; 10].
Proof.
  apply (pptx_slide_text _ {| Pptx.Runs := [] |} 3). reflexivity.
Defined.

(** *** The earlier Excel extractor *)

Lemma writeRows_sheetText (rows : list (option (list text))) (buf : text) :
  ExcelV1.writeRows buf rows = buf ++ Excel.sheetText rows.
Proof.
  unfold ExcelV1.writeRows. rewrite sheetText_flat.
  apply (fold_left_append _ ExcelSpec.rowLine).
  intros acc [row |]; [reflexivity | rewrite app_nil_r; reflexivity].
Qed.

Lemma sheetStep_piece (f : Excel.File) (buf sheet : text) :
  ExcelV1.sheetStep f buf sheet = buf ++ sheetPiece f sheet.
Proof.
  unfold ExcelV1.sheetStep, sheetPiece. destruct (Excel.Rows f sheet).
  - rewrite writeRows_sheetText, <- !app_assoc. reflexivity.
  - rewrite app_nil_r. reflexivity.
Qed.

Lemma ExcelV1_pieces (f : Excel.File) :
  ExcelV1.ParseFromReader (Some f) =
  match Excel.GetSheetList f with
  | [] => Err ErrNoDataFound
  | _ :: _ => Ok (flat_map (sheetPiece f) (Excel.GetSheetList f))
  end.
Proof.
  unfold ExcelV1.ParseFromReader.
  rewrite (fold_left_append _ (sheetPiece f)) by (intros; apply sheetStep_piece).
  destruct (Excel.GetSheetList f) as [| sheet sheets]; [reflexivity |].
  cbn [app flat_map]. unfold sheetPiece at 1. reflexivity.
Qed.

Lemma pieces_sections (f : Excel.File) (l : list text) :
  (forall sheet, In sheet l -> Excel.Rows f sheet <> None) ->
  flat_map (sheetPiece f) l =
  flat_map Excel.sheetSection (flat_map (ExcelSpec.sheetEntry f) l).
Proof.
  induction l as [| sheet l IH]; intros Hall; [reflexivity |].
  cbn [flat_map]. rewrite flat_map_app, IH by (intros k Hk; apply Hall; right; exact Hk).
  f_equal. unfold sheetPiece, ExcelSpec.sheetEntry.
  destruct (Excel.Rows f sheet) eqn:Hr; [| exfalso; exact (Hall sheet (or_introl eq_refl) Hr)].
  cbn [flat_map]. rewrite app_nil_r. reflexivity.
Qed.

(** X14: the earlier [ParseFromReader], which writes the header of a sheet
    before asking for its rows, fails with "no data found" only for a workbook
    without sheets, and keeps the header of every sheet, also of one whose
    rows cannot be obtained.  On the workbooks all of whose sheets deliver
    their rows it returns exactly what the later [ParseFromReader] returns. *)
Theorem excel_earlier_version (f : Excel.File) :
  (ExcelV1.ParseFromReader (Some f) = Err ErrNoDataFound <-> Excel.GetSheetList f = []) /\
  (forall sheet, In sheet (Excel.GetSheetList f) ->
     exists t, ExcelV1.ParseFromReader (Some f) = Ok t /\
               Contains t (lit "# Sheet " ++ sheet ++ [10]) = true) /\
  ((forall sheet, In sheet (Excel.GetSheetList f) -> Excel.Rows f sheet <> None) ->
   ExcelV1.ParseFromReader (Some f) = Excel.ParseFromReader (Some f)).
Proof.
  rewrite ExcelV1_pieces. split; [| split].
  - destruct (Excel.GetSheetList f); split; try reflexivity; discriminate.
  - intros sheet Hin. destruct (Excel.GetSheetList f) as [| s l] eqn:Hl; [destruct Hin |].
    eexists. split; [reflexivity |].
    eapply (Contains_flat_map (sheetPiece f)); [exact Hin |].
    unfold sheetPiece. reflexivity.
  - intros Hall. rewrite ParseFromReader_sheets, collectSheets_flat.
    rewrite <- (pieces_sections f _ Hall).
    destruct (Excel.GetSheetList f) as [| s l] eqn:Hl; [reflexivity |].
    cbn [flat_map]. unfold ExcelSpec.sheetEntry at 1.
    destruct (Excel.Rows f s) eqn:Hr;
      [reflexivity | exfalso; exact (Hall s (or_introl eq_refl) Hr)].
Qed.

Lemma excel_earlier_version_witness :
  ExcelV1.ParseFromReader (Some ExcelSpec.workbookAB) =
    Excel.ParseFromReader (Some ExcelSpec.workbookAB) /\
  exists t, ExcelV1.ParseFromReader (Some ExcelSpec.oneUnreadableSheet) = Ok t /\
            Contains t (lit "# Sheet " ++ lit "Sheet1" ++ [10]) = true.
Proof.
  split.
  - apply (proj2 (proj2 (excel_earlier_version ExcelSpec.workbookAB))).
    intros sheet [<- | [<- | []]]; vm_compute; discriminate.
  - apply (proj1 (proj2 (excel_earlier_version ExcelSpec.oneUnreadableSheet))).
    left. reflexivity.
Defined.

End ExtractorsMore.

(** ** The factory *)

Section FactoryProps.
Import Factory MoreSpec.

Lemma scanExtension_none (filePath : text) :
  Forall (fun r => r <> 0x2E) filePath ->
  forall i, scanExtension filePath i = [].
Proof.
  intros Hpath i.
  assert (Hnth : forall k, (nth k filePath 0 =? 0x2E) = false).
  { intros k. apply Z.eqb_neq. destruct (Nat.lt_ge_cases k (length filePath)) as [Hlt | Hge].
    - apply (proj1 (List.Forall_forall _ _) Hpath). apply nth_In. exact Hlt.
    - rewrite nth_overflow by exact Hge. lia. }
  induction i as [| i IH]; cbn [scanExtension]; rewrite Hnth; [reflexivity | exact IH].
Qed.

Lemma scanExtension_last_dot (p e : text) :
  Forall (fun r => r <> 0x2E) e ->
  forall k, (k <= length e)%nat ->
            scanExtension (p ++ 0x2E :: e) (length p + k) = 0x2E :: e.
Proof.
  intros He k. induction k as [| k IH]; intros Hk.
  - rewrite Nat.add_0_r.
    destruct (length p) eqn:Hp; cbn [scanExtension]; rewrite <- Hp;
      rewrite nth_middle; cbn [Z.eqb Pos.eqb];
      rewrite skipn_app, skipn_all, Nat.sub_diag; reflexivity.
  - replace (length p + S k)%nat with (S (length p + k)) by lia.
    cbn [scanExtension].
    replace (nth (S (length p + k)) (p ++ 0x2E :: e) 0) with (nth k e 0).
    + assert (Hne : nth k e 0 <> 0x2E)
        by (apply (proj1 (List.Forall_forall _ _) He), nth_In; lia).
      apply Z.eqb_neq in Hne. rewrite Hne. apply IH. lia.
    + rewrite app_nth2 by lia.
      replace (S (length p + k) - length p)%nat with (S k) by lia. reflexivity.
Qed.

(** X15: [getFileExtension] returns the part of the path from its last dot
    on, the dot included, and the empty string for a path without dot.  Path
    separators play no part: for [dir.v2/readme] the result is [.v2/readme]. *)
Theorem file_extension_from_last_dot (p e filePath : text) :
  (Forall (fun r => r <> 0x2E) e ->
   getFileExtension (p ++ 0x2E :: e) = 0x2E :: e) /\
  (Forall (fun r => r <> 0x2E) filePath -> getFileExtension filePath = []) /\
  getFileExtension (lit "dir.v2/readme") = lit ".v2/readme" /\
  getFileExtension (lit ".gitignore") = lit ".gitignore" /\
  getFileExtension (lit "report.final.PDF") = lit ".PDF".
Proof.
  split; [| split; [| repeat split; vm_compute; reflexivity]].
  - intros He. unfold getFileExtension. rewrite length_app. cbn [length].
    replace (length p + S (length e))%nat with (S (length p + length e)) by lia.
    apply scanExtension_last_dot; [exact He | lia].
  - intros Hpath. unfold getFileExtension.
    destruct (length filePath); [reflexivity | apply scanExtension_none, Hpath].
Qed.

Lemma file_extension_from_last_dot_witness :
  getFileExtension (lit "a.b/c" ++ 0x2E :: lit "txt") = 0x2E :: lit "txt" /\
  getFileExtension (lit "Makefile") = [].
Proof.
  split.
  - apply (proj1 (file_extension_from_last_dot (lit "a.b/c") (lit "txt") [])).
    repeat (constructor; [vm_compute; discriminate |]). constructor.
  - apply (proj1 (proj2 (file_extension_from_last_dot [] [] (lit "Makefile")))).
    repeat (constructor; [vm_compute; discriminate |]). constructor.
Defined.

Lemma toLower_dot (lib : Libraries) : toLower lib 0x2E = 0x2E.
Proof. reflexivity. Qed.

Lemma toLower_ascii_idem (lib : Libraries) (r : rune) :
  0 <= r < 0x80 -> toLower lib (toLower lib r) = toLower lib r.
Proof.
  intros Hr. unfold toLower.
  destruct (Z.ltb_spec r 0x80); [| lia].
  destruct (Z.leb_spec 0x41 r); destruct (Z.leb_spec r 0x5A); cbn [andb];
    repeat match goal with
           | |- context [?a <? ?b] => destruct (Z.ltb_spec a b)
           | |- context [?a <=? ?b] => destruct (Z.leb_spec a b)
           end; cbn [andb]; lia.
Qed.

Lemma lookupKey_dot (lib : Libraries) (extension : text) :
  HasPrefix (lookupKey lib extension) (lit ".") = true.
Proof.
  unfold lookupKey. destruct (HasPrefix (ToLower lib extension) (lit ".")) eqn:Hp;
    [exact Hp | reflexivity].
Qed.

Lemma GetParser_same_key (lib : Libraries) (f : DocumentParserFactory) (a b : text) :
  lookupKey lib a = lookupKey lib b ->
  sameParser (GetParser lib f a) (GetParser lib f b).
Proof.
  intros Hkey. unfold GetParser. rewrite Hkey.
  destruct (parsers f !! lookupKey lib b); [reflexivity | exact I].
Qed.

(** X16: [GetParser] does not tell apart an extension from its lower-case
    form (for ASCII), nor an extension written without the leading dot from
    the same with the dot: it answers with the same parser, or with none, for
    both.  The key it looks up always starts with a dot, so a parser
    registered under a key without one is never found. *)
Theorem get_parser_normalises
    (lib : Libraries) (f : DocumentParserFactory) (ext key : text) :
  (Forall (fun r => 0 <= r < 0x80) ext ->
   sameParser (GetParser lib f (ToLower lib ext)) (GetParser lib f ext)) /\
  (HasPrefix (ToLower lib ext) (lit ".") = false ->
   sameParser (GetParser lib f (lit "." ++ ext)) (GetParser lib f ext)) /\
  (HasPrefix key (lit ".") = false -> lookupKey lib ext <> key) /\
  lookupKey lib (lit "PDF") = lit ".pdf" /\
  lookupKey lib (lit ".Docx") = lit ".docx".
Proof.
  split; [| split; [| split; [| split; reflexivity]]].
  - intros Hascii. apply GetParser_same_key. unfold lookupKey.
    replace (ToLower lib (ToLower lib ext)) with (ToLower lib ext); [reflexivity |].
    unfold ToLower. rewrite List.map_map.
    induction Hascii as [| r l Hr _ IH]; [reflexivity |].
    cbn [List.map]. rewrite (toLower_ascii_idem lib r Hr), <- IH. reflexivity.
  - intros Hnodot. apply GetParser_same_key. unfold lookupKey.
    unfold ToLower at 1. rewrite List.map_app. fold (ToLower lib ext).
    change (List.map (toLower lib) (lit ".")) with (lit ".").
    rewrite HasPrefix_app, Hnodot. reflexivity.
  - intros Hkey Heq. rewrite <- Heq, lookupKey_dot in Hkey. discriminate.
Qed.

Lemma get_parser_normalises_witness :
  sameParser (GetParser noLibraries (NewDocumentParserFactory noLibraries)
                (ToLower noLibraries (lit "XLSX")))
             (GetParser noLibraries (NewDocumentParserFactory noLibraries) (lit "XLSX")) /\
  sameParser (GetParser noLibraries (NewDocumentParserFactory noLibraries)
                (lit "." ++ lit "Md"))
             (GetParser noLibraries (NewDocumentParserFactory noLibraries) (lit "Md")) /\
  lookupKey noLibraries (lit ".R") <> lit "R".
Proof.
  split; [| split].
  - apply (proj1 (get_parser_normalises noLibraries _ (lit "XLSX") [])).
    change (lit "XLSX") with [0x58; 0x4C; 0x53; 0x58].
    repeat (constructor; [lia |]). constructor.
  - apply (proj1 (proj2 (get_parser_normalises noLibraries _ (lit "Md") []))).
    reflexivity.
  - apply (proj1 (proj2 (proj2 (get_parser_normalises noLibraries
                                   (NewDocumentParserFactory noLibraries) (lit ".R") (lit "R"))))).
    reflexivity.
Defined.

Lemma hasExt_In (extensions : list text) (ext : text) :
  hasExt extensions ext = true <-> In ext extensions.
Proof.
  unfold hasExt. rewrite existsb_exists. split.
  - intros (e & He & Heq). apply text_eqb_eq in Heq. subst. exact He.
  - intros Hin. exists ext. split; [exact Hin | apply text_eqb_eq; reflexivity].
Qed.

Lemma register_lookup (parser : DocumentParser) (extensions : list text) (k : text) :
  forall m : gmap text DocumentParser,
    fold_left (fun m ext => <[ext := parser]> m) extensions m !! k =
    if hasExt extensions k then Some parser else m !! k.
Proof.
  induction extensions as [| e extensions IH]; intros m; [reflexivity |].
  cbn [fold_left]. rewrite IH. unfold hasExt. cbn [existsb]. fold (hasExt extensions k).
  destruct (hasExt extensions k); [rewrite orb_true_r; reflexivity |].
  rewrite orb_false_r. destruct (text_eqb k e) eqn:He.
  - apply text_eqb_eq in He. subst. apply lookup_insert_eq.
  - apply lookup_insert_ne. intros Heq. subst.
    rewrite (proj2 (text_eqb_eq k k) eq_refl) in He. discriminate.
Qed.

Lemma RegisterParser_lookup (f : DocumentParserFactory) (parser : DocumentParser) (k : text) :
  parsers (RegisterParser f parser) !! k =
  if hasExt (SupportedExtensions parser) k then Some parser else parsers f !! k.
Proof. apply register_lookup. Qed.

(** X17: after [RegisterParser] the parser is found under every one of its
    extensions, replacing what was registered there, and every other key
    answers as before; [GetParser] returns the parser for the extensions whose
    looked-up key is among them. *)
Theorem register_then_get
    (lib : Libraries) (f : DocumentParserFactory) (parser : DocumentParser) (ext : text) :
  (In ext (SupportedExtensions parser) ->
   parsers (RegisterParser f parser) !! ext = Some parser) /\
  (~ In ext (SupportedExtensions parser) ->
   parsers (RegisterParser f parser) !! ext = parsers f !! ext) /\
  (In (lookupKey lib ext) (SupportedExtensions parser) ->
   GetParser lib (RegisterParser f parser) ext = inr parser) /\
  (~ In (lookupKey lib ext) (SupportedExtensions parser) ->
   sameParser (GetParser lib (RegisterParser f parser) ext) (GetParser lib f ext)).
Proof.
  repeat split.
  - intros Hin. rewrite RegisterParser_lookup, (proj2 (hasExt_In _ _) Hin). reflexivity.
  - intros Hout. rewrite RegisterParser_lookup.
    destruct (hasExt (SupportedExtensions parser) ext) eqn:Hh; [| reflexivity].
    apply hasExt_In in Hh. contradiction.
  - intros Hin. unfold GetParser.
    rewrite RegisterParser_lookup, (proj2 (hasExt_In _ _) Hin). reflexivity.
  - intros Hout. unfold GetParser. rewrite RegisterParser_lookup.
    destruct (hasExt (SupportedExtensions parser) (lookupKey lib ext)) eqn:Hh.
    + apply hasExt_In in Hh. contradiction.
    + destruct (parsers f !! lookupKey lib ext); [reflexivity | exact I].
Qed.

Lemma register_then_get_witness :
  GetParser noLibraries
    (RegisterParser (NewDocumentParserFactory noLibraries) (PDFParser noLibraries))
    (lit "PDF") = inr (PDFParser noLibraries) /\
  parsers (RegisterParser {| parsers := ∅ |} (PDFParser noLibraries)) !! lit ".txt" = None.
Proof.
  split.
  - apply (proj1 (proj2 (proj2 (register_then_get noLibraries
                                   (NewDocumentParserFactory noLibraries)
                                   (PDFParser noLibraries) (lit "PDF"))))).
    left. reflexivity.
  - rewrite (proj1 (proj2 (register_then_get noLibraries {| parsers := ∅ |}
                             (PDFParser noLibraries) (lit ".txt")))).
    + apply lookup_empty.
    + intros [H | []]. vm_compute in H. discriminate.
Defined.

Lemma default_lookup (lib : Libraries) (k : text) :
  parsers (NewDocumentParserFactory lib) !! k =
  if hasExt [lit ".xlsx"; lit ".xls"] k then Some (ExcelParser lib)
  else if hasExt textExtensions k then Some (TextParser lib)
  else if hasExt [lit ".docx"; lit ".doc"] k then Some (DOCXParser lib)
  else if hasExt [lit ".pdf"] k then Some (PDFParser lib)
  else if hasExt [lit ".pptx"; lit ".ppt"] k then Some (PPTXParser lib)
  else None.
Proof.
  unfold NewDocumentParserFactory. cbv zeta.
  rewrite !RegisterParser_lookup. cbn [SupportedExtensions ExcelParser TextParser
    DOCXParser PDFParser PPTXParser parsers].
  rewrite lookup_empty. reflexivity.
Qed.

Lemma disjoint_extensions (a b : list text) (k : text) :
  forallb (fun e => negb (hasExt b e)) a = true ->
  hasExt a k = true -> hasExt b k = false.
Proof.
  intros Hdis Ha. apply hasExt_In in Ha.
  apply (proj1 (forallb_forall _ _) Hdis) in Ha. apply negb_true_iff in Ha. exact Ha.
Qed.

(** X18: the factory that [NewDocumentParserFactory] builds holds, under each
    extension of the five lists, the parser that declares it, and nothing
    under any other key; the lists do not overlap, so the order of the
    registrations plays no part.  Hence [GetParser] succeeds exactly for the
    extensions whose lower-cased, dotted form is in one of the lists. *)
Theorem default_factory_dispatch (lib : Libraries) (k ext : text) :
  (hasExt [lit ".pptx"; lit ".ppt"] k = true ->
   parsers (NewDocumentParserFactory lib) !! k = Some (PPTXParser lib)) /\
  (hasExt [lit ".pdf"] k = true ->
   parsers (NewDocumentParserFactory lib) !! k = Some (PDFParser lib)) /\
  (hasExt [lit ".docx"; lit ".doc"] k = true ->
   parsers (NewDocumentParserFactory lib) !! k = Some (DOCXParser lib)) /\
  (hasExt textExtensions k = true ->
   parsers (NewDocumentParserFactory lib) !! k = Some (TextParser lib)) /\
  (hasExt [lit ".xlsx"; lit ".xls"] k = true ->
   parsers (NewDocumentParserFactory lib) !! k = Some (ExcelParser lib)) /\
  (hasExt ([lit ".pptx"; lit ".ppt"] ++ [lit ".pdf"] ++ [lit ".docx"; lit ".doc"] ++
           textExtensions ++ [lit ".xlsx"; lit ".xls"]) k = false ->
   parsers (NewDocumentParserFactory lib) !! k = None) /\
  ((exists parser, GetParser lib (NewDocumentParserFactory lib) ext = inr parser) <->
   hasExt ([lit ".pptx"; lit ".ppt"] ++ [lit ".pdf"] ++ [lit ".docx"; lit ".doc"] ++
           textExtensions ++ [lit ".xlsx"; lit ".xls"]) (lookupKey lib ext) = true).
Proof.
  assert (Hsplit : forall key,
            hasExt ([lit ".pptx"; lit ".ppt"] ++ [lit ".pdf"] ++ [lit ".docx"; lit ".doc"] ++
                    textExtensions ++ [lit ".xlsx"; lit ".xls"]) key =
            hasExt [lit ".pptx"; lit ".ppt"] key || (hasExt [lit ".pdf"] key ||
            (hasExt [lit ".docx"; lit ".doc"] key || (hasExt textExtensions key ||
             hasExt [lit ".xlsx"; lit ".xls"] key)))).
  { intros key. unfold hasExt. rewrite !existsb_app. reflexivity. }
  rewrite !default_lookup.
  split; [| split; [| split; [| split; [| split; [| split]]]]].
  - intros H.
    rewrite (disjoint_extensions [lit ".pptx"; lit ".ppt"] [lit ".xlsx"; lit ".xls"] k
               ltac:(vm_compute; reflexivity) H).
    rewrite (disjoint_extensions [lit ".pptx"; lit ".ppt"] textExtensions k
               ltac:(vm_compute; reflexivity) H).
    rewrite (disjoint_extensions [lit ".pptx"; lit ".ppt"] [lit ".docx"; lit ".doc"] k
               ltac:(vm_compute; reflexivity) H).
    rewrite (disjoint_extensions [lit ".pptx"; lit ".ppt"] [lit ".pdf"] k
               ltac:(vm_compute; reflexivity) H).
    rewrite H. reflexivity.
  - intros H.
    rewrite (disjoint_extensions [lit ".pdf"] [lit ".xlsx"; lit ".xls"] k
               ltac:(vm_compute; reflexivity) H).
    rewrite (disjoint_extensions [lit ".pdf"] textExtensions k
               ltac:(vm_compute; reflexivity) H).
    rewrite (disjoint_extensions [lit ".pdf"] [lit ".docx"; lit ".doc"] k
               ltac:(vm_compute; reflexivity) H).
    rewrite H. reflexivity.
  - intros H.
    rewrite (disjoint_extensions [lit ".docx"; lit ".doc"] [lit ".xlsx"; lit ".xls"] k
               ltac:(vm_compute; reflexivity) H).
    rewrite (disjoint_extensions [lit ".docx"; lit ".doc"] textExtensions k
               ltac:(vm_compute; reflexivity) H).
    rewrite H. reflexivity.
  - intros H.
    rewrite (disjoint_extensions textExtensions [lit ".xlsx"; lit ".xls"] k
               ltac:(vm_compute; reflexivity) H).
    rewrite H. reflexivity.
  - intros H. rewrite H. reflexivity.
  - rewrite Hsplit. intros H.
    apply orb_false_iff in H as [H1 H]. apply orb_false_iff in H as [H2 H].
    apply orb_false_iff in H as [H3 H]. apply orb_false_iff in H as [H4 H5].
    rewrite H1, H2, H3, H4, H5. reflexivity.
  - unfold GetParser. rewrite default_lookup, Hsplit.
    destruct (hasExt [lit ".xlsx"; lit ".xls"] (lookupKey lib ext));
      [rewrite !orb_true_r; split; [reflexivity | eexists; reflexivity] |].
    destruct (hasExt textExtensions (lookupKey lib ext));
      [rewrite !orb_true_r; split; [reflexivity | eexists; reflexivity] |].
    destruct (hasExt [lit ".docx"; lit ".doc"] (lookupKey lib ext));
      [rewrite !orb_true_r; split; [reflexivity | eexists; reflexivity] |].
    destruct (hasExt [lit ".pdf"] (lookupKey lib ext));
      [rewrite !orb_true_r; split; [reflexivity | eexists; reflexivity] |].
    destruct (hasExt [lit ".pptx"; lit ".ppt"] (lookupKey lib ext));
      [split; [reflexivity | eexists; reflexivity] |].
    cbn [orb]. split; [intros [parser H]; discriminate | discriminate].
Qed.

Lemma default_factory_dispatch_witness :
  parsers (NewDocumentParserFactory noLibraries) !! lit ".doc" = Some (DOCXParser noLibraries) /\
  parsers (NewDocumentParserFactory noLibraries) !! lit ".R" = Some (TextParser noLibraries) /\
  parsers (NewDocumentParserFactory noLibraries) !! lit ".zip" = None /\
  exists parser,
    GetParser noLibraries (NewDocumentParserFactory noLibraries) (lit "Markdown") = inr parser.
Proof.
  split; [| split; [| split]].
  - apply (proj1 (proj2 (proj2 (default_factory_dispatch noLibraries (lit ".doc") [])))).
    vm_compute. reflexivity.
  - apply (proj1 (proj2 (proj2 (proj2 (default_factory_dispatch noLibraries (lit ".R") []))))).
    vm_compute. reflexivity.
  - apply (proj1 (proj2 (proj2 (proj2 (proj2 (proj2
             (default_factory_dispatch noLibraries (lit ".zip") []))))))).
    vm_compute. reflexivity.
  - apply (proj2 (proj2 (proj2 (proj2 (proj2 (proj2
             (default_factory_dispatch noLibraries [] (lit "Markdown")))))))).
    vm_compute. reflexivity.
Defined.

Lemma GetParser_default (lib : Libraries) (ext : text) (parser : DocumentParser) :
  parsers (NewDocumentParserFactory lib) !! lookupKey lib ext = Some parser ->
  GetParser lib (NewDocumentParserFactory lib) ext = inr parser.
Proof. intros H. unfold GetParser. rewrite H. reflexivity. Qed.

Lemma GetParser_docx (lib : Libraries) :
  GetParser lib (NewDocumentParserFactory lib) (lit ".docx") = inr (DOCXParser lib).
Proof. apply GetParser_default. rewrite default_lookup. reflexivity. Qed.

Lemma GetParser_txt (lib : Libraries) :
  GetParser lib (NewDocumentParserFactory lib) (lit ".txt") = inr (TextParser lib).
Proof. apply GetParser_default. rewrite default_lookup. reflexivity. Qed.

Lemma GetParser_pptx (lib : Libraries) :
  GetParser lib (NewDocumentParserFactory lib) (lit ".pptx") = inr (PPTXParser lib).
Proof. apply GetParser_default. rewrite default_lookup. reflexivity. Qed.

Lemma GetParser_pdf (lib : Libraries) :
  GetParser lib (NewDocumentParserFactory lib) (lit ".pdf") = inr (PDFParser lib).
Proof. apply GetParser_default. rewrite default_lookup. reflexivity. Qed.

Lemma GetParser_xlsx (lib : Libraries) :
  GetParser lib (NewDocumentParserFactory lib) (lit ".xlsx") = inr (ExcelParser lib).
Proof. apply GetParser_default. rewrite default_lookup. reflexivity. Qed.

Lemma BaseParser_ParseFromFile_fails (lib : Libraries) (filePath : text) :
  exists e,
    BaseParser_ParseFromFile lib filePath = Fail e /\
    (e = FailedToOpenFile \/ e = FailedToGetFileStats \/ e = NotImplemented).
Proof.
  unfold BaseParser_ParseFromFile, openAndParse.
  destruct (os_Open lib filePath) as [file |]; [| eexists; split; [reflexivity | tauto]].
  destruct (Stat_Size file); eexists; (split; [reflexivity | tauto]).
Qed.

(** X19: [DOCXParser] declares [ParseFromReader] only and [TextParser] no
    [ParseFromFile]; the methods they lack come from the embedded
    [BaseParser], whose [ParseFromReader] is the stub.  So parsing a Word
    document from bytes fails with "ParseFromReader not implemented" whatever
    the bytes, also through the factory, and [ParseFromFile] of these two
    parsers never returns a text: the file does not open, or its size is not
    obtained, or the stub answers. *)
Theorem promoted_methods_not_implemented
    (lib : Libraries) (data : list Byte.byte) (filePath : text) :
  ParseFromBytes (DOCXParser lib) data = Fail NotImplemented /\
  Factory_ParseFromBytes lib (NewDocumentParserFactory lib) (lit ".docx") data =
    Fail (Wrapped "failed to parse bytes" NotImplemented) /\
  (exists e, ParseFromFile (DOCXParser lib) filePath = Fail e /\
             (e = FailedToOpenFile \/ e = FailedToGetFileStats \/ e = NotImplemented)) /\
  (exists e, ParseFromFile (TextParser lib) filePath = Fail e /\
             (e = FailedToOpenFile \/ e = FailedToGetFileStats \/ e = NotImplemented)) /\
  (getFileExtension filePath = lit ".txt" \/ getFileExtension filePath = lit ".docx" ->
   exists e, Factory_ParseFromFile lib (NewDocumentParserFactory lib) filePath =
             Fail (Wrapped "failed to parse file" e)).
Proof.
  split; [reflexivity |].
  split; [unfold Factory_ParseFromBytes; rewrite GetParser_docx; reflexivity |].
  split; [apply BaseParser_ParseFromFile_fails |].
  split; [apply BaseParser_ParseFromFile_fails |].
  intros Hext. unfold Factory_ParseFromFile.
  destruct (BaseParser_ParseFromFile_fails lib filePath) as (e & He & _).
  exists e. destruct Hext as [-> | ->].
  - rewrite GetParser_txt. cbn [ParseFromFile TextParser]. rewrite He. reflexivity.
  - rewrite GetParser_docx. cbn [ParseFromFile DOCXParser]. rewrite He. reflexivity.
Qed.

Lemma promoted_methods_not_implemented_witness :
  exists e,
    Factory_ParseFromFile noLibraries (NewDocumentParserFactory noLibraries)
      (lit "notes.txt") = Fail (Wrapped "failed to parse file" e).
Proof.
  apply (proj2 (proj2 (proj2 (proj2
           (promoted_methods_not_implemented noLibraries [] (lit "notes.txt")))))).
  left. vm_compute. reflexivity.
Defined.

(** X20: through the factory, the bytes of a file with one of the text
    extensions, in any ASCII case and with or without the dot, come back
    unchanged when there are at most 100 MiB of them; beyond that the size
    error of the parser comes back wrapped. *)
Theorem factory_text_bytes (lib : Libraries) (ext : text) (data : list Byte.byte) :
  hasExt textExtensions (lookupKey lib ext) = true ->
  (TextParser.len data <= 104857600 ->
   Factory_ParseFromBytes lib (NewDocumentParserFactory lib) ext data = Return (Bytes data)) /\
  (104857600 < TextParser.len data ->
   Factory_ParseFromBytes lib (NewDocumentParserFactory lib) ext data =
     Fail (Wrapped "failed to parse bytes"
             (OfParser (ErrSizeExceeded (TextParser.len data) 104857600)))).
Proof.
  intros Hext. unfold Factory_ParseFromBytes.
  rewrite (GetParser_default lib ext (TextParser lib)).
  - cbn [ParseFromBytes TextParser]. split; intros Hlen.
    + rewrite ParseFromBytes_small by (rewrite maxSize_value; exact Hlen). reflexivity.
    + rewrite ParseFromBytes_large by (rewrite maxSize_value; exact Hlen). reflexivity.
  - rewrite default_lookup.
    rewrite (disjoint_extensions textExtensions [lit ".xlsx"; lit ".xls"] _
               ltac:(vm_compute; reflexivity) Hext).
    rewrite Hext. reflexivity.
Qed.

Lemma factory_text_bytes_witness :
  Factory_ParseFromBytes noLibraries (NewDocumentParserFactory noLibraries) (lit "JSON")
    [Byte.x7b; Byte.x7d] = Return (Bytes [Byte.x7b; Byte.x7d]).
Proof.
  apply (proj1 (factory_text_bytes noLibraries (lit "JSON") [Byte.x7b; Byte.x7d]
                  ltac:(vm_compute; reflexivity))).
  unfold TextParser.len. cbn [length]. lia.
Defined.

(** X21: of the five parsers only [ExcelParser] separates pages.  For a
    spreadsheet the factory hands back the map of [ParseWithPages]; for a
    presentation, a PDF or a text it hands back one section named [Content]
    that holds the whole text, all slides or pages together; for a Word
    document given as bytes it fails like [ParseFromBytes]. *)
Theorem pages_only_for_excel
    (lib : Libraries) (data : list Byte.byte) (files : list Pptx.File) :
  ParseFromBytesWithPages lib (NewDocumentParserFactory lib) (lit ".xlsx") data =
    ofPages (Excel.ParseWithPages
               (excelize_OpenReader lib (TextParser.NewReader data) (TextParser.len data))) /\
  (zip_NewReader_pptx lib (TextParser.NewReader data) (TextParser.len data) = Some files ->
   ParseFromBytesWithPages lib (NewDocumentParserFactory lib) (lit ".pptx") data =
     Return {[ lit "Content" :=
                 Runes (PptxSpec.sections 1 (PptxSpec.decodedSlides files)) ]}) /\
  ParseFromBytesWithPages lib (NewDocumentParserFactory lib) (lit ".pdf") data =
    contentOnly (wrap "failed to parse bytes"
                   (ofResult (PDF.ParseFromReader
                                (pdf_NewReader lib (TextParser.NewReader data)
                                   (TextParser.len data))))) /\
  (TextParser.len data <= 104857600 ->
   ParseFromBytesWithPages lib (NewDocumentParserFactory lib) (lit ".txt") data =
     Return {[ lit "Content" := Bytes data ]}) /\
  ParseFromBytesWithPages lib (NewDocumentParserFactory lib) (lit ".docx") data =
    Fail (Wrapped "failed to parse bytes" NotImplemented).
Proof.
  unfold ParseFromBytesWithPages.
  rewrite GetParser_xlsx, GetParser_pptx, GetParser_pdf, GetParser_txt, GetParser_docx.
  split; [reflexivity |]. split; [| split; [reflexivity | split; [| reflexivity]]].
  - intros Hzip. cbn [ParseWithPages PPTXParser ParseFromBytes].
    unfold PPTX_ParseFromReader. rewrite Hzip, ParseFromReader_sections. reflexivity.
  - intros Hlen. cbn [ParseWithPages TextParser ParseFromBytes].
    rewrite ParseFromBytes_small by (rewrite maxSize_value; exact Hlen). reflexivity.
Qed.

Lemma pages_only_for_excel_witness :
  ParseFromBytesWithPages noLibraries (NewDocumentParserFactory noLibraries) (lit ".txt")
    [Byte.x61] = Return {[ lit "Content" := Bytes [Byte.x61] ]}.
Proof.
  apply (proj1 (proj2 (proj2 (proj2 (pages_only_for_excel noLibraries [Byte.x61] []))))).
  unfold TextParser.len. cbn [length]. lia.
Defined.

End FactoryProps.
